(** * earnings-call-agents: the data-acquisition layer

    A shallow embedding of [fmp/src/fmp-earnings.ts] and
    [fmp/src/transcript-provider.ts], and the properties of the
    specification that are stated about them.

    Conventions of the embedding.
    - A JavaScript string is a [string]: the sequence of its bytes in
      UTF-8 (the strings are taken to be well-formed).  Equality,
      emptiness, concatenation, [split] on an ASCII separator and a regular
      expression made of ASCII characters give the same answers on that
      representation as on UTF-16 code units.
    - A JavaScript number is an IEEE-754 binary64 value, [spec_float] of the
      Standard Library with precision 53 and maximal exponent 1024.
    - The built-ins of the runtime are computed here, but for two: the case
      mapping of a string that is not ASCII, which depends on Unicode tables,
      and the prefix of [JSON.stringify] shown in two error messages.  Those
      are left to a [Host], over which every theorem is universally
      quantified.
    - Code that throws returns a [completion]; code that talks to the
      network or the disk takes the answers of the outside world as an
      argument and returns the list of the effects it performed. *)

From Stdlib Require Import ZArith List String Ascii Bool Lia.
From Stdlib Require Import SpecFloat DecimalString.
From stdpp Require Import base option list gmap strings.

Set Warnings "-register-all".

Local Open Scope string_scope.

(** ** Numbers *)

Module Num.

Definition number : Type := spec_float.

Definition prec : Z := 53.
Definition emax : Z := 1024.

Definition NaN : number := S754_nan.
Definition Infinity : number := S754_infinity false.

(** The Number value of a mathematical integer (round to nearest, ties to
    even); [neg] is the sign given to a zero. *)
Definition ofZs (neg : bool) (z : Z) : number := binary_normalize prec emax z 0 neg.
Definition ofZ (z : Z) : number := ofZs false z.

Definition add : number -> number -> number := SFadd prec emax.
Definition sub : number -> number -> number := SFsub prec emax.
Definition mul : number -> number -> number := SFmul prec emax.

(** [a > b] and [a <= b]; both are false when an operand is NaN. *)
Definition gt (a b : number) : bool := SFltb b a.
Definition le (a b : number) : bool := SFleb a b.

Definition isNaN (n : number) : bool :=
  match n with S754_nan => true | _ => false end.

(** [Number.isFinite] on a value that is a number. *)
Definition isFinite (n : number) : bool :=
  match n with
  | S754_zero _ | S754_finite _ _ _ => true
  | S754_infinity _ | S754_nan => false
  end.

Definition eqb (a b : number) : bool :=
  match a, b with
  | S754_zero s, S754_zero s' => Bool.eqb s s'
  | S754_infinity s, S754_infinity s' => Bool.eqb s s'
  | S754_nan, S754_nan => true
  | S754_finite s m e, S754_finite s' m' e' =>
      Bool.eqb s s' && Pos.eqb m m' && Z.eqb e e'
  | _, _ => false
  end.

End Num.

Abbreviation number := Num.number.

(** ** Strings *)

Module Str.

Definition code (c : ascii) : N := N_of_ascii c.

Definition isAsciiChar (c : ascii) : bool := (code c <? 128)%N.

Fixpoint isAscii (s : string) : bool :=
  match s with
  | EmptyString => true
  | String c r => isAsciiChar c && isAscii r
  end.

Definition isLower (c : ascii) : bool :=
  let n := code c in ((97 <=? n) && (n <=? 122))%N.

Definition isDigit (c : ascii) : bool :=
  let n := code c in ((48 <=? n) && (n <=? 57))%N.

Definition upcase (c : ascii) : ascii :=
  if isLower c then ascii_of_N (code c - 32) else c.

Fixpoint map (f : ascii -> ascii) (s : string) : string :=
  match s with
  | EmptyString => EmptyString
  | String c r => String (f c) (map f r)
  end.

Definition isEmpty (s : string) : bool :=
  match s with EmptyString => true | _ => false end.

Fixpoint ofCodes (codes : list N) : string :=
  match codes with
  | [] => EmptyString
  | n :: rest => String (ascii_of_N n) (ofCodes rest)
  end.

(** ECMAScript's WhiteSpace and LineTerminator code points, in UTF-8: TAB,
    LF, VT, FF, CR, SP, U+00A0, U+1680, U+2000 to U+200A, U+2028, U+2029,
    U+202F, U+205F, U+3000 and U+FEFF. *)
Definition whiteSpace : list string :=
  List.map ofCodes
    [ [9]; [10]; [11]; [12]; [13]; [32]; [194; 160]; [225; 154; 128];
      [226; 128; 128]; [226; 128; 129]; [226; 128; 130]; [226; 128; 131];
      [226; 128; 132]; [226; 128; 133]; [226; 128; 134]; [226; 128; 135];
      [226; 128; 136]; [226; 128; 137]; [226; 128; 138];
      [226; 128; 168]; [226; 128; 169]; [226; 128; 175]; [226; 129; 159];
      [227; 128; 128]; [239; 187; 191] ]%N.

(** The text after [prefix] when [s] starts with it. *)
Fixpoint dropPrefix (prefix s : string) : option string :=
  match prefix, s with
  | EmptyString, _ => Some s
  | String a p, String b r => if Ascii.eqb a b then dropPrefix p r else None
  | String _ _, EmptyString => None
  end.

(** The text after the white space character [s] starts with, if any. *)
Fixpoint stripOne (spaces : list string) (s : string) : option string :=
  match spaces with
  | [] => None
  | w :: rest =>
      match dropPrefix w s with
      | Some after => Some after
      | None => stripOne rest s
      end
  end.

Fixpoint trimStartN (fuel : nat) (s : string) : string :=
  match fuel with
  | O => s
  | S fuel' =>
      match stripOne whiteSpace s with
      | Some after => trimStartN fuel' after
      | None => s
      end
  end.

(** [TrimString(s, start)]: every step removes at least one byte, so the
    length of [s] is fuel enough. *)
Definition trimStart (s : string) : string := trimStartN (String.length s) s.

(** [TrimString(s, end)] *)
Fixpoint trimEnd (s : string) : string :=
  match s with
  | EmptyString => EmptyString
  | String c r => if isEmpty (trimStart s) then EmptyString else String c (trimEnd r)
  end.

(** [s.trim()] *)
Definition trim (s : string) : string := trimEnd (trimStart s).

(** [sep.join(parts)]-style concatenation with a separator. *)
Fixpoint join (sep : string) (parts : list string) : string :=
  match parts with
  | [] => ""
  | [p] => p
  | p :: rest => p ++ sep ++ join sep rest
  end.

(** [s.split(sep)] for a separator of one character. *)
Fixpoint split (sep : ascii) (s : string) : list string :=
  match s with
  | EmptyString => [""]
  | String c r =>
      if Ascii.eqb c sep then "" :: split sep r
      else match split sep r with
           | [] => [String c ""]
           | p :: ps => String c p :: ps
           end
  end.

(** Decimal digits of a natural number, as [String(n)] prints an integer. *)
Definition ofN (n : N) : string := NilZero.string_of_uint (N.to_uint n).
Definition ofNat (n : nat) : string := NilZero.string_of_uint (Nat.to_uint n).

End Str.

(** [s.trim()] and [TrimString(s, start)] *)
Definition trim : string -> string := Str.trim.
Definition trimStart : string -> string := Str.trimStart.

(** ** Numeric strings *)

(** The longest run of decimal digits at the head of [s], and what follows. *)
Fixpoint spanDigits (s : string) : string * string :=
  match s with
  | String c r =>
      if Str.isDigit c then let '(d, rest) := spanDigits r in (String c d, rest)
      else (EmptyString, s)
  | EmptyString => (EmptyString, EmptyString)
  end.

(** The longest run of decimal digits at the head of [s]. *)
Definition leadingDigits (s : string) : string := fst (spanDigits s).

(** The integer a run of decimal digits denotes, after the digits [acc]. *)
Fixpoint digitsToZ (acc : Z) (ds : string) : Z :=
  match ds with
  | EmptyString => acc
  | String c r => digitsToZ (acc * 10 + Z.of_N (Str.code c - 48))%Z r
  end.

(** The Number value of [m * 10 ^ e10] for [m >= 0], with the sign [neg]:
    round to nearest, ties to even.  A negative exponent is a division of
    integers, rounded once. *)
Definition roundDecimal (neg : bool) (m e10 : Z) : number :=
  if (m =? 0)%Z then S754_zero neg
  else if (0 <=? e10)%Z then
    binary_normalize Num.prec Num.emax
      (if neg then - (m * 10 ^ e10) else m * 10 ^ e10)%Z 0 neg
  else
    let '(q, e, l) := SFdiv_core_binary Num.prec Num.emax m 0 (10 ^ (- e10))%Z 0 in
    binary_round_aux Num.prec Num.emax neg q e l.

(** [ExponentPart], or nothing: its value, [None] when [s] is neither. *)
Definition exponentPart (s : string) : option Z :=
  match s with
  | EmptyString => Some 0%Z
  | String c r =>
      if Ascii.eqb c "e" || Ascii.eqb c "E" then
        let '(neg, body) :=
          match r with
          | String "-" r' => (true, r')
          | String "+" r' => (false, r')
          | _ => (false, r)
          end in
        match spanDigits body with
        | (String d ds, EmptyString) =>
            Some (if neg then - digitsToZ 0 (String d ds) else digitsToZ 0 (String d ds))%Z
        | _ => None
        end
      else None
  end.

(** [StrUnsignedDecimalLiteral] with the sign read before it. *)
Definition strUnsignedDecimalLiteral (neg : bool) (s : string) : number :=
  if String.eqb s "Infinity" then S754_infinity neg
  else
    let '(ip, r1) := spanDigits s in
    match r1 with
    | String "." r =>
        let '(fp, r2) := spanDigits r in
        if Str.isEmpty ip && Str.isEmpty fp then Num.NaN
        else match exponentPart r2 with
             | Some e =>
                 roundDecimal neg (digitsToZ 0 (ip ++ fp)) (e - Z.of_nat (String.length fp))
             | None => Num.NaN
             end
    | _ =>
        if Str.isEmpty ip then Num.NaN
        else match exponentPart r1 with
             | Some e => roundDecimal neg (digitsToZ 0 ip) e
             | None => Num.NaN
             end
    end.

(** The value of a digit in a radix up to 16. *)
Definition digitValue (c : ascii) : option Z :=
  let n := Str.code c in
  if ((48 <=? n) && (n <=? 57))%N then Some (Z.of_N (n - 48))
  else if ((97 <=? n) && (n <=? 102))%N then Some (Z.of_N (n - 87))
  else if ((65 <=? n) && (n <=? 70))%N then Some (Z.of_N (n - 55))
  else None.

Fixpoint radixDigits (radix acc : Z) (s : string) : option Z :=
  match s with
  | EmptyString => Some acc
  | String c r =>
      match digitValue c with
      | Some v => if (v <? radix)%Z then radixDigits radix (acc * radix + v)%Z r else None
      | None => None
      end
  end.

(** [NonDecimalIntegerLiteral] after its prefix. *)
Definition nonDecimal (radix : Z) (ds : string) : number :=
  match ds with
  | EmptyString => Num.NaN
  | _ => match radixDigits radix 0 ds with
         | Some z => Num.ofZ z
         | None => Num.NaN
         end
  end.

(** [StrNumericLiteral]: the value of the literal, [NaN] when [s] is not
    one. *)
Definition strNumericLiteral (s : string) : number :=
  match s with
  | String "0" (String "x" r) | String "0" (String "X" r) => nonDecimal 16 r
  | String "0" (String "o" r) | String "0" (String "O" r) => nonDecimal 8 r
  | String "0" (String "b" r) | String "0" (String "B" r) => nonDecimal 2 r
  | String "-" r => strUnsignedDecimalLiteral true r
  | String "+" r => strUnsignedDecimalLiteral false r
  | _ => strUnsignedDecimalLiteral false s
  end.

Local Open Scope Z_scope.

(** *** The decimal representation of a number *)

(** [x = num / den] for the positive double [m * 2 ^ e]. *)
Definition fraction (m : positive) (e : Z) : Z * Z :=
  if 0 <=? e then (Zpos m * 2 ^ e, 1) else (Zpos m, 2 ^ (- e)).

(** [num / den < 10 ^ n] *)
Definition belowPow10 (num den n : Z) : bool :=
  if 0 <=? n then num <? den * 10 ^ n else num * 10 ^ (- n) <? den.

(** The least [n], from [n0] on, with [num / den < 10 ^ n]. *)
Fixpoint magnitudeFrom (fuel : nat) (num den n0 : Z) : Z :=
  match fuel with
  | O => n0
  | S fuel' => if belowPow10 num den n0 then n0 else magnitudeFrom fuel' num den (n0 + 1)
  end.

(** The [n] with [10 ^ (n - 1) <= num / den < 10 ^ n]: the search starts
    three below an estimate from the binary logarithm. *)
Definition magnitude (num den : Z) : Z :=
  let estimate := ((Z.log2 num - Z.log2 den) * 1233) / 4096 in
  magnitudeFrom 8 num den (estimate - 3).

(** The candidates with [k] digits for [num / den], whose magnitude is [n]:
    the integers next to [num / den * 10 ^ (k - n)], the nearer first. *)
Definition candidates (num den n k : Z) : list (Z * Z) :=
  let p := k - n in
  let '(a, b) := if 0 <=? p then (num * 10 ^ p, den) else (num, den * 10 ^ (- p)) in
  let lo := a / b in
  let hi := lo + 1 in
  let norm := fun s => if s =? 10 ^ k then (10 ^ (k - 1), n + 1) else (s, n) in
  match 2 * a ?= (2 * lo + 1) * b with
  | Lt => [norm lo; norm hi]
  | Gt => [norm hi; norm lo]
  | Eq => if Z.even lo then [norm lo; norm hi] else [norm hi; norm lo]
  end.

(** The first candidate that reads back as [x]. *)
Definition readsBack (x : number) (sn : Z * Z) (k : Z) : bool :=
  Num.eqb (roundDecimal false (fst sn) (snd sn - k)) x.

Fixpoint shortest (fuel : nat) (x : number) (num den n k : Z) : Z * Z * Z :=
  match fuel with
  | O => (0, 0, k)
  | S fuel' =>
      match List.find (fun sn => readsBack x sn k) (candidates num den n k) with
      | Some (s, n') => (s, n', k)
      | None => shortest fuel' x num den n (k + 1)
      end
  end.

Definition zeros (n : Z) : string := String.concat "" (List.repeat "0" (Z.to_nat n)).

Definition digitsOf (z : Z) : string := NilZero.string_of_uint (N.to_uint (Z.to_N z)).

(** The decimal representation of [s * 10 ^ (n - k)], [s] having [k] digits. *)
Definition formatDecimal (s n k : Z) : string :=
  let ds := digitsOf s in
  if (k <=? n) && (n <=? 21) then ds ++ zeros (n - k)
  else if (0 <? n) && (n <=? 21) then
    String.substring 0 (Z.to_nat n) ds ++ "." ++ String.substring (Z.to_nat n) (Z.to_nat (k - n)) ds
  else if (-6 <? n) && (n <=? 0) then "0." ++ zeros (- n) ++ ds
  else
    let e := n - 1 in
    let exponent := (if e <? 0 then "-" else "+") ++ digitsOf (Z.abs e) in
    if k =? 1 then ds ++ "e" ++ exponent
    else String.substring 0 1 ds ++ "." ++ String.substring 1 (Z.to_nat (k - 1)) ds
         ++ "e" ++ exponent.

(** [Number::toString(x)] in radix 10. *)
Definition numberToString (x : number) : string :=
  match x with
  | S754_nan => "NaN"
  | S754_zero _ => "0"
  | S754_infinity false => "Infinity"
  | S754_infinity true => "-Infinity"
  | S754_finite neg m e =>
      let '(num, den) := fraction m e in
      let '(s, n, k) := shortest 17 (S754_finite false m e) num den (magnitude num den) 1 in
      (if neg then "-" else "") ++ formatDecimal s n k
  end.

Local Close Scope Z_scope.

(** [StringToNumber]: a blank string is [+0]. *)
Definition StringToNumber (s : string) : number :=
  let t := trim s in
  if Str.isEmpty t then S754_zero false else strNumericLiteral t.

(** [parseInt(v, 10)]: leading white space is skipped, then an optional sign
    and the longest run of decimal digits are read; [NaN] when there is no
    digit, as for [undefined]. *)
Definition parseInt10 (v : option string) : number :=
  match v with
  | None => Num.NaN
  | Some s =>
      let t := trimStart s in
      let '(neg, body) :=
        match t with
        | String "-" r => (true, r)
        | String "+" r => (false, r)
        | _ => (false, t)
        end in
      match leadingDigits body with
      | EmptyString => Num.NaN
      | ds => Num.ofZs neg (if neg then - digitsToZ 0 ds else digitsToZ 0 ds)%Z
      end
  end.

(** ** Values *)

(** A value produced by [JSON.parse] (or by [Response.json()]).  The
    properties of an object are kept in the order of the text, one entry per
    key. *)
Inductive JSON : Type :=
| JNull
| JBool (b : bool)
| JNum (n : number)
| JStr (s : string)
| JArr (elems : list JSON)
| JObj (props : list (string * JSON)).

(** ** The host *)

(** What the runtime computes and this development does not: the case
    mapping of a string that is not ASCII, and [JSON.stringify(v).slice(0, n)],
    which counts UTF-16 code units. *)
Class Host : Type := {
  host_toUpperCase : string -> string;
  host_stringifySlice : JSON -> nat -> string;
}.

Section Builtins.
Context `{Host}.

(** [s.toUpperCase()] *)
Definition toUpperCase (s : string) : string :=
  if Str.isAscii s then Str.map Str.upcase s else host_toUpperCase s.

End Builtins.


(** A JavaScript value met by the module: [None] is [undefined]. *)
Definition value : Type := option JSON.

(** What a piece of code throws. *)
Inductive exn : Type :=
| Error (message : string)
| TypeError (message : string)
| TranscriptNotFoundError (symbol callDate providerName : string).

(** The message of a [TranscriptNotFoundError], as its constructor builds it. *)
Definition notFoundMessage (symbol callDate providerName : string) : string :=
  "[" ++ providerName ++ "] No transcript found for " ++ symbol
  ++ " (call date " ++ callDate ++ ").".

Definition exnName (e : exn) : string :=
  match e with
  | Error _ => "Error"
  | TypeError _ => "TypeError"
  | TranscriptNotFoundError _ _ _ => "TranscriptNotFoundError"
  end.

Definition exnMessage (e : exn) : string :=
  match e with
  | Error m | TypeError m => m
  | TranscriptNotFoundError s d p => notFoundMessage s d p
  end.

(** [String(e)] for an error [e]: [Error.prototype.toString]. *)
Definition exnToString (e : exn) : string :=
  match exnMessage e with
  | EmptyString => exnName e
  | m => exnName e ++ ": " ++ m
  end.

(** The outcome of running a piece of code. *)
Inductive completion (A : Type) : Type :=
| Return (a : A)
| Throw (e : exn).

Arguments Return {A} a.
Arguments Throw {A} e.

#[global] Instance completion_ret : MRet completion := @Return.

#[global] Instance completion_bind : MBind completion :=
  fun A B (f : A -> completion B) (m : completion A) =>
    match m with
    | Return a => f a
    | Throw e => Throw e
    end.

Definition quote : string := String (ascii_of_N 34) "".

Fixpoint assoc (k : string) (props : list (string * JSON)) : value :=
  match props with
  | [] => None
  | (k', v) :: rest => if String.eqb k k' then Some v else assoc k rest
  end.

(** The property [k] of a value that is not [null], for a key [k] that no
    prototype defines (none of the keys the module reads is [length], an
    index or a method name): the property of an object, [undefined] on any
    other value. *)
Definition propOf (v : JSON) (k : string) : value :=
  match v with
  | JObj props => assoc k props
  | _ => None
  end.

(** [v[k]]: a [TypeError] on [null]. *)
Definition getProp (v : JSON) (k : string) : completion value :=
  match v with
  | JNull =>
      Throw (TypeError ("Cannot read properties of null (reading '" ++ k ++ "')"))
  | _ => Return (propOf v k)
  end.

(** [a ?? b] *)
Definition nullish (a : value) (b : value) : value :=
  match a with
  | None | Some JNull => b
  | Some _ => a
  end.

(** [!v]: the value is falsy. *)
Definition falsy (v : value) : bool :=
  match v with
  | None | Some JNull | Some (JBool false) => true
  | Some (JNum n) =>
      match n with S754_zero _ | S754_nan => true | _ => false end
  | Some (JStr s) => Str.isEmpty s
  | Some _ => false
  end.

(** [typeof v === "object"] *)
Definition typeofObject (v : value) : bool :=
  match v with
  | Some JNull | Some (JArr _) | Some (JObj _) => true
  | _ => false
  end.

(** [Array.isArray(v)] *)
Definition isArray (v : value) : bool :=
  match v with Some (JArr _) => true | _ => false end.

(** [k in v] for an object [v] and a key that no prototype defines. *)
Definition hasProp (k : string) (props : list (string * JSON)) : bool :=
  match assoc k props with Some _ => true | None => false end.


(** [String(v)] on a parsed value.  An array prints its elements separated
    by commas, [null] elements as the empty string. *)
Fixpoint JSON_toString (v : JSON) : string :=
  match v with
  | JNull => "null"
  | JBool true => "true"
  | JBool false => "false"
  | JNum n => numberToString n
  | JStr s => s
  | JArr elems =>
      Str.join ","
        (List.map (fun e => match e with JNull => "" | _ => JSON_toString e end) elems)
  | JObj _ => "[object Object]"
  end.

(** [String(v)] *)
Definition ToString (v : value) : string :=
  match v with
  | None => "undefined"
  | Some j => JSON_toString j
  end.

(** [Number(v)] *)
Definition ToNumber (v : value) : number :=
  match v with
  | None => Num.NaN
  | Some JNull => S754_zero false
  | Some (JBool true) => Num.ofZ 1
  | Some (JBool false) => S754_zero false
  | Some (JNum n) => n
  | Some (JStr s) => StringToNumber s
  | Some (JArr elems) => StringToNumber (JSON_toString (JArr elems))
  | Some (JObj props) => StringToNumber (JSON_toString (JObj props))
  end.


(** ** More built-ins *)

Definition isAlpha (c : ascii) : bool :=
  let n := Str.code c in
  ((65 <=? n) && (n <=? 90) || (97 <=? n) && (n <=? 122))%N.

(** The characters [encodeURIComponent] leaves as they are. *)
Definition isUnreserved (c : ascii) : bool :=
  isAlpha c || Str.isDigit c ||
  existsb (Ascii.eqb c) (list_ascii_of_string "-_.!~*'()").

Definition hexDigit (n : N) : ascii :=
  if (n <? 10)%N then ascii_of_N (48 + n) else ascii_of_N (55 + n).

(** [encodeURIComponent(s)] on the UTF-8 bytes of [s]. *)
Fixpoint encodeURIComponent (s : string) : string :=
  match s with
  | EmptyString => EmptyString
  | String c r =>
      if isUnreserved c then String c (encodeURIComponent r)
      else String "%" (String (hexDigit (Str.code c / 16))
             (String (hexDigit (Str.code c mod 16)) (encodeURIComponent r)))
  end.

(** ** The outside world *)

(** A [Response] as the module reads it: [json] is what [res.json()]
    resolves to, [None] when the body is not JSON; [retryAfter] is
    [res.headers.get("Retry-After")]. *)
Record Response : Type := {
  status : N;
  statusText : string;
  retryAfter : option string;
  json : option JSON;
}.

(** [res.ok] *)
Definition ok (res : Response) : bool :=
  ((200 <=? status res) && (status res <=? 299))%N.

(** What one call of [fetch] comes to. *)
Inductive FetchOutcome : Type :=
| Rejected (networkErr : exn)
| Resolved (res : Response).

(** The answers of the network, in the order of the calls, and the draws of
    [Math.random]. *)
Record Network : Type := {
  replies : nat -> FetchOutcome;
  random : nat -> number;
}.

(** The lines the module writes to the console, by the statement that
    writes them and the values it prints. *)
Inductive LogLine : Type :=
| WarnSkippingRecord (item : JSON)
| LogLoadedFromCache (size : nat) (builtAt : number)
| LogCacheMiss
| LogBuiltAndCached (size : nat)
| WarnCacheCorrupt
| WarnCacheStructure
| LogCacheStale
| WarnCacheWrite (err : string)
| LogFilter (keptNyseNasdaq keptUnknown dropped total : nat) (keepUnknown : bool).

Inductive effect : Type :=
| Fetch (url : string) (headers : list (string * string))
| Sleep (ms : number)
| ReadFile (path : string)
| WriteFile (path : string) (builtAt : number) (entries : list (string * string))
| Console (line : LogLine).

(** The number of HTTP requests among the effects. *)
Definition requests (t : list effect) : nat :=
  List.length (List.filter (fun e => match e with Fetch _ _ => true | _ => false end) t).

(** * fmp-earnings.ts *)

Module FmpEarnings.

Record EarningsEvent : Type := {
  symbol : string;
  reportDate : string;
  epsActual : option number;
  epsEstimated : option number;
  revenueActual : option number;
  revenueEstimated : option number;
  raw : JSON;
}.

Record FilterOptions : Type := {
  keepUnknown : option bool;
}.

Definition FMP_BASE : string := "https://financialmodelingprep.com/stable".

Definition NYSE_NASDAQ : gset string := {[ "NYSE"; "NASDAQ" ]}.

Definition CACHE_PATH : string := ".fmp-symbol-cache.json".

Definition CACHE_TTL_MS : number := Num.ofZ (7 * 24 * 60 * 60 * 1000).

Definition MAX_ATTEMPTS : nat := 3.

Definition BASE_DELAY_MS : number := Num.ofZ 500.

(** [0.8 + Math.random() * 0.4], with the doubles nearest to 0.8 and 0.4. *)
Definition jitter (r : number) : number :=
  Num.add (S754_finite false 7205759403792794 (-53))
          (Num.mul r (S754_finite false 7205759403792794 (-54))).

(** The longest run of characters other than [&] at the head of [s], and
    what follows it. *)
Fixpoint spanValue (s : string) : string * string :=
  match s with
  | EmptyString => (EmptyString, EmptyString)
  | String c r =>
      if Ascii.eqb c "&" then (EmptyString, s)
      else let '(v, rest) := spanValue r in (String c v, rest)
  end.

(** [url.replace(/apikey=[^&]+/, "apikey=REDACTED")]: the leftmost place
    where [apikey=] is followed by at least one character other than [&] is
    rewritten, and that one only. *)
Fixpoint redact (url : string) : string :=
  match url with
  | EmptyString => EmptyString
  | String c r =>
      match Str.dropPrefix "apikey=" url with
      | Some after =>
          match spanValue after with
          | (EmptyString, _) => String c (redact r)
          | (_, rest) => "apikey=REDACTED" ++ rest
          end
      | None => String c (redact r)
      end
  end.

Definition isErrorEnvelope (body : JSON) : bool :=
  match body with
  | JObj props => hasProp "Error Message" props
  | _ => false
  end.

Section FetchJson.
Variable url : string.
Variable net : Network.

Definition safeUrl : string := redact url.

Definition exhausted : exn :=
  Error ("[FMP] Exhausted " ++ Str.ofNat MAX_ATTEMPTS ++ " attempts — " ++ safeUrl).

(** What [fetchJson] does with a response that is neither 429 nor 503. *)
Definition readBody (res : Response) : completion JSON :=
  if negb (ok res) then
    Throw (Error ("[FMP] HTTP " ++ Str.ofN (status res) ++ " " ++ statusText res
                  ++ " — " ++ safeUrl))
  else
    match json res with
    | None => Throw (Error ("[FMP] Non-JSON response from " ++ safeUrl))
    | Some body =>
        if isErrorEnvelope body then
          msg ← getProp body "Error Message";
          Throw (Error ("[FMP] API error: " ++ ToString msg ++ " — " ++ safeUrl))
        else Return body
    end.

(** The loop [for (attempt = 1; attempt <= MAX_ATTEMPTS; attempt++)], entered
    at [attempt] with the current [delayMs], after [draws] calls of
    [Math.random].  Every turn calls [fetch] once, so the turn [attempt] reads
    the answer number [attempt - 1]. *)
Fixpoint attempts (fuel attempt : nat) (delayMs : number) (draws : nat)
  : completion JSON * list effect :=
  match fuel with
  | O => (Throw exhausted, [])
  | S fuel' =>
      if negb (Nat.leb attempt MAX_ATTEMPTS) then (Throw exhausted, [])
      else
        match replies net (attempt - 1) with
        | Rejected networkErr =>
            if Nat.eqb attempt MAX_ATTEMPTS then
              (Throw (Error ("[FMP] Network error after " ++ Str.ofNat attempt
                             ++ " attempts — " ++ safeUrl ++ ": " ++ exnToString networkErr)),
               [Fetch url []])
            else
              let '(r, t) := attempts fuel' (S attempt) (Num.mul delayMs (Num.ofZ 2)) (S draws) in
              (r, Fetch url [] :: Sleep (Num.mul delayMs (jitter (random net draws))) :: t)
        | Resolved res =>
            if (N.eqb (status res) 429 || N.eqb (status res) 503)%bool then
              if Nat.ltb attempt MAX_ATTEMPTS then
                match retryAfter res with
                | Some (String c s) =>
                    let waitMs := Num.mul (parseInt10 (Some (String c s))) (Num.ofZ 1000) in
                    let '(r, t) := attempts fuel' (S attempt) (Num.mul delayMs (Num.ofZ 2)) draws in
                    (r, Fetch url [] :: Sleep waitMs :: t)
                | _ =>
                    let waitMs := Num.mul delayMs (jitter (random net draws)) in
                    let '(r, t) :=
                      attempts fuel' (S attempt) (Num.mul delayMs (Num.ofZ 2)) (S draws) in
                    (r, Fetch url [] :: Sleep waitMs :: t)
                end
              else
                (Throw (Error ("[FMP] Rate-limited (" ++ Str.ofN (status res) ++ ") after "
                               ++ Str.ofNat MAX_ATTEMPTS ++ " attempts — " ++ safeUrl)),
                 [Fetch url []])
            else (readBody res, [Fetch url []])
        end
  end.

Definition fetchJson : completion JSON * list effect :=
  attempts (S MAX_ATTEMPTS) 1 BASE_DELAY_MS 0.

End FetchJson.


(** *** Validation *)

Section Acquisition.
Context `{Host}.

(** [assertApiKey(apiKey, context)] *)
Definition assertApiKey (apiKey context : string) : completion unit :=
  if Str.isEmpty apiKey || Str.isEmpty (trim apiKey) then
    Throw (Error ("[FMP] Missing API key in " ++ context ++ ". "
                  ++ "Set FMP_API_KEY in your environment or .env file."))
  else Return tt.

(** *** Utilities *)

Definition toNumberOrNull (v : value) : option number :=
  match v with
  | None | Some JNull => None
  | Some _ =>
      let n := ToNumber v in
      if Num.isFinite n then Some n else None
  end.

(** *** 1. fetchFmpEarningsCalendar *)

Definition calendarUrl (fromDate toDate apiKey : string) : string :=
  FMP_BASE ++ "/earnings-calendar"
  ++ "?from=" ++ encodeURIComponent fromDate
  ++ "&to=" ++ encodeURIComponent toDate
  ++ "&apikey=" ++ encodeURIComponent apiKey.

(** One turn of the loop over the records of the calendar: the event to push,
    or the warning of a record that is skipped. *)
Definition calendarRecord (item : JSON) : completion (EarningsEvent + LogLine) :=
  s ← getProp item "symbol";
  let symbol := trim (ToString (nullish s (Some (JStr "")))) in
  d ← getProp item "date";
  let reportDate := trim (ToString (nullish d (Some (JStr "")))) in
  if Str.isEmpty symbol || Str.isEmpty reportDate then
    Return (inr (WarnSkippingRecord item))
  else
    ea ← getProp item "epsActual";
    ee ← getProp item "epsEstimated";
    ra ← getProp item "revenueActual";
    re ← getProp item "revenueEstimated";
    Return (inl {| symbol := symbol;
                   reportDate := reportDate;
                   epsActual := toNumberOrNull ea;
                   epsEstimated := toNumberOrNull ee;
                   revenueActual := toNumberOrNull ra;
                   revenueEstimated := toNumberOrNull re;
                   raw := item |}).

(** The loop [for (const item of data)], with the events pushed so far. *)
Fixpoint calendarLoop (data : list JSON) (events : list EarningsEvent)
  : completion (list EarningsEvent) * list effect :=
  match data with
  | [] => (Return events, [])
  | item :: rest =>
      match calendarRecord item with
      | Throw e => (Throw e, [])
      | Return (inr w) =>
          let '(r, t) := calendarLoop rest events in (r, Console w :: t)
      | Return (inl ev) => calendarLoop rest (events ++ [ev])%list
      end
  end.

Definition notAnArray (endpoint : string) (data : JSON) : exn :=
  Error ("[FMP] " ++ endpoint ++ ": expected JSON array, got: "
         ++ host_stringifySlice data 160).

Definition fetchFmpEarningsCalendar (fromDate toDate apiKey : string) (net : Network)
  : completion (list EarningsEvent) * list effect :=
  match assertApiKey apiKey "fetchFmpEarningsCalendar" with
  | Throw e => (Throw e, [])
  | Return _ =>
      let url := calendarUrl fromDate toDate apiKey in
      match fetchJson url net with
      | (Throw e, t) => (Throw e, t)
      | (Return (JArr data), t) =>
          let '(r, t') := calendarLoop data [] in (r, (t ++ t')%list)
      | (Return data, t) => (Throw (notAnArray "earnings-calendar" data), t)
      end
  end.

(** *** 2. buildSymbolToExchangeMap *)

(** The cache file as [tryLoadCache] meets it: [readFile] rejects, or it
    resolves to a text that [JSON.parse] rejects ([None]) or reads. *)
Inductive CacheFile : Type :=
| Unreadable
| Text (parsed : option JSON).

(** What the builder sees of the world: the cache file, [Date.now()] when
    the cache is examined and when it is written, the network, and the error
    of [writeFile] when it fails. *)
Record World : Type := {
  cacheFile : CacheFile;
  now : number;
  nowAtWrite : number;
  network : Network;
  writeError : option string;
}.

(** One entry of [payload.entries], destructured as [{ symbol, exchange }].
    The entries are read at their declared type: an entry whose two fields
    are not both strings is left out of the model's map (the code stores
    such fields as they are); destructuring [null] throws. *)
Definition cacheEntry (entry : JSON) (map : gmap string string)
  : completion (gmap string string) :=
  s ← getProp entry "symbol";
  e ← getProp entry "exchange";
  match s, e with
  | Some (JStr symbol), Some (JStr exchange) => Return (<[symbol := exchange]> map)
  | _, _ => Return map
  end.

Fixpoint cacheEntries (entries : list JSON) (map : gmap string string)
  : completion (gmap string string) :=
  match entries with
  | [] => Return map
  | entry :: rest => map' ← cacheEntry entry map; cacheEntries rest map'
  end.

Definition tryLoadCache (w : World)
  : completion (option (gmap string string * number)) * list effect :=
  match cacheFile w with
  | Unreadable => (Return None, [ReadFile CACHE_PATH])
  | Text None => (Return None, [ReadFile CACHE_PATH; Console WarnCacheCorrupt])
  | Text (Some payload) =>
      match getProp payload "builtAt" with
      | Throw e => (Throw e, [ReadFile CACHE_PATH])
      | Return (Some (JNum builtAt)) =>
          match getProp payload "entries" with
          | Throw e => (Throw e, [ReadFile CACHE_PATH])
          | Return (Some (JArr entries)) =>
              if Num.gt (Num.sub (now w) builtAt) CACHE_TTL_MS then
                (Return None, [ReadFile CACHE_PATH; Console LogCacheStale])
              else
                match cacheEntries entries ∅ with
                | Throw e => (Throw e, [ReadFile CACHE_PATH])
                | Return map => (Return (Some (map, builtAt)), [ReadFile CACHE_PATH])
                end
          | Return _ => (Return None, [ReadFile CACHE_PATH; Console WarnCacheStructure])
          end
      | Return _ => (Return None, [ReadFile CACHE_PATH; Console WarnCacheStructure])
      end
  end.

(** [persistCache(map)]: the entries are written in the order of
    [map_to_list], not in the order of insertion. *)
Definition persistCache (w : World) (map : gmap string string) : list effect :=
  WriteFile CACHE_PATH (nowAtWrite w) (map_to_list map) ::
  match writeError w with
  | Some err => [Console (WarnCacheWrite err)]
  | None => []
  end.

(** The exchange code of a record of the stock list:
    [item["exchangeShortName"] ?? item["exchange_short_name"] ??
     item["exchange"] ?? ""]. *)
Definition exchangeRaw (item : JSON) : completion value :=
  a ← getProp item "exchangeShortName";
  b ← getProp item "exchange_short_name";
  c ← getProp item "exchange";
  Return (nullish (nullish (nullish a b) c) (Some (JStr ""))).

(** One turn of the loop over the records of the stock list. *)
Definition stockRecord (item : JSON) (map : gmap string string)
  : completion (gmap string string) :=
  s ← getProp item "symbol";
  let sym := trim (toUpperCase (ToString (nullish s (Some (JStr ""))))) in
  exchRaw ← exchangeRaw item;
  let exch := trim (toUpperCase (ToString exchRaw)) in
  if negb (Str.isEmpty sym) && negb (Str.isEmpty exch)
  then Return (<[sym := exch]> map)
  else Return map.

Fixpoint stockLoop (data : list JSON) (map : gmap string string)
  : completion (gmap string string) :=
  match data with
  | [] => Return map
  | item :: rest => map' ← stockRecord item map; stockLoop rest map'
  end.

Definition stockListUrl (apiKey : string) : string :=
  FMP_BASE ++ "/stock-list?apikey=" ++ encodeURIComponent apiKey.

(** The slow path of the builder, after a miss of the cache. *)
Definition buildFromNetwork (apiKey : string) (w : World)
  : completion (gmap string string) * list effect :=
  match fetchJson (stockListUrl apiKey) (network w) with
  | (Throw e, t) => (Throw e, Console LogCacheMiss :: t)
  | (Return (JArr data), t) =>
      match data with
      | [] =>
          (Throw (Error ("[FMP] stock-list: response was an empty array — "
                         ++ "verify API key permissions or try again later.")),
           Console LogCacheMiss :: t)
      | _ =>
          match stockLoop data ∅ with
          | Throw e => (Throw e, Console LogCacheMiss :: t)
          | Return map =>
              if Nat.eqb (size map) 0 then
                (Throw (Error ("[FMP] stock-list: parsed 0 valid symbol→exchange pairs. "
                               ++ "Response shape may have changed — inspect the raw payload.")),
                 Console LogCacheMiss :: t)
              else
                (Return map,
                 (Console LogCacheMiss :: t ++ persistCache w map
                    ++ [Console (LogBuiltAndCached (size map))])%list)
          end
      end
  | (Return data, t) => (Throw (notAnArray "stock-list" data), Console LogCacheMiss :: t)
  end.

Definition buildSymbolToExchangeMap (apiKey : string) (w : World)
  : completion (gmap string string) * list effect :=
  match assertApiKey apiKey "buildSymbolToExchangeMap" with
  | Throw e => (Throw e, [])
  | Return _ =>
      match tryLoadCache w with
      | (Throw e, t) => (Throw e, t)
      | (Return (Some (map, builtAt)), t) =>
          (Return map, (t ++ [Console (LogLoadedFromCache (size map) builtAt)])%list)
      | (Return None, t) =>
          let '(r, t') := buildFromNetwork apiKey w in (r, (t ++ t')%list)
      end
  end.

(** *** 3. filterNyseNasdaq *)

Record FilterCounts : Type := {
  keptNyseNasdaq : nat;
  keptUnknown : nat;
  dropped : nat;
}.

(** The callback of [events.filter]: whether [ev] is kept, and the counters
    after it. *)
Definition filterCallback (symbolToExchange : gmap string string) (keep : bool)
  (n : FilterCounts) (ev : EarningsEvent) : bool * FilterCounts :=
  let sym := toUpperCase (symbol ev) in
  match symbolToExchange !! sym with
  | None =>
      if keep
      then (true, {| keptNyseNasdaq := keptNyseNasdaq n;
                     keptUnknown := S (keptUnknown n);
                     dropped := dropped n |})
      else (false, {| keptNyseNasdaq := keptNyseNasdaq n;
                      keptUnknown := keptUnknown n;
                      dropped := S (dropped n) |})
  | Some exch =>
      if bool_decide (exch ∈ NYSE_NASDAQ)
      then (true, {| keptNyseNasdaq := S (keptNyseNasdaq n);
                     keptUnknown := keptUnknown n;
                     dropped := dropped n |})
      else (false, {| keptNyseNasdaq := keptNyseNasdaq n;
                      keptUnknown := keptUnknown n;
                      dropped := S (dropped n) |})
  end.

(** [events.filter(callback)], threading the counters. *)
Fixpoint filterEvents (symbolToExchange : gmap string string) (keep : bool)
  (events : list EarningsEvent) (n : FilterCounts) : list EarningsEvent * FilterCounts :=
  match events with
  | [] => ([], n)
  | ev :: rest =>
      let '(kept, n') := filterCallback symbolToExchange keep n ev in
      let '(result, n'') := filterEvents symbolToExchange keep rest n' in
      (if kept then ev :: result else result, n'')
  end.

(** [const { keepUnknown = false } = options] *)
Definition keepUnknownOf (options : FilterOptions) : bool :=
  match keepUnknown options with
  | Some b => b
  | None => false
  end.

(** [filterNyseNasdaq] with the line it logs. *)
Definition filterNyseNasdaqLogged (events : list EarningsEvent)
  (symbolToExchange : gmap string string) (options : FilterOptions)
  : list EarningsEvent * list effect :=
  let keep := keepUnknownOf options in
  let '(result, n) :=
    filterEvents symbolToExchange keep events
      {| keptNyseNasdaq := 0; keptUnknown := 0; dropped := 0 |} in
  (result,
   [Console (LogFilter (keptNyseNasdaq n) (keptUnknown n) (dropped n)
                       (List.length events) keep)]).

Definition filterNyseNasdaq (events : list EarningsEvent)
  (symbolToExchange : gmap string string) (options : FilterOptions)
  : list EarningsEvent :=
  fst (filterNyseNasdaqLogged events symbolToExchange options).

(** The payload [persistCache] builds from [Date.now()] and the entries of
    the map; it is also what [JSON.parse] reads back from the text written,
    [JSON.stringify] of an object of a finite number and strings. *)
Definition cachePayload (builtAt : number) (entries : list (string * string)) : JSON :=
  JObj [("builtAt", JNum builtAt);
        ("entries",
         JArr (List.map (fun '(symbol, exchange) =>
                           JObj [("symbol", JStr symbol); ("exchange", JStr exchange)])
                        entries))].

(** *** 4. fetchUsEarningsCalendar *)

(** The effects of [fetchUsEarningsCalendar]: those of the two calls that
    [Promise.all] runs concurrently, each left to finish, whose interleaving
    is not fixed; then those of the filter. *)
Record PipelineTrace : Type := {
  calendarEffects : list effect;
  builderEffects : list effect;
  filterEffects : list effect;
}.

(** [fetchUsEarningsCalendar(fromDate, toDate, apiKey, options)].  The
    Calendar Fetcher talks to [net], the Builder to the network of [w].
    [Promise.all] rejects with the error of the call that fails first: when
    the key is missing both calls throw before their first [await] and the
    first one wins; otherwise [calendarFirst] tells which of two failing
    calls fails first. *)
Definition fetchUsEarningsCalendar (fromDate toDate apiKey : string)
  (options : FilterOptions) (net : Network) (w : World) (calendarFirst : bool)
  : completion (list EarningsEvent * gmap string string) * PipelineTrace :=
  let '(r1, t1) := fetchFmpEarningsCalendar fromDate toDate apiKey net in
  let '(r2, t2) := buildSymbolToExchangeMap apiKey w in
  let failed := {| calendarEffects := t1; builderEffects := t2; filterEffects := [] |} in
  match assertApiKey apiKey "fetchFmpEarningsCalendar" with
  | Throw e => (Throw e, failed)
  | Return _ =>
      match r1, r2 with
      | Return rawEvents, Return symbolToExchange =>
          let '(events, t3) := filterNyseNasdaqLogged rawEvents symbolToExchange options in
          (Return (events, symbolToExchange),
           {| calendarEffects := t1; builderEffects := t2; filterEffects := t3 |})
      | Throw e, Return _ => (Throw e, failed)
      | Return _, Throw e => (Throw e, failed)
      | Throw e1, Throw e2 => (Throw (if calendarFirst then e1 else e2), failed)
      end
  end.

End Acquisition.

End FmpEarnings.

(** * transcript-provider.ts *)

Module TranscriptProvider.

Record Transcript : Type := {
  symbol : string;
  callDate : string;
  text : string;
  raw : JSON;
}.

Record FiscalPeriod : Type := {
  year : number;
  quarter : number;
}.

Definition NINJAS_URL : string := "https://api.api-ninjas.com/v1/earningstranscript".

Definition FMP_TRANSCRIPT_URL : string :=
  "https://financialmodelingprep.com/stable/earning-call-transcript".

(** The two classes that implement the interface [TranscriptProvider], each
    with its private [apiKey]. *)
Inductive Provider : Type :=
| NinjasTranscriptProvider (apiKey : string)
| FmpTranscriptProvider (apiKey : string).

(** The private field [name] of a provider. *)
Definition name (p : Provider) : string :=
  match p with
  | NinjasTranscriptProvider _ => "API Ninjas"
  | FmpTranscriptProvider _ => "FMP"
  end.

Definition newline : string := String (ascii_of_N 10) "".

Definition isFmpErrorEnvelope (body : JSON) : bool :=
  match body with
  | JObj props => hasProp "Error Message" props
  | _ => false
  end.

Section Providers.
Context `{Host}.

(** The constructors: [if (!apiKey?.trim()) throw ...]. *)
Definition newNinjasTranscriptProvider (apiKey : string) : completion Provider :=
  if Str.isEmpty (trim apiKey) then
    Throw (Error "[API Ninjas] Missing API key. Set NINJAS_API_KEY in your environment.")
  else Return (NinjasTranscriptProvider apiKey).

Definition newFmpTranscriptProvider (apiKey : string) : completion Provider :=
  if Str.isEmpty (trim apiKey) then
    Throw (Error "[FMP] Missing API key. Set FMP_API_KEY in your environment.")
  else Return (FmpTranscriptProvider apiKey).

(** *** Shared utilities *)

Definition dateToFiscalYearQuarter (callDate : string) : completion FiscalPeriod :=
  let parts := Str.split "-" callDate in
  let year := parseInt10 (parts !! 0%nat) in
  let month := parseInt10 (parts !! 1%nat) in
  if Num.isNaN year || Num.isNaN month then
    Throw (Error ("[TranscriptProvider] Invalid callDate " ++ quote ++ callDate ++ quote
                  ++ " — expected ISO-8601 (YYYY-MM-DD)."))
  else if Num.le month (Num.ofZ 3) then
    Return {| year := Num.sub year (Num.ofZ 1); quarter := Num.ofZ 4 |}
  else if Num.le month (Num.ofZ 6) then
    Return {| year := year; quarter := Num.ofZ 1 |}
  else if Num.le month (Num.ofZ 9) then
    Return {| year := year; quarter := Num.ofZ 2 |}
  else
    Return {| year := year; quarter := Num.ofZ 3 |}.

(** [`${year}Q${quarter}`] *)
Definition periodLabel (p : FiscalPeriod) : string :=
  numberToString (year p) ++ "Q" ++ numberToString (quarter p).

(** *** Provider A: API Ninjas *)

(** The loop over the speaker turns, with the lines pushed so far. *)
Fixpoint speakerLines (turns : list JSON) (lines : list string)
  : completion (list string) :=
  match turns with
  | [] => Return lines
  | turn :: rest =>
      s ← getProp turn "speaker";
      let speaker := trim (ToString (nullish s (Some (JStr "Unknown")))) in
      t ← getProp turn "text";
      let text := trim (ToString (nullish t (Some (JStr "")))) in
      if negb (Str.isEmpty text)
      then speakerLines rest (lines ++ [(speaker ++ ": " ++ text)%string])%list
      else speakerLines rest lines
  end.

Definition extractNinjasText (raw : JSON) (symbol : string) (p : FiscalPeriod)
  : completion string :=
  a ← getProp raw "transcript_split";
  b ← getProp raw "transcript_by_speaker";
  let split := nullish a b in
  lines ← match split with
          | Some (JArr (turn :: rest)) => speakerLines (turn :: rest) []
          | _ => Return []
          end;
  match lines with
  | _ :: _ => Return (Str.join (newline ++ newline) lines)
  | [] =>
      t ← getProp raw "transcript";
      let text := trim (ToString (nullish t (Some (JStr "")))) in
      if negb (Str.isEmpty text) then Return text
      else Throw (TranscriptNotFoundError symbol (periodLabel p) "API Ninjas")
  end.

(** [Array.isArray(data) ? data[0] : data] *)
Definition firstRecord (data : JSON) : value :=
  match data with
  | JArr elems => elems !! 0%nat
  | _ => Some data
  end.

Definition ninjasUrl (symbol : string) (p : FiscalPeriod) : string :=
  NINJAS_URL
  ++ "?ticker=" ++ encodeURIComponent (toUpperCase symbol)
  ++ "&year=" ++ numberToString (year p)
  ++ "&quarter=" ++ numberToString (quarter p).

Definition ninjasFetchTranscript (apiKey symbol callDate : string) (reply : FetchOutcome)
  : completion Transcript * list effect :=
  let this := NinjasTranscriptProvider apiKey in
  match dateToFiscalYearQuarter callDate with
  | Throw e => (Throw e, [])
  | Return p =>
      let request := Fetch (ninjasUrl symbol p) [("X-Api-Key", apiKey)] in
      match reply with
      | Rejected networkErr => (Throw networkErr, [request])
      | Resolved res =>
          if N.eqb (status res) 404 then
            (Throw (TranscriptNotFoundError symbol callDate (name this)), [request])
          else if negb (ok res) then
            (Throw (Error ("[" ++ name this ++ "] HTTP " ++ Str.ofN (status res) ++ " for "
                           ++ symbol ++ " " ++ periodLabel p ++ ".")), [request])
          else
            match json res with
            | None =>
                (Throw (Error ("[" ++ name this ++ "] Non-JSON response for "
                               ++ symbol ++ " " ++ periodLabel p ++ ".")), [request])
            | Some data =>
                match firstRecord data with
                | Some raw =>
                    if falsy (Some raw) || negb (typeofObject (Some raw)) then
                      (Throw (TranscriptNotFoundError symbol callDate (name this)), [request])
                    else
                      (text ← extractNinjasText raw symbol p;
                       Return {| symbol := toUpperCase symbol; callDate := callDate;
                                 text := text; raw := raw |},
                       [request])
                | None =>
                    (Throw (TranscriptNotFoundError symbol callDate (name this)), [request])
                end
            end
      end
  end.

(** *** Provider B: FMP paid tier *)

Definition fmpUrl (apiKey symbol : string) (p : FiscalPeriod) : string :=
  FMP_TRANSCRIPT_URL
  ++ "?symbol=" ++ encodeURIComponent (toUpperCase symbol)
  ++ "&year=" ++ numberToString (year p)
  ++ "&quarter=" ++ numberToString (quarter p)
  ++ "&apikey=" ++ encodeURIComponent apiKey.

Definition fmpFetchTranscript (apiKey symbol callDate : string) (reply : FetchOutcome)
  : completion Transcript * list effect :=
  let this := FmpTranscriptProvider apiKey in
  match dateToFiscalYearQuarter callDate with
  | Throw e => (Throw e, [])
  | Return p =>
      let request := Fetch (fmpUrl apiKey symbol p) [] in
      match reply with
      | Rejected networkErr => (Throw networkErr, [request])
      | Resolved res =>
          if N.eqb (status res) 404 then
            (Throw (TranscriptNotFoundError symbol callDate (name this)), [request])
          else if negb (ok res) then
            (Throw (Error ("[" ++ name this ++ "] HTTP " ++ Str.ofN (status res) ++ " for "
                           ++ symbol ++ " " ++ periodLabel p ++ ".")), [request])
          else
            match json res with
            | None =>
                (Throw (Error ("[" ++ name this ++ "] Non-JSON response for "
                               ++ symbol ++ " " ++ periodLabel p ++ ".")), [request])
            | Some data =>
                if isFmpErrorEnvelope data then
                  (msg ← getProp data "Error Message";
                   Throw (Error ("[" ++ name this ++ "] API error: " ++ ToString msg)),
                   [request])
                else
                  match firstRecord data with
                  | Some raw =>
                      if falsy (Some raw) || negb (typeofObject (Some raw)) then
                        (Throw (TranscriptNotFoundError symbol callDate (name this)), [request])
                      else
                        (c ← getProp raw "content";
                         let text := trim (ToString (nullish c (Some (JStr "")))) in
                         if Str.isEmpty text then
                           Throw (TranscriptNotFoundError symbol callDate (name this))
                         else
                           Return {| symbol := toUpperCase symbol; callDate := callDate;
                                     text := text; raw := raw |},
                         [request])
                  | None =>
                      (Throw (TranscriptNotFoundError symbol callDate (name this)), [request])
                  end
            end
      end
  end.

(** The method [fetchTranscript] of the interface, dispatched on the class
    of the provider. *)
Definition fetchTranscript (p : Provider) (symbol callDate : string) (reply : FetchOutcome)
  : completion Transcript * list effect :=
  match p with
  | NinjasTranscriptProvider apiKey => ninjasFetchTranscript apiKey symbol callDate reply
  | FmpTranscriptProvider apiKey => fmpFetchTranscript apiKey symbol callDate reply
  end.

End Providers.

End TranscriptProvider.


(** * run.ts *)

Module Run.

Definition DEFAULT_FROM : string := "2026-02-24".
Definition DEFAULT_TO : string := "2026-02-28".

Record CliArgs : Type := {
  from : string;
  to : string;
}.

(** [s.startsWith("-")] *)
Definition startsWithDash (s : string) : bool :=
  match s with
  | String "-" _ => true
  | _ => false
  end.

(** [/^\d{4}-\d{2}-\d{2}$/.test(s)]: ten characters, ASCII digits and two
    dashes; the end of the pattern is the end of the string. *)
Definition ISO_RE (s : string) : bool :=
  match s with
  | String y1 (String y2 (String y3 (String y4 (String p
      (String m1 (String m2 (String q (String d1 (String d2 EmptyString))))))))) =>
      Str.isDigit y1 && Str.isDigit y2 && Str.isDigit y3 && Str.isDigit y4
      && Ascii.eqb p "-" && Str.isDigit m1 && Str.isDigit m2
      && Ascii.eqb q "-" && Str.isDigit d1 && Str.isDigit d2
  | _ => false
  end.

(** [a > b] on strings, by code units; on ASCII strings, which is where
    [parseArgs] compares, that is the order of the bytes. *)
Fixpoint gtb (a b : string) : bool :=
  match a, b with
  | String x a', String y b' =>
      if (Str.code y <? Str.code x)%N then true
      else if (Str.code x <? Str.code y)%N then false
      else gtb a' b'
  | String _ _, EmptyString => true
  | EmptyString, _ => false
  end.

Definition requiresValue (flag : string) : exn :=
  Error ("Flag " ++ flag ++ " requires a YYYY-MM-DD value.").

Definition unknownFlag (flag : string) : exn :=
  Error ("Unknown flag: " ++ quote ++ flag ++ quote ++ TranscriptProvider.newline
         ++ "Usage: npx tsx src/run.ts [--from YYYY-MM-DD] [--to YYYY-MM-DD]").

(** The loop over the flags, from the flag at the head of [flags] on, with
    the current [from] and [to]; [next] is [undefined] at the end of the
    list. *)
Fixpoint parseFlags (flags : list string) (from to : string)
  : completion (string * string) :=
  match flags with
  | [] => Return (from, to)
  | flag :: rest =>
      if String.eqb flag "--from" || String.eqb flag "-f" then
        match rest with
        | next :: rest' =>
            if Str.isEmpty next || startsWithDash next then Throw (requiresValue flag)
            else parseFlags rest' next to
        | [] => Throw (requiresValue flag)
        end
      else if String.eqb flag "--to" || String.eqb flag "-t" then
        match rest with
        | next :: rest' =>
            if Str.isEmpty next || startsWithDash next then Throw (requiresValue flag)
            else parseFlags rest' from next
        | [] => Throw (requiresValue flag)
        end
      else Throw (unknownFlag flag)
  end.

(** [parseArgs(argv)]; [argv.slice(2)] drops the interpreter and the
    script. *)
Definition parseArgs (argv : list string) : completion CliArgs :=
  '(from, to) ← parseFlags (skipn 2 argv) DEFAULT_FROM DEFAULT_TO;
  if negb (ISO_RE from) then
    Throw (Error ("--from " ++ quote ++ from ++ quote
                  ++ " is not a valid ISO-8601 date (YYYY-MM-DD)."))
  else if negb (ISO_RE to) then
    Throw (Error ("--to " ++ quote ++ to ++ quote
                  ++ " is not a valid ISO-8601 date (YYYY-MM-DD)."))
  else if gtb from to then
    Throw (Error ("--from (" ++ from ++ ") must not be later than --to (" ++ to ++ ")."))
  else Return {| from := from; to := to |}.

(** [requireEnv(name)], [env] being [process.env]: its values are strings,
    and a variable that is not set reads as [undefined]. *)
Definition requireEnv (env : gmap string string) (name : string) : completion string :=
  let missing :=
    Error ("Required environment variable " ++ quote ++ name ++ quote ++ " is not set."
           ++ TranscriptProvider.newline ++ "  Fix: export " ++ name ++ "=<your-key>") in
  match env !! name with
  | None => Throw missing
  | Some raw =>
      let value := trim raw in
      if Str.isEmpty value then Throw missing else Return value
  end.

(** The lines [main] writes to the console, by the statement that writes
    them and the values it prints. *)
Inductive RunLine : Type :=
| BannerTop
| BannerTitle
| BannerBottom
| Window (from to : string)
| Blank
| FetchingCalendar
| NoEvents
| Processing (events : nat)
| TranscriptOk (symbol reportDate text : string)
| TranscriptSkipped (symbol reportDate : string)
| TranscriptFailed (symbol reportDate message : string)
| SummaryTop
| SummaryTitle
| SummaryRule
| SummaryEvents (n : nat)
| SummaryFetched (n : nat)
| SummarySkipped (n : nat)
| SummaryErrored (n : nat)
| SummaryBottom
| Fatal (message : string).

(** What a run does: a line on the console, the calendar step, or an effect
    of a call of the transcript provider. *)
Inductive RunEffect : Type :=
| Print (line : RunLine)
| Pipeline (t : FmpEarnings.PipelineTrace)
| Call (e : effect).

(** The counters of the loop over the events. *)
Record Tally : Type := {
  fetched : nat;
  skipped : nat;
  errored : nat;
}.

(** What a run meets: the arguments and the environment of the process, the
    answers to the Calendar Fetcher, the world of the Builder, which of the
    two fails first when both do, and the answer to the request for the
    transcript of the event number [i]. *)
Record Process : Type := {
  argv : list string;
  env : gmap string string;
  calendarNetwork : Network;
  world : FmpEarnings.World;
  calendarFirst : bool;
  transcriptReply : nat -> FetchOutcome;
}.

Section Main.
Context `{Host}.

(** One turn of the loop [for (const ev of events)]: the call of the
    provider inside [try], and what [catch] makes of a failure. *)
Definition transcriptTurn (provider : TranscriptProvider.Provider)
  (ev : FmpEarnings.EarningsEvent) (reply : FetchOutcome) (n : Tally)
  : Tally * list RunEffect :=
  let symbol := FmpEarnings.symbol ev in
  let reportDate := FmpEarnings.reportDate ev in
  let '(r, t) := TranscriptProvider.fetchTranscript provider symbol reportDate reply in
  match r with
  | Return transcript =>
      ({| fetched := S (fetched n); skipped := skipped n; errored := errored n |},
       (List.map Call t
        ++ [Print (TranscriptOk symbol reportDate (TranscriptProvider.text transcript))])%list)
  | Throw (TranscriptNotFoundError _ _ _) =>
      ({| fetched := fetched n; skipped := S (skipped n); errored := errored n |},
       (List.map Call t ++ [Print (TranscriptSkipped symbol reportDate)])%list)
  | Throw err =>
      ({| fetched := fetched n; skipped := skipped n; errored := S (errored n) |},
       (List.map Call t
        ++ [Print (TranscriptFailed symbol reportDate (exnMessage err))])%list)
  end.

(** The loop over the events, from the event number [i] on. *)
Fixpoint transcriptLoop (provider : TranscriptProvider.Provider)
  (events : list FmpEarnings.EarningsEvent) (replies : nat -> FetchOutcome)
  (i : nat) (n : Tally) : Tally * list RunEffect :=
  match events with
  | [] => (n, [])
  | ev :: rest =>
      let '(n', t) := transcriptTurn provider ev (replies i) n in
      let '(n'', t') := transcriptLoop provider rest replies (S i) n' in
      (n'', (t ++ t')%list)
  end.

Definition summary (events : nat) (n : Tally) : list RunEffect :=
  [Print Blank; Print SummaryTop; Print SummaryTitle; Print SummaryRule;
   Print (SummaryEvents events); Print (SummaryFetched (fetched n));
   Print (SummarySkipped (skipped n)); Print (SummaryErrored (errored n));
   Print SummaryBottom].

(** [main()]: the value of [process.exitCode] when it returns, or what it
    throws. *)
Definition main (p : Process) : completion nat * list RunEffect :=
  match parseArgs (argv p) with
  | Throw e => (Throw e, [])
  | Return args =>
      match requireEnv (env p) "FMP_API_KEY" with
      | Throw e => (Throw e, [])
      | Return fmpKey =>
          match requireEnv (env p) "NINJAS_API_KEY" with
          | Throw e => (Throw e, [])
          | Return ninjasKey =>
              let intro :=
                [Print BannerTop; Print BannerTitle; Print BannerBottom;
                 Print (Window (from args) (to args)); Print Blank;
                 Print FetchingCalendar] in
              match FmpEarnings.fetchUsEarningsCalendar (from args) (to args) fmpKey
                      {| FmpEarnings.keepUnknown := None |}
                      (calendarNetwork p) (world p) (calendarFirst p) with
              | (Throw e, t) => (Throw e, (intro ++ [Pipeline t])%list)
              | (Return (events, _), t) =>
                  match events with
                  | [] => (Return 0, (intro ++ [Pipeline t; Print NoEvents])%list)
                  | _ :: _ =>
                      let before :=
                        (intro ++ [Pipeline t; Print (Processing (List.length events))])%list in
                      match TranscriptProvider.newNinjasTranscriptProvider ninjasKey with
                      | Throw e => (Throw e, before)
                      | Return provider =>
                          let '(n, t') :=
                            transcriptLoop provider events (transcriptReply p) 0
                              {| fetched := 0; skipped := 0; errored := 0 |} in
                          (Return (if Nat.ltb 0 (errored n) then 1 else 0),
                           (before ++ t' ++ summary (List.length events) n)%list)
                      end
                  end
              end
          end
      end
  end.

(** The program: [main().catch(...)], which prints the message of a fatal
    error and exits with the code 1. *)
Definition run (p : Process) : nat * list RunEffect :=
  match main p with
  | (Return exitCode, t) => (exitCode, t)
  | (Throw err, t) => (1, (t ++ [Print (Fatal (exnMessage err))])%list)
  end.

End Main.

End Run.
(** * The vocabulary of the specification *)

(** The definitions below are not code of the repository: they say, in the
    words of the specification, what the theorems compare the code with. *)

Module Spec.

Import FmpEarnings.

(** An answer after which the Resilient JSON Fetcher may try again: a
    transport-level failure, or an HTTP status 429 or 503. *)
Definition retryable (o : FetchOutcome) : bool :=
  match o with
  | Rejected _ => true
  | Resolved res => N.eqb (status res) 429 || N.eqb (status res) 503
  end.

(** The text [apikey=] occurs somewhere in [s]. *)
Fixpoint mentionsApiKey (s : string) : bool :=
  match s with
  | EmptyString => false
  | String c r =>
      match Str.dropPrefix "apikey=" s with
      | Some _ => true
      | None => mentionsApiKey r
      end
  end.

(** No character of [s] is [&]. *)
Fixpoint noAmpersand (s : string) : bool :=
  match s with
  | EmptyString => true
  | String c r => negb (Ascii.eqb c "&") && noAmpersand r
  end.

(** No character of [s] is [=]. *)
Fixpoint noEquals (s : string) : bool :=
  match s with
  | EmptyString => true
  | String c r => negb (Ascii.eqb "=" c) && noEquals r
  end.

(** [s] is the end of a query string after a parameter: empty, or the start
    of the next parameter. *)
Definition endsParameter (s : string) : bool :=
  match s with
  | EmptyString => true
  | String c _ => Ascii.eqb c "&"
  end.


(** The URL of the earnings calendar up to its key. *)
Definition calendarPrefix (fromDate toDate : string) : string :=
  FMP_BASE ++ "/earnings-calendar" ++ "?from=" ++ encodeURIComponent fromDate
  ++ "&to=" ++ encodeURIComponent toDate ++ "&".

(** The records the Calendar Fetcher warned about, in the order of the
    warnings. *)
Definition warned (t : list effect) : list JSON :=
  omap (fun e => match e with
                 | Console (WarnSkippingRecord item) => Some item
                 | _ => None
                 end) t.

(** The field names under which a record of the stock list may carry its
    exchange code, in the order of their priority. *)
Definition exchangeFields : list string :=
  ["exchangeShortName"; "exchange_short_name"; "exchange"].

(** The value of the first of the fields [keys] that is present in [props]
    and is not [null]. *)
Fixpoint firstPresent (keys : list string) (props : list (string * JSON)) : value :=
  match keys with
  | [] => None
  | k :: rest =>
      match assoc k props with
      | None | Some JNull => firstPresent rest props
      | Some v => Some v
      end
  end.


(** The cache file passes the structural validation: its payload has a
    number [builtAt] and an array [entries], which are returned. *)
Definition validated (payload : JSON) : option (number * list JSON) :=
  match propOf payload "builtAt", propOf payload "entries" with
  | Some (JNum builtAt), Some (JArr entries) => Some (builtAt, entries)
  | _, _ => None
  end.

(** The cache is older than the TTL at the time [now], as the code compares
    the two doubles. *)
Definition stale (now builtAt : number) : bool :=
  Num.gt (Num.sub now builtAt) CACHE_TTL_MS.

(** A decimal digit and the dates [YYYY-MM-DD]. *)
Definition digit (n : N) : ascii := ascii_of_N (48 + n mod 10).

Definition pad2 (n : N) : string :=
  String (digit (n / 10)) (String (digit n) "").

Definition pad4 (n : N) : string :=
  String (digit (n / 1000)) (String (digit (n / 100)) (pad2 n)).

Definition isoDate (Y M : N) (day : string) : string :=
  pad4 Y ++ "-" ++ pad2 M ++ "-" ++ day.

(** The fiscal period of the specification for a call in the month [M] of
    the year [Y]. *)
Definition fiscalPeriodOf (Y M : Z) : TranscriptProvider.FiscalPeriod :=
  if (M <=? 3)%Z then
    {| TranscriptProvider.year := Num.ofZ (Y - 1); TranscriptProvider.quarter := Num.ofZ 4 |}
  else if (M <=? 6)%Z then
    {| TranscriptProvider.year := Num.ofZ Y; TranscriptProvider.quarter := Num.ofZ 1 |}
  else if (M <=? 9)%Z then
    {| TranscriptProvider.year := Num.ofZ Y; TranscriptProvider.quarter := Num.ofZ 2 |}
  else
    {| TranscriptProvider.year := Num.ofZ Y; TranscriptProvider.quarter := Num.ofZ 3 |}.

(** The speaker turns the API Ninjas provider reads in a record: the array
    under [transcript_split], or else under [transcript_by_speaker]. *)
Definition speakerTurns (raw : JSON) : list JSON :=
  match nullish (propOf raw "transcript_split") (propOf raw "transcript_by_speaker") with
  | Some (JArr turns) => turns
  | _ => []
  end.


Section WithHost.
Context `{Host}.

(** What the specification says of one event: it is kept when its uppercased
    symbol maps to NYSE or NASDAQ, and, when [keep] is set, also when the
    symbol is absent from the map. *)
Definition keptBySpec (m : gmap string string) (keep : bool) (ev : EarningsEvent) : bool :=
  match m !! toUpperCase (symbol ev) with
  | Some exch => bool_decide (exch = "NYSE" ∨ exch = "NASDAQ")
  | None => keep
  end.

(** The text the Calendar Fetcher reads in the field [k] of a record: the
    field, or the empty string when it is missing or [null], converted to a
    string and trimmed. *)
Definition fieldText (item : JSON) (k : string) : string :=
  trim (ToString (nullish (propOf item k) (Some (JStr "")))).

(** What holds of an event the Calendar Fetcher returns. *)
Definition wellFormed (ev : EarningsEvent) : Prop :=
  symbol ev ≠ "" ∧ reportDate ev ≠ ""
  ∧ symbol ev = fieldText (raw ev) "symbol"
  ∧ reportDate ev = fieldText (raw ev) "date".

(** [String(v ?? "").toUpperCase().trim()] *)
Definition normalized (v : value) : string :=
  trim (toUpperCase (ToString (nullish v (Some (JStr ""))))).

(** The pair a record of the stock list adds to the map, if any: its
    normalized symbol and the normalized value of the first exchange field
    that is present and not [null], when neither is empty. *)
Definition stockEntry (item : JSON) : option (string * string) :=
  let props := match item with JObj props => props | _ => [] end in
  let sym := normalized (assoc "symbol" props) in
  let exch := normalized (firstPresent exchangeFields props) in
  if Str.isEmpty sym || Str.isEmpty exch then None else Some (sym, exch).

Definition addEntry (map : gmap string string) (item : JSON) : gmap string string :=
  match stockEntry item with
  | Some (sym, exch) => <[sym := exch]> map
  | None => map
  end.

(** The [n] natural numbers from [from] on. *)
Fixpoint range (n : nat) (from : N) : list N :=
  match n with
  | O => []
  | S k => from :: range k (N.succ from)
  end.

(** What is checked of one year: its four digits are read back as the
    year, which is a number, and one can be subtracted from it exactly. *)
Definition yearChecked (y : N) : bool :=
  let Y := Z.of_N y in
  Num.eqb (parseInt10 (Some (pad4 y))) (Num.ofZ Y)
  && negb (Num.isNaN (Num.ofZ Y))
  && Num.eqb (Num.sub (Num.ofZ Y) (Num.ofZ 1)) (Num.ofZ (Y - 1)).

(** What is checked of one month: its two digits are read back as the
    month, which is a number, and it compares with 3, 6 and 9 as the integer
    does. *)
Definition monthChecked (m : N) : bool :=
  let M := Z.of_N m in
  Num.eqb (parseInt10 (Some (pad2 m))) (Num.ofZ M)
  && negb (Num.isNaN (Num.ofZ M))
  && Bool.eqb (Num.le (Num.ofZ M) (Num.ofZ 3)) (M <=? 3)%Z
  && Bool.eqb (Num.le (Num.ofZ M) (Num.ofZ 6)) (M <=? 6)%Z
  && Bool.eqb (Num.le (Num.ofZ M) (Num.ofZ 9)) (M <=? 9)%Z.

End WithHost.

End Spec.

(** * Concrete inputs *)

Module Examples.







(** A response with a status, a status text and a body. *)
Definition response (code : N) (reason : string) (body : option JSON) : Response :=
  {| status := code; statusText := reason; retryAfter := None; json := body |}.

(** A network that answers every request with the same response. *)
Definition always (res : Response) : Network :=
  {| replies := fun _ => Resolved res; random := fun _ => S754_zero false |}.

(** A network whose first request fails, whose second is answered 429 with
    [Retry-After: 2], and whose later ones are answered 200 with [body]. *)
Definition flaky (body : JSON) : Network :=
  {| replies := fun n =>
       match n with
       | O => Rejected (TypeError "fetch failed")
       | S O => Resolved {| status := 429; statusText := "Too Many Requests";
                            retryAfter := Some "2"; json := None |}
       | _ => Resolved (response 200 "OK" (Some body))
       end;
     random := fun _ => S754_zero false |}.

(** A payload of the earnings calendar: a record, a record without a date
    and a record whose symbol is blank. *)
Definition calendarPayload : JSON :=
  JArr [ JObj [("symbol", JStr " NVDA "); ("date", JStr "2026-02-25");
               ("epsActual", JNum (Num.ofZ 1)); ("epsEstimated", JStr "n/a")];
         JObj [("symbol", JStr "ZM")];
         JObj [("symbol", JStr "   "); ("date", JStr "2026-02-26")] ].

(** Three events, listed on NASDAQ, on AMEX and nowhere, and their map. *)
Definition event (sym : string) : FmpEarnings.EarningsEvent :=
  {| FmpEarnings.symbol := sym; FmpEarnings.reportDate := "2026-02-25";
     FmpEarnings.epsActual := None; FmpEarnings.epsEstimated := None;
     FmpEarnings.revenueActual := None; FmpEarnings.revenueEstimated := None;
     FmpEarnings.raw := JNull |}.

Definition someEvents : list FmpEarnings.EarningsEvent :=
  [event "nvda"; event "IMO"; event "ZZZZ"].

Definition someMap : gmap string string :=
  {[ "NVDA" := "NASDAQ"; "IMO" := "AMEX" ]}.


(** A world whose cache file is valid, was built at [builtAt] and holds one
    entry. *)
Definition cachedAt (builtAt now : number) (net : Network) : FmpEarnings.World :=
  {| FmpEarnings.cacheFile :=
       FmpEarnings.Text (Some (JObj [("builtAt", JNum builtAt);
         ("entries", JArr [JObj [("symbol", JStr "AAPL"); ("exchange", JStr "NASDAQ")]])]));
     FmpEarnings.now := now;
     FmpEarnings.nowAtWrite := now;
     FmpEarnings.network := net;
     FmpEarnings.writeError := None |}.

(** 2026-02-25T06:13:20Z in milliseconds, one hour and eight days. *)
Definition someNow : Z := 1772000000000.
Definition oneHour : Z := 60 * 60 * 1000.
Definition eightDays : Z := 8 * 24 * 60 * 60 * 1000.

(** A world whose cache file holds the JSON text [null]. *)
Definition nullCache (now nowAtWrite : number) (net : Network) (err : option string)
  : FmpEarnings.World :=
  {| FmpEarnings.cacheFile := FmpEarnings.Text (Some JNull);
     FmpEarnings.now := now;
     FmpEarnings.nowAtWrite := nowAtWrite;
     FmpEarnings.network := net;
     FmpEarnings.writeError := err |}.

End Examples.


(** * The vocabulary of the further properties *)

(** As in [Spec], the definitions below are not code of the repository:
    they are what the further properties compare the code with. *)

Module Terms.

(** The digits of a string, in their order. *)
Fixpoint digitsIn (s : string) : string :=
  match s with
  | EmptyString => EmptyString
  | String c r => if Str.isDigit c then String c (digitsIn r) else digitsIn r
  end.

(** The number [YYYYMMDD] of a date [YYYY-MM-DD]: dates compare as these
    numbers do. *)
Definition dayNumber (date : string) : Z := digitsToZ 0 (digitsIn date).

(** A record of the calendar that carries a symbol and a date: the texts of
    its fields [symbol] and [date] are not empty. *)
Definition usable (item : JSON) : bool :=
  negb (Str.isEmpty (Spec.fieldText item "symbol"))
  && negb (Str.isEmpty (Spec.fieldText item "date")).

(** The world [w] with another outcome of [writeFile]. *)
Definition withWriteError (w : FmpEarnings.World) (err : option string)
  : FmpEarnings.World :=
  {| FmpEarnings.cacheFile := FmpEarnings.cacheFile w;
     FmpEarnings.now := FmpEarnings.now w;
     FmpEarnings.nowAtWrite := FmpEarnings.nowAtWrite w;
     FmpEarnings.network := FmpEarnings.network w;
     FmpEarnings.writeError := err |}.

Section WithHost.
Context `{Host}.

(** The exchange a record of the stock list gives to the symbol [sym], if
    it gives one. *)
Definition entryFor (sym : string) (item : JSON) : option string :=
  match Spec.stockEntry item with
  | Some (s, exch) => if String.eqb s sym then Some exch else None
  | None => None
  end.

End WithHost.

(** No character of [s] is a dash. *)
Fixpoint dashFree (s : string) : bool :=
  match s with
  | EmptyString => true
  | String c r => negb (Ascii.eqb c "-") && dashFree r
  end.

(** The error [dateToFiscalYearQuarter] throws for [callDate]. *)
Definition invalidCallDate (callDate : string) : exn :=
  Error ("[TranscriptProvider] Invalid callDate " ++ quote ++ callDate ++ quote
         ++ " — expected ISO-8601 (YYYY-MM-DD).").

(** The line of a speaker turn, [`${speaker}: ${text}`], when the turn has
    a text that is not empty. *)
Definition turnLine (turn : JSON) : option string :=
  let speaker := trim (ToString (nullish (propOf turn "speaker") (Some (JStr "Unknown")))) in
  let text := trim (ToString (nullish (propOf turn "text") (Some (JStr "")))) in
  if Str.isEmpty text then None else Some (speaker ++ ": " ++ text).

Section Providers.
Context `{Host}.

(** The request a provider sends for a symbol and a fiscal period: API
    Ninjas receives the key in a header, FMP in the URL. *)
Definition requestOf (p : TranscriptProvider.Provider) (symbol : string)
  (period : TranscriptProvider.FiscalPeriod) : effect :=
  match p with
  | TranscriptProvider.NinjasTranscriptProvider apiKey =>
      Fetch (TranscriptProvider.ninjasUrl symbol period) [("X-Api-Key", apiKey)]
  | TranscriptProvider.FmpTranscriptProvider apiKey =>
      Fetch (TranscriptProvider.fmpUrl apiKey symbol period) []
  end.

End Providers.

(** The text the providers read in a record: for FMP the field [content],
    for API Ninjas the lines of the speaker turns, or else the field
    [transcript]. *)
Definition textOf (p : TranscriptProvider.Provider) (raw : JSON) : string :=
  match p with
  | TranscriptProvider.NinjasTranscriptProvider _ =>
      match omap turnLine (Spec.speakerTurns raw) with
      | [] => Spec.fieldText raw "transcript"
      | lines =>
          Str.join (TranscriptProvider.newline ++ TranscriptProvider.newline) lines
      end
  | TranscriptProvider.FmpTranscriptProvider _ => Spec.fieldText raw "content"
  end.

(** The effects of the calls of the transcript provider among the effects
    of a run. *)
Definition calls (t : list Run.RunEffect) : list effect :=
  omap (fun e => match e with Run.Call e => Some e | _ => None end) t.

(** The lines a run prints about the transcripts of its events, one for
    each event. *)
Definition verdicts (t : list Run.RunEffect) : list Run.RunLine :=
  omap (fun e => match e with
                 | Run.Print (Run.TranscriptOk s d x) => Some (Run.TranscriptOk s d x)
                 | Run.Print (Run.TranscriptSkipped s d) => Some (Run.TranscriptSkipped s d)
                 | Run.Print (Run.TranscriptFailed s d m) => Some (Run.TranscriptFailed s d m)
                 | _ => None
                 end) t.

(** The wait before the retry that follows the answer number [k]: the
    seconds of a [Retry-After] header that came with a status 429 or 503, or
    the delay, 500 ms doubled [k] times, times a jitter drawn from
    [Math.random]. *)
Definition waitAfter (net : Network) (k : nat) (w : number) : Prop :=
  (∃ j, (j ≤ k)%nat
        ∧ w = Num.mul (Num.ofZ (500 * 2 ^ Z.of_nat k))
                      (FmpEarnings.jitter (random net j)))
  ∨ (∃ res c h,
       replies net k = Resolved res
       ∧ (status res = 429%N ∨ status res = 503%N)
       ∧ retryAfter res = Some (String c h)
       ∧ w = Num.mul (parseInt10 (Some (String c h))) (Num.ofZ 1000)).

End Terms.

(** * More concrete inputs *)

Module Cases.

Import Examples.

(** The arguments of a run for a week of January. *)
Definition someArgv : list string :=
  ["node"; "run.ts"; "--from"; "2026-01-05"; "-t"; "2026-01-09"].

Definition someArgs : Run.CliArgs :=
  {| Run.from := "2026-01-05"; Run.to := "2026-01-09" |}.

(** An environment with the two keys, one of them with spaces around it. *)
Definition someEnv : gmap string string :=
  {[ "FMP_API_KEY" := " fmp-key "; "NINJAS_API_KEY" := "ninjas-key" ]}.

(** The error of [requireEnv] for a variable. *)
Definition notSet (name : string) : exn :=
  Error ("Required environment variable " ++ quote ++ name ++ quote ++ " is not set."
         ++ TranscriptProvider.newline ++ "  Fix: export " ++ name ++ "=<your-key>").

(** A process with given arguments and environment, whose requests are all
    answered with a status 404 and whose cache file cannot be read. *)
Definition process (argv : list string) (env : gmap string string) : Run.Process :=
  {| Run.argv := argv;
     Run.env := env;
     Run.calendarNetwork := always (response 404 "Not Found" None);
     Run.world :=
       {| FmpEarnings.cacheFile := FmpEarnings.Unreadable;
          FmpEarnings.now := Num.ofZ someNow;
          FmpEarnings.nowAtWrite := Num.ofZ someNow;
          FmpEarnings.network := always (response 404 "Not Found" None);
          FmpEarnings.writeError := None |};
     Run.calendarFirst := true;
     Run.transcriptReply := fun _ => Resolved (response 404 "Not Found" None) |}.

(** A network whose first answer is a status 429 with a [Retry-After] header
    that gives a date. *)
Definition httpDate : Network :=
  {| replies := fun n =>
       match n with
       | O => Resolved {| status := 429; statusText := "Too Many Requests";
                          retryAfter := Some "Wed, 21 Oct 2015 07:28:00 GMT";
                          json := None |}
       | _ => Resolved (response 200 "OK" (Some (JArr [])))
       end;
     random := fun _ => S754_zero false |}.

(** The records of [calendarPayload] and the event of the first one. *)
Definition nvdaRecord : JSON :=
  JObj [("symbol", JStr " NVDA "); ("date", JStr "2026-02-25");
        ("epsActual", JNum (Num.ofZ 1)); ("epsEstimated", JStr "n/a")].

Definition zmRecord : JSON := JObj [("symbol", JStr "ZM")].

Definition blankRecord : JSON :=
  JObj [("symbol", JStr "   "); ("date", JStr "2026-02-26")].

Definition nvdaEvent : FmpEarnings.EarningsEvent :=
  {| FmpEarnings.symbol := "NVDA"; FmpEarnings.reportDate := "2026-02-25";
     FmpEarnings.epsActual := Some (Num.ofZ 1); FmpEarnings.epsEstimated := None;
     FmpEarnings.revenueActual := None; FmpEarnings.revenueEstimated := None;
     FmpEarnings.raw := nvdaRecord |}.

(** Two records of the stock list for one symbol. *)
Definition twoListings : list JSON :=
  [ JObj [("symbol", JStr "aapl"); ("exchange", JStr "nyse")];
    JObj [("symbol", JStr "AAPL "); ("exchangeShortName", JStr "NASDAQ")] ].

(** A world whose cache file holds what [persistCache] wrote for [someMap]
    one hour ago. *)
Definition written : FmpEarnings.World :=
  {| FmpEarnings.cacheFile :=
       FmpEarnings.Text
         (Some (FmpEarnings.cachePayload (Num.ofZ (someNow - oneHour))
                  (map_to_list someMap)));
     FmpEarnings.now := Num.ofZ someNow;
     FmpEarnings.nowAtWrite := Num.ofZ someNow;
     FmpEarnings.network := always (response 404 "Not Found" None);
     FmpEarnings.writeError := None |}.

(** A world without a cache whose stock list is an empty array. *)
Definition emptyList : FmpEarnings.World :=
  {| FmpEarnings.cacheFile := FmpEarnings.Unreadable;
     FmpEarnings.now := Num.ofZ someNow;
     FmpEarnings.nowAtWrite := Num.ofZ someNow;
     FmpEarnings.network := always (response 200 "OK" (Some (JArr [])));
     FmpEarnings.writeError := None |}.

(** A record of API Ninjas with two speaker turns, one of them without a
    text, and a plain transcript. *)
Definition twoTurns : JSON :=
  JObj [("transcript_split",
         JArr [JObj [("speaker", JStr "CEO"); ("text", JStr " Hello. ")];
               JObj [("speaker", JStr "CFO")]]);
        ("transcript", JStr "plain text")].

(** A record of API Ninjas with a plain transcript, and the transcript the
    provider makes of it. *)
Definition plain : JSON := JObj [("transcript", JStr " Hello. ")].

Definition plainTranscript : TranscriptProvider.Transcript :=
  {| TranscriptProvider.symbol := "NVDA";
     TranscriptProvider.callDate := "2026-02-25";
     TranscriptProvider.text := "Hello.";
     TranscriptProvider.raw := plain |}.

End Cases.

(** * Properties *)

Import FmpEarnings Spec Examples.

Local Open Scope nat_scope.

(** ** The Exchange Filter *)

Section FilterFacts.
Context `{Host}.

Lemma NYSE_NASDAQ_spec (exch : string) :
  exch ∈ NYSE_NASDAQ ↔ exch = "NYSE" ∨ exch = "NASDAQ".
Proof. unfold NYSE_NASDAQ. set_solver. Qed.

Lemma filterCallback_spec m keep n ev :
  fst (filterCallback m keep n ev) = keptBySpec m keep ev.
Proof.
  unfold filterCallback, keptBySpec.
  destruct (m !! toUpperCase (symbol ev)) as [exch|].
  - destruct (bool_decide_reflect (exch ∈ NYSE_NASDAQ)) as [Hin|Hout]; simpl.
    + symmetry. apply bool_decide_eq_true. now apply NYSE_NASDAQ_spec.
    + symmetry. apply bool_decide_eq_false. now rewrite <- NYSE_NASDAQ_spec.
  - now destruct keep.
Qed.

Lemma filterEvents_filter m keep events n :
  fst (filterEvents m keep events n) = List.filter (keptBySpec m keep) events.
Proof.
  revert n. induction events as [|ev rest IH]; intros n; simpl; [reflexivity|].
  pose proof (filterCallback_spec m keep n ev) as Hcb.
  destruct (filterCallback m keep n ev) as [kept n']; simpl in Hcb.
  specialize (IH n').
  destruct (filterEvents m keep rest n') as [result n'']; simpl in *.
  rewrite <- Hcb, IH. now destruct kept.
Qed.

Lemma filterNyseNasdaq_filter events m options :
  filterNyseNasdaq events m options
  = List.filter (keptBySpec m (keepUnknownOf options)) events.
Proof.
  unfold filterNyseNasdaq, filterNyseNasdaqLogged.
  rewrite <- (filterEvents_filter m (keepUnknownOf options) events
                {| keptNyseNasdaq := 0; keptUnknown := 0; dropped := 0 |}).
  now destruct (filterEvents _ _ _ _).
Qed.


Lemma filter_twice {A} (f : A → bool) (l : list A) :
  List.filter f (List.filter f l) = List.filter f l.
Proof.
  induction l as [|x l IH]; simpl; [reflexivity|].
  destruct (f x) eqn:Hx; simpl; rewrite ?Hx, IH; reflexivity.
Qed.

(** The counters of the logged line add up to the number of events, and the
    first two to the number of events kept. *)
Lemma filterEvents_counts m keep events n :
  let '(result, n') := filterEvents m keep events n in
  keptNyseNasdaq n' + keptUnknown n' + dropped n'
  = keptNyseNasdaq n + keptUnknown n + dropped n + length events
  ∧ keptNyseNasdaq n' + keptUnknown n'
    = keptNyseNasdaq n + keptUnknown n + length result.
Proof.
  revert n. induction events as [|ev rest IH]; intros n; simpl; [lia|].
  unfold filterCallback.
  destruct (m !! toUpperCase (symbol ev)) as [exch|];
    [destruct (bool_decide (exch ∈ NYSE_NASDAQ))|destruct keep];
    match goal with |- context [filterEvents m ?k rest ?c] =>
      specialize (IH c); destruct (filterEvents m k rest c) as [result n'']
    end; simpl in *; lia.
Qed.


(** C10. The filter is idempotent: filtering again, with the same map and
    the same options (in particular with [keepUnknown] false, the default),
    a list the filter has produced returns that list unchanged. *)
Theorem filterNyseNasdaq_idempotent
  (events : list EarningsEvent) (m : gmap string string) (options : FilterOptions) :
  filterNyseNasdaq (filterNyseNasdaq events m options) m options
  = filterNyseNasdaq events m options
  ∧ filterNyseNasdaq (filterNyseNasdaq events m {| keepUnknown := None |}) m
      {| keepUnknown := Some false |}
    = filterNyseNasdaq events m {| keepUnknown := None |}.
Proof.
  split.
  - rewrite !filterNyseNasdaq_filter. apply filter_twice.
  - rewrite !filterNyseNasdaq_filter. simpl. apply filter_twice.
Qed.

End FilterFacts.

(** ** The Resilient JSON Fetcher *)

Section FetcherFacts.
Variable url : string.
Variable net : Network.

Lemma readBody_failure (res : Response) :
  ok res = false ∨ json res = None →
  ∃ msg, readBody url res = Throw (Error msg).
Proof.
  unfold readBody. intros [Hok|Hjson].
  - rewrite Hok. simpl. eauto.
  - destruct (ok res); simpl; [rewrite Hjson|]; eauto.
Qed.

Lemma readBody_throws_Error (res : Response) (e : exn) :
  readBody url res = Throw e → ∃ msg, e = Error msg.
Proof.
  unfold readBody. destruct (ok res); simpl; [|intros [= <-]; eauto].
  destruct (json res) as [body|]; [|intros [= <-]; eauto].
  destruct body as [| | | | |props]; simpl; try discriminate.
  destruct (hasProp "Error Message" props); simpl; [|discriminate].
  intros [= <-]. eauto.
Qed.

(** The loop entered at the attempt [S i]: it sends at least one request and
    never goes past [MAX_ATTEMPTS]; every request but the last was answered by
    a retryable answer; the last answer decides the result. *)
Lemma attempts_policy (fuel i : nat) (delayMs : number) (draws : nat) :
  S i ≤ MAX_ATTEMPTS → MAX_ATTEMPTS < S i + fuel →
  let n := requests (snd (attempts url net fuel (S i) delayMs draws)) in
  let r := fst (attempts url net fuel (S i) delayMs draws) in
  1 ≤ n ∧ i + n ≤ MAX_ATTEMPTS
  ∧ (∀ k, S k < n → retryable (replies net (i + k)) = true)
  ∧ (∀ res, replies net (i + (n - 1)) = Resolved res →
            retryable (Resolved res) = false → r = readBody url res)
  ∧ (retryable (replies net (i + (n - 1))) = true →
     i + n = MAX_ATTEMPTS ∧ ∃ msg, r = Throw (Error msg)).
Proof.
  revert i delayMs draws.
  induction fuel as [|fuel IH]; intros i delayMs draws Hrange Hfuel; [lia|].
  assert (Hle : Nat.leb (S i) MAX_ATTEMPTS = true) by (apply Nat.leb_le; lia).
  (* a turn that goes on to the next attempt *)
  assert (Hnext : ∀ d dr sleep, S i ≠ MAX_ATTEMPTS →
            retryable (replies net i) = true →
            ∀ r t, attempts url net fuel (S (S i)) d dr = (r, t) →
            let n := requests (Fetch url [] :: Sleep sleep :: t) in
            1 ≤ n ∧ i + n ≤ MAX_ATTEMPTS
            ∧ (∀ k, S k < n → retryable (replies net (i + k)) = true)
            ∧ (∀ res, replies net (i + (n - 1)) = Resolved res →
                      retryable (Resolved res) = false → r = readBody url res)
            ∧ (retryable (replies net (i + (n - 1))) = true →
               i + n = MAX_ATTEMPTS ∧ ∃ msg, r = Throw (Error msg))).
  { intros d dr sleep Hne Hretry r t Hrt.
    destruct (IH (S i) d dr) as (H1 & H2 & H3 & H4 & H5); [lia|lia|].
    rewrite Hrt in H1, H2, H3, H4, H5. cbn [fst snd] in *.
    change (requests (Fetch url [] :: Sleep sleep :: t)) with (S (requests t)).
    cbv zeta. remember (requests t) as n' eqn:Hn'. clear Hn'.
    replace (i + (S n' - 1)) with (S i + (n' - 1)) by lia.
    split; [lia|]. split; [lia|]. split; [|split].
    - intros [|k] Hk.
      + now rewrite Nat.add_0_r.
      + rewrite Nat.add_succ_r. apply H3. lia.
    - exact H4.
    - intros Hlast. destruct (H5 Hlast) as [H6 H7]. split; [lia|exact H7]. }
  (* a turn that ends the loop *)
  assert (Hstop : ∀ r, 
            let n := requests [Fetch url []] in
            ((∀ res, replies net i = Resolved res →
                     retryable (Resolved res) = false → r = readBody url res)
             ∧ (retryable (replies net i) = true →
                S i = MAX_ATTEMPTS ∧ ∃ msg, r = Throw (Error msg))) →
            1 ≤ n ∧ i + n ≤ MAX_ATTEMPTS
            ∧ (∀ k, S k < n → retryable (replies net (i + k)) = true)
            ∧ (∀ res, replies net (i + (n - 1)) = Resolved res →
                      retryable (Resolved res) = false → r = readBody url res)
            ∧ (retryable (replies net (i + (n - 1))) = true →
               i + n = MAX_ATTEMPTS ∧ ∃ msg, r = Throw (Error msg))).
  { intros r n [Ha Hb]. subst n. change (requests [Fetch url []]) with 1.
    replace (i + (1 - 1)) with i by lia.
    split; [lia|]. split; [lia|]. split; [intros k Hk; lia|]. split; [exact Ha|].
    intros Hr. destruct (Hb Hr) as [Hc Hd]. split; [lia|exact Hd]. }
  cbv zeta. cbn [attempts]. rewrite Hle. cbn [negb].
  replace (S i - 1) with i by lia.
  destruct (replies net i) as [err|res] eqn:Hreply.
  - destruct (Nat.eqb_spec (S i) MAX_ATTEMPTS) as [Heq|Hne].
    + cbn [fst snd]. apply Hstop. split; [intros res [=]|].
      intros _. split; [exact Heq|]. eauto.
    + destruct (attempts url net fuel (S (S i)) _ (S draws)) as [r t] eqn:Hrt.
      cbn [fst snd]. eapply Hnext; eauto.
  - destruct (N.eqb (status res) 429 || N.eqb (status res) 503)%bool eqn:Hstatus.
    + destruct (Nat.ltb_spec (S i) MAX_ATTEMPTS) as [Hlt|Hge].
      * assert (Hne : S i ≠ MAX_ATTEMPTS) by lia.
        assert (Hretry : retryable (Resolved res) = true) by exact Hstatus.
        destruct (retryAfter res) as [[|c s]|].
        -- destruct (attempts url net fuel (S (S i)) _ (S draws)) as [r t] eqn:Hrt.
           cbn [fst snd]. eapply Hnext; eauto.
        -- destruct (attempts url net fuel (S (S i)) _ draws) as [r t] eqn:Hrt.
           cbn [fst snd]. eapply Hnext; eauto.
        -- destruct (attempts url net fuel (S (S i)) _ (S draws)) as [r t] eqn:Hrt.
           cbn [fst snd]. eapply Hnext; eauto.
      * cbn [fst snd]. apply Hstop. split.
        -- intros res' [= <-] Hno. simpl in Hno. congruence.
        -- intros _. split; [lia|]. eauto.
    + cbn [fst snd]. apply Hstop. split.
      * intros res' [= <-] _. reflexivity.
      * simpl. rewrite Hstatus. discriminate.
Qed.

(** C7. Whatever the network answers, [fetchJson] sends between one and
    three requests; a request is followed by another one only when it was
    answered by a transport-level failure or by a status 429 or 503; any other
    answer is the last one and decides the result, which is a failure when
    the status is not a success or when the body is not JSON; and when every
    request was answered by a retryable answer, three requests were sent and
    the call fails. *)
Theorem fetchJson_retry_policy :
  let n := requests (snd (fetchJson url net)) in
  let result := fst (fetchJson url net) in
  (1 ≤ n ≤ MAX_ATTEMPTS ∧ MAX_ATTEMPTS = 3)
  ∧ (∀ k, S k < n → retryable (replies net k) = true)
  ∧ (∀ k res, k < n → replies net k = Resolved res → status res ≠ 429%N →
       status res ≠ 503%N →
       n = S k ∧ result = readBody url res
       ∧ (ok res = false ∨ json res = None → ∃ msg, result = Throw (Error msg)))
  ∧ ((∀ k, k < n → retryable (replies net k) = true) →
       n = MAX_ATTEMPTS ∧ ∃ msg, result = Throw (Error msg)).
Proof.
  intros n result. subst n result. unfold fetchJson.
  destruct (attempts_policy (S MAX_ATTEMPTS) 0 BASE_DELAY_MS 0)
    as (H1 & H2 & H3 & H4 & H5); [unfold MAX_ATTEMPTS; lia|lia|].
  set (n := requests (snd (attempts url net (S MAX_ATTEMPTS) 1 BASE_DELAY_MS 0))) in *.
  set (r := fst (attempts url net (S MAX_ATTEMPTS) 1 BASE_DELAY_MS 0)) in *.
  cbn [Nat.add] in H2, H3, H4, H5.
  split; [split; [lia|reflexivity]|]. split; [exact H3|]. split.
  - intros k res Hk Hres H429 H503.
    assert (Hnot : retryable (Resolved res) = false).
    { simpl. apply orb_false_iff. split; now apply N.eqb_neq. }
    assert (Hlast : k = n - 1).
    { destruct (Nat.lt_ge_cases (S k) n) as [Hlt|Hge]; [|lia].
      apply H3 in Hlt. rewrite Hres, Hnot in Hlt. discriminate. }
    subst k. split; [lia|].
    assert (Hr : r = readBody url res) by (apply H4; assumption).
    split; [exact Hr|]. intros Hbad. rewrite Hr. now apply readBody_failure.
  - intros Hall. assert (Hlast : retryable (replies net (n - 1)) = true)
      by (apply Hall; lia).
    destruct (H5 Hlast) as [Hn Hthrow]. split; [unfold MAX_ATTEMPTS in *; lia|exact Hthrow].
Qed.

End FetcherFacts.

(** ** Redaction of the API key *)

Lemma append_assoc (a b c : string) : ((a ++ b) ++ c = a ++ (b ++ c))%string.
Proof.
  induction a as [|x a IH]; [reflexivity|].
  change (String x ((a ++ b) ++ c) = String x (a ++ b ++ c))%string. now rewrite IH.
Qed.

Lemma append_nil_r (a : string) : (a ++ "")%string = a.
Proof.
  induction a as [|x a IH]; [reflexivity|].
  change (String x (a ++ "") = String x a)%string. now rewrite IH.
Qed.

Lemma spanValue_parameter (key rest : string) :
  noAmpersand key = true → endsParameter rest = true →
  spanValue (key ++ rest) = (key, rest).
Proof.
  intros Hkey Hrest. induction key as [|c key IH]; simpl in *.
  - destruct rest as [|c rest]; [reflexivity|]. simpl in Hrest. simpl.
    now rewrite Hrest.
  - apply andb_true_iff in Hkey as [Hc Hkey]. apply negb_true_iff in Hc.
    rewrite Hc, (IH Hkey). reflexivity.
Qed.

(** Under [apikey=], a value that is not empty is replaced. *)
Lemma redact_parameter (key rest : string) :
  key ≠ "" → noAmpersand key = true → endsParameter rest = true →
  redact ("apikey=" ++ key ++ rest) = ("apikey=REDACTED" ++ rest)%string.
Proof.
  intros Hne Hkey Hrest.
  change (redact ("apikey=" ++ key ++ rest))
    with (match spanValue (key ++ rest) with
          | (EmptyString, _) => String "a" (redact ("pikey=" ++ key ++ rest))
          | (_, rest') => ("apikey=REDACTED" ++ rest')%string
          end).
  rewrite spanValue_parameter by assumption.
  destruct key; [contradiction|reflexivity].
Qed.

(** [append] does not unfold under [simpl]: these steps push it inwards. *)
Ltac push_append :=
  repeat match goal with
    | |- context [(String ?c ?s ++ ?t)%string] =>
        change (String c s ++ t)%string with (String c (s ++ t)%string)
    | |- context [("" ++ ?t)%string] => change ("" ++ t)%string with t
    end.

Ltac next_char s c :=
  destruct s as [|c s]; push_append; cbn [Str.dropPrefix] in *;
  [try reflexivity; try discriminate
  |match goal with
   | |- context [Ascii.eqb ?p c] => destruct (Ascii.eqb p c); [|reflexivity]
   end].

(** [apikey=] has no border: a text that does not start with it does not
    start with it either when [apikey=] is written after it. *)
Lemma dropPrefix_border (s tail : string) :
  s ≠ "" → Str.dropPrefix "apikey=" s = None →
  Str.dropPrefix "apikey=" (s ++ "apikey=" ++ tail) = None.
Proof.
  intros Hne Hnone. destruct s as [|c1 s]; [contradiction|]. clear Hne.
  push_append. cbn [Str.dropPrefix] in *.
  destruct (Ascii.eqb "a" c1); [|reflexivity].
  next_char s c2. next_char s c3. next_char s c4. next_char s c5.
  next_char s c6. next_char s c7. discriminate.
Qed.

Lemma redact_prefix (prefix tail : string) :
  mentionsApiKey prefix = false →
  redact (prefix ++ "apikey=" ++ tail) = (prefix ++ redact ("apikey=" ++ tail))%string.
Proof.
  induction prefix as [|c prefix IH]; intros Hno; [reflexivity|].
  cbn [mentionsApiKey] in Hno.
  destruct (Str.dropPrefix "apikey=" (String c prefix)) eqn:Hdp; [discriminate|].
  assert (Hb := dropPrefix_border (String c prefix) tail ltac:(discriminate) Hdp).
  change ((String c prefix ++ "apikey=" ++ tail)%string)
    with (String c (prefix ++ "apikey=" ++ tail)) in *.
  cbn [redact]. rewrite Hb, (IH Hno). reflexivity.
Qed.

(** The URL that is shown for a URL whose first [apikey=] is a query
    parameter with a value. *)
Lemma redact_url (prefix key rest : string) :
  mentionsApiKey prefix = false → key ≠ "" → noAmpersand key = true →
  endsParameter rest = true →
  redact (prefix ++ "apikey=" ++ key ++ rest)
  = (prefix ++ "apikey=REDACTED" ++ rest)%string.
Proof.
  intros Hp Hne Hk Hr. rewrite redact_prefix by exact Hp.
  now rewrite redact_parameter.
Qed.

(** *** The URLs the module builds *)

Lemma encodeURIComponent_chars (s : string) :
  noAmpersand (encodeURIComponent s) = true ∧ noEquals (encodeURIComponent s) = true.
Proof.
  induction s as [|c s [IHa IHe]]; [now split|].
  cbn [encodeURIComponent].
  destruct (isUnreserved c) eqn:Hun.
  - cbn [noAmpersand noEquals]. rewrite IHa, IHe.
    destruct c as [[] [] [] [] [] [] [] []]; try discriminate Hun; now split.
  - cbn [noAmpersand noEquals]. rewrite IHa, IHe.
    destruct c as [[] [] [] [] [] [] [] []]; now split.
Qed.

Lemma encodeURIComponent_nonempty (s : string) :
  s ≠ "" → encodeURIComponent s ≠ "".
Proof.
  destruct s as [|c s]; [contradiction|]. intros _. cbn [encodeURIComponent].
  now destruct (isUnreserved c).
Qed.

Ltac next_plain s c H :=
  destruct s as [|c s]; push_append; cbn [Str.dropPrefix];
  [reflexivity
  |cbn [noEquals] in H; apply andb_true_iff in H as [? H];
   match goal with
   | |- context [Ascii.eqb ?p c] => destruct (Ascii.eqb p c) eqn:?; [|reflexivity]
   end].

(** A text without [=], followed by [&], does not start with [apikey=]. *)
Lemma dropPrefix_plain (s t : string) :
  noEquals s = true → Str.dropPrefix "apikey=" (s ++ String "&" t) = None.
Proof.
  intros Hs.
  next_plain s c1 Hs. next_plain s c2 Hs. next_plain s c3 Hs. next_plain s c4 Hs.
  next_plain s c5 Hs. next_plain s c6 Hs.
  destruct s as [|c7 s]; push_append; cbn [Str.dropPrefix]; [reflexivity|].
  cbn [noEquals] in Hs. apply andb_true_iff in Hs as [Hc _].
  apply negb_true_iff in Hc. now rewrite Hc.
Qed.

Lemma mentionsApiKey_plain (s t : string) :
  noEquals s = true → mentionsApiKey (s ++ String "&" t) = mentionsApiKey t.
Proof.
  induction s as [|c s IH]; intros Hs.
  - reflexivity.
  - pose proof (dropPrefix_plain (String c s) t Hs) as Hd.
    cbn [noEquals] in Hs. apply andb_true_iff in Hs as [_ Hs].
    change ((String c s ++ String "&" t)%string) with (String c (s ++ String "&" t)) in *.
    cbn [mentionsApiKey]. rewrite Hd. now apply IH.
Qed.

Lemma calendarUrl_parts (fromDate toDate apiKey : string) :
  calendarUrl fromDate toDate apiKey
  = (calendarPrefix fromDate toDate ++ "apikey=" ++ encodeURIComponent apiKey ++ "")%string.
Proof.
  unfold calendarUrl, calendarPrefix. rewrite !append_assoc, append_nil_r. reflexivity.
Qed.

Lemma calendarPrefix_quiet (fromDate toDate : string) :
  mentionsApiKey (calendarPrefix fromDate toDate) = false.
Proof.
  unfold calendarPrefix, FMP_BASE. push_append. cbn [mentionsApiKey Str.dropPrefix Ascii.eqb Bool.eqb].
  change ("&to=" ++ encodeURIComponent toDate ++ "&")%string
    with (String "&" ("to=" ++ encodeURIComponent toDate ++ "&")).
  rewrite mentionsApiKey_plain by apply encodeURIComponent_chars.
  push_append. cbn [mentionsApiKey Str.dropPrefix Ascii.eqb Bool.eqb].
  change ("&")%string with (String "&" "").
  rewrite mentionsApiKey_plain by apply encodeURIComponent_chars.
  reflexivity.
Qed.

(** The URL the Calendar Fetcher builds is shown with its key replaced. *)
Lemma calendarUrl_redacted (fromDate toDate apiKey : string) :
  apiKey ≠ "" →
  redact (calendarUrl fromDate toDate apiKey)
  = (calendarPrefix fromDate toDate ++ "apikey=REDACTED")%string.
Proof.
  intros Hne. rewrite calendarUrl_parts, redact_url.
  - reflexivity.
  - apply calendarPrefix_quiet.
  - now apply encodeURIComponent_nonempty.
  - apply encodeURIComponent_chars.
  - reflexivity.
Qed.

(** The URL the Exchange Map Builder builds is shown with its key replaced. *)
Lemma stockListUrl_redacted (apiKey : string) :
  apiKey ≠ "" →
  redact (stockListUrl apiKey) = (FMP_BASE ++ "/stock-list?apikey=REDACTED")%string.
Proof.
  intros Hne. unfold stockListUrl.
  change (FMP_BASE ++ "/stock-list?apikey=" ++ encodeURIComponent apiKey)%string
    with ((FMP_BASE ++ "/stock-list?") ++ "apikey=" ++ encodeURIComponent apiKey)%string.
  rewrite <- (append_nil_r (encodeURIComponent apiKey)), redact_url.
  - reflexivity.
  - reflexivity.
  - now apply encodeURIComponent_nonempty.
  - apply encodeURIComponent_chars.
  - reflexivity.
Qed.

Section RedactionFacts.
Variable net : Network.

Lemma readBody_safeUrl (url1 url2 : string) (res : Response) :
  redact url1 = redact url2 → readBody url1 res = readBody url2 res.
Proof. intros Heq. unfold readBody, safeUrl. now rewrite Heq. Qed.

(** The result of the loop depends on the URL through [safeUrl] only. *)
Lemma attempts_safeUrl (url1 url2 : string) (fuel attempt : nat) (d : number) (dr : nat) :
  redact url1 = redact url2 →
  fst (attempts url1 net fuel attempt d dr) = fst (attempts url2 net fuel attempt d dr).
Proof.
  intros Heq. revert attempt d dr.
  induction fuel as [|fuel IH]; intros attempt d dr; cbn [attempts].
  - unfold exhausted, safeUrl. now rewrite Heq.
  - destruct (Nat.leb attempt MAX_ATTEMPTS); cbn [negb];
      [|unfold exhausted, safeUrl; now rewrite Heq].
    destruct (replies net (attempt - 1)) as [err|res].
    + destruct (Nat.eqb attempt MAX_ATTEMPTS).
      * unfold safeUrl. now rewrite Heq.
      * specialize (IH (S attempt) (Num.mul d (Num.ofZ 2)) (S dr)).
        do 2 destruct (attempts _ net fuel _ _ _). exact IH.
    + destruct (N.eqb (status res) 429 || N.eqb (status res) 503)%bool.
      * destruct (Nat.ltb attempt MAX_ATTEMPTS); [|unfold safeUrl; now rewrite Heq].
        destruct (retryAfter res) as [[|c s]|].
        -- specialize (IH (S attempt) (Num.mul d (Num.ofZ 2)) (S dr)).
           do 2 destruct (attempts _ net fuel _ _ _). exact IH.
        -- specialize (IH (S attempt) (Num.mul d (Num.ofZ 2)) dr).
           do 2 destruct (attempts _ net fuel _ _ _). exact IH.
        -- specialize (IH (S attempt) (Num.mul d (Num.ofZ 2)) (S dr)).
           do 2 destruct (attempts _ net fuel _ _ _). exact IH.
      * cbn [fst]. now apply readBody_safeUrl.
Qed.





(** The results of the two calls the module makes do not depend on the
    key, for the same answers of the network. *)
Lemma fetchJson_module_urls_key_independent (fromDate toDate key key' : string) :
  key ≠ "" → key' ≠ "" →
  fst (fetchJson (calendarUrl fromDate toDate key) net)
  = fst (fetchJson (calendarUrl fromDate toDate key') net)
  ∧ fst (fetchJson (stockListUrl key) net) = fst (fetchJson (stockListUrl key') net).
Proof.
  intros Hk Hk'. unfold fetchJson. split; apply attempts_safeUrl.
  - now rewrite !calendarUrl_redacted.
  - now rewrite !stockListUrl_redacted.
Qed.

End RedactionFacts.

(** ** The Calendar Fetcher *)

Section CalendarFacts.
Context `{Host}.

Lemma isEmpty_spec (s : string) : Str.isEmpty s = true ↔ s = "".
Proof. destruct s; simpl; split; congruence. Qed.

Lemma getProp_not_null (item : JSON) (k : string) :
  item ≠ JNull → getProp item k = Return (propOf item k).
Proof. destruct item; intros Hnn; try reflexivity. contradiction. Qed.

(** One record: it is skipped with a warning exactly when the text of its
    symbol or of its date is empty, and the event built from it carries both
    texts and the record itself. *)
Lemma calendarRecord_spec (item : JSON) :
  item ≠ JNull →
  (fieldText item "symbol" = "" ∨ fieldText item "date" = "" →
   calendarRecord item = Return (inr (WarnSkippingRecord item)))
  ∧ (fieldText item "symbol" ≠ "" → fieldText item "date" ≠ "" →
     ∃ ev, calendarRecord item = Return (inl ev)
           ∧ symbol ev = fieldText item "symbol"
           ∧ reportDate ev = fieldText item "date"
           ∧ raw ev = item).
Proof.
  intros Hnn. unfold calendarRecord, fieldText.
  destruct item as [|b|n|s|elems|props]; [contradiction|..];
    cbn [getProp propOf mbind completion_bind];
    match goal with
    | |- context [Str.isEmpty ?a || Str.isEmpty ?b] => set (sym := a); set (date := b)
    end;
    (split;
     [intros [Hs|Hd];
      [rewrite Hs; reflexivity|rewrite Hd; now rewrite orb_true_r]
     |intros Hs Hd;
      destruct (Str.isEmpty sym) eqn:Es; [apply isEmpty_spec in Es; contradiction|];
      destruct (Str.isEmpty date) eqn:Ed; [apply isEmpty_spec in Ed; contradiction|];
      cbn [orb]; eexists; split; [reflexivity|]; now cbn]).
Qed.

Lemma calendarRecord_null : ∃ msg, calendarRecord JNull = Throw (TypeError msg).
Proof. eexists. reflexivity. Qed.

Lemma calendarLoop_spec (data : list JSON) (acc events : list EarningsEvent)
  (t : list effect) :
  calendarLoop data acc = (Return events, t) →
  Forall wellFormed acc →
  Forall wellFormed events
  ∧ length events + length (warned t) = length acc + length data
  ∧ Forall (fun item => fieldText item "symbol" = "" ∨ fieldText item "date" = "")
           (warned t)
  ∧ (∀ ev, ev ∈ events → ev ∈ acc ∨ raw ev ∈ data).
Proof.
  revert acc events t.
  induction data as [|item rest IH]; intros acc events t Hloop Hacc; cbn [calendarLoop] in Hloop.
  - injection Hloop as <- <-. cbn. repeat split; auto; lia.
  - assert (Hnn : item ≠ JNull) by (intros ->; discriminate Hloop).
    destruct (calendarRecord_spec item Hnn) as [Hskip Hkeep].
    destruct (decide (fieldText item "symbol" = "")) as [Hs|Hs];
      [|destruct (decide (fieldText item "date" = "")) as [Hd|Hd]].
    1, 2: rewrite Hskip in Hloop by auto;
      destruct (calendarLoop rest acc) as [r t'] eqn:Hrest;
      injection Hloop as -> <-;
      destruct (IH _ _ _ Hrest Hacc) as (H1 & H2 & H3 & H4);
      cbn [warned omap list_omap length] in *; fold (warned t');
      (split; [exact H1|]); (split; [lia|]);
      (split; [constructor; auto|]);
      intros ev Hev; destruct (H4 ev Hev); [now left|right; now right].
    destruct (Hkeep Hs Hd) as (ev & Hev & Hsym & Hdate & Hraw).
    rewrite Hev in Hloop.
    assert (Hacc' : Forall wellFormed (acc ++ [ev])).
    { apply Forall_app. split; [exact Hacc|]. constructor; [|constructor].
      unfold wellFormed. rewrite Hraw, Hsym, Hdate. auto. }
    destruct (IH _ _ _ Hloop Hacc') as (H1 & H2 & H3 & H4).
    split; [exact H1|]. split; [rewrite length_app in H2; cbn in *; lia|].
    split; [exact H3|].
    intros ev' Hev'. destruct (H4 ev' Hev') as [Hin|Hin].
    + apply elem_of_app in Hin as [Hin|Hin]; [now left|].
      apply list_elem_of_singleton in Hin as ->. right. rewrite Hraw. now left.
    + right. now right.
Qed.

Lemma attempts_no_warning (url : string) (net : Network) (fuel attempt : nat)
  (d : number) (dr : nat) :
  warned (snd (attempts url net fuel attempt d dr)) = [].
Proof.
  revert attempt d dr. induction fuel as [|fuel IH]; intros attempt d dr;
    cbn [attempts]; [reflexivity|].
  destruct (Nat.leb attempt MAX_ATTEMPTS); cbn [negb]; [|reflexivity].
  destruct (replies net (attempt - 1)) as [err|res].
  - destruct (Nat.eqb attempt MAX_ATTEMPTS); [reflexivity|].
    specialize (IH (S attempt) (Num.mul d (Num.ofZ 2)) (S dr)).
    destruct (attempts url net fuel _ _ _). exact IH.
  - destruct (N.eqb (status res) 429 || N.eqb (status res) 503)%bool; [|reflexivity].
    destruct (Nat.ltb attempt MAX_ATTEMPTS); [|reflexivity].
    destruct (retryAfter res) as [[|c s]|].
    + specialize (IH (S attempt) (Num.mul d (Num.ofZ 2)) (S dr)).
      destruct (attempts url net fuel _ _ _). exact IH.
    + specialize (IH (S attempt) (Num.mul d (Num.ofZ 2)) dr).
      destruct (attempts url net fuel _ _ _). exact IH.
    + specialize (IH (S attempt) (Num.mul d (Num.ofZ 2)) (S dr)).
      destruct (attempts url net fuel _ _ _). exact IH.
Qed.

Lemma warned_app (t t' : list effect) : warned (t ++ t') = (warned t ++ warned t')%list.
Proof. unfold warned. apply omap_app. Qed.

(** C8. Whatever the network answers, and so whatever the payload is, every
    event the Calendar Fetcher returns has a symbol and a report date that
    are not empty: they are the trimmed texts of the fields [symbol] and
    [date] of the record kept in [raw], which is a record of the payload.  The
    records that are not returned were skipped with a warning, one warning
    for each, and each of them has a symbol or a date whose text is empty. *)
Theorem fetchFmpEarningsCalendar_events_complete
  (fromDate toDate apiKey : string) (net : Network) :
  match fetchFmpEarningsCalendar fromDate toDate apiKey net with
  | (Return events, t) =>
      Forall (fun ev => symbol ev ≠ "" ∧ reportDate ev ≠ "") events
      ∧ Forall wellFormed events
      ∧ Forall (fun item => fieldText item "symbol" = "" ∨ fieldText item "date" = "")
               (warned t)
      ∧ ∃ data, fst (fetchJson (calendarUrl fromDate toDate apiKey) net) = Return (JArr data)
                ∧ length events + length (warned t) = length data
                ∧ ∀ ev, ev ∈ events → raw ev ∈ data
  | (Throw _, _) => True
  end.
Proof.
  unfold fetchFmpEarningsCalendar.
  destruct (assertApiKey apiKey _); [|exact I].
  pose proof (attempts_no_warning (calendarUrl fromDate toDate apiKey) net
                (S MAX_ATTEMPTS) 1 BASE_DELAY_MS 0) as Hquiet.
  fold (fetchJson (calendarUrl fromDate toDate apiKey) net) in Hquiet.
  destruct (fetchJson (calendarUrl fromDate toDate apiKey) net) as [[body|e] t];
    [|exact I].
  destruct body as [| | | |data|]; try exact I.
  destruct (calendarLoop data []) as [[events|e] t'] eqn:Hloop; [|exact I].
  destruct (calendarLoop_spec data [] events t' Hloop) as (H1 & H2 & H3 & H4);
    [constructor|].
  cbn [snd] in Hquiet. rewrite warned_app, Hquiet. cbn [app].
  split; [|split; [exact H1|split; [exact H3|]]].
  - eapply Forall_impl; [exact H1|]. intros ev (Hs & Hd & _). now split.
  - exists data. split; [reflexivity|]. split; [cbn in H2; lia|].
    intros ev Hev. destruct (H4 ev Hev) as [Hin|Hin]; [|exact Hin].
    now apply elem_of_nil in Hin.
Qed.

End CalendarFacts.

(** ** Numeric fields *)





(** ** The Exchange Map Builder *)

Section BuilderFacts.
Context `{Host}.

Lemma exchangeRaw_spec (props : list (string * JSON)) :
  exchangeRaw (JObj props)
  = Return (nullish (firstPresent exchangeFields props) (Some (JStr ""))).
Proof.
  unfold exchangeRaw. cbn [getProp propOf mbind completion_bind firstPresent exchangeFields].
  destruct (assoc "exchangeShortName" props) as [[]|];
    destruct (assoc "exchange_short_name" props) as [[]|];
    destruct (assoc "exchange" props) as [[]|]; reflexivity.
Qed.

Lemma stockRecord_spec (item : JSON) (map : gmap string string) :
  item ≠ JNull → stockRecord item map = Return (addEntry map item).
Proof.
  intros Hnn. unfold addEntry, stockEntry, normalized.
  destruct item as [|b|n|s|elems|props]; [contradiction|..].
  1-4: reflexivity.
  unfold stockRecord. rewrite exchangeRaw_spec.
  cbn [getProp propOf mbind completion_bind].
  match goal with
  | |- context [negb (Str.isEmpty ?a) && negb (Str.isEmpty ?b)] =>
      destruct (Str.isEmpty a); destruct (Str.isEmpty b); reflexivity
  end.
Qed.

Lemma stockLoop_spec (data : list JSON) (map : gmap string string) :
  JNull ∉ data → stockLoop data map = Return (foldl addEntry map data).
Proof.
  revert map. induction data as [|item rest IH]; intros map Hnn; [reflexivity|].
  assert (Hitem : item ≠ JNull) by (intros ->; apply Hnn; now left).
  cbn [stockLoop foldl]. rewrite (stockRecord_spec item map Hitem).
  cbn [mbind completion_bind]. apply IH. intros Hin. apply Hnn. now right.
Qed.


End BuilderFacts.


(** ** The Reference Cache *)

Section CacheFacts.
Context `{Host}.

Lemma cacheEntries_total (entries : list JSON) (map : gmap string string) :
  JNull ∉ entries → ∃ map', cacheEntries entries map = Return map'.
Proof.
  revert map. induction entries as [|entry rest IH]; intros map Hnn; [now eexists|].
  cbn [cacheEntries]. unfold cacheEntry.
  assert (Hentry : entry ≠ JNull) by (intros ->; apply Hnn; now left).
  rewrite !(getProp_not_null entry _ Hentry).
  cbn [mbind completion_bind].
  assert (Hrest : JNull ∉ rest) by (intros Hin; apply Hnn; now right).
  destruct (propOf entry "symbol") as [[]|]; destruct (propOf entry "exchange") as [[]|];
    apply IH; exact Hrest.
Qed.

(** When the payload of the cache file is not [null]: [load] is a miss when
    the file is unreadable or is not JSON, when the payload fails the
    structural validation, and when [builtAt] is older than the TTL; it is a
    hit, with the entries of the file, when the payload is valid and fresh
    and none of its entries is [null]. *)
Lemma tryLoadCache_outcomes (w : World) :
  match cacheFile w with
  | Unreadable | Text None => fst (tryLoadCache w) = Return None
  | Text (Some payload) =>
      payload ≠ JNull →
      match validated payload with
      | None => fst (tryLoadCache w) = Return None
      | Some (builtAt, entries) =>
          if stale (now w) builtAt then fst (tryLoadCache w) = Return None
          else JNull ∉ entries →
               ∃ map, cacheEntries entries ∅ = Return map
                      ∧ fst (tryLoadCache w) = Return (Some (map, builtAt))
      end
  end.
Proof.
  unfold tryLoadCache, validated, stale.
  destruct (cacheFile w) as [|[payload|]]; try exact eq_refl.
  intros Hnn. rewrite !(getProp_not_null payload _ Hnn).
  destruct (propOf payload "builtAt") as [[|b|builtAt|s|l|o]|];
    destruct (propOf payload "entries") as [[| | | |entries|]|]; try exact eq_refl.
  destruct (Num.gt (Num.sub (now w) builtAt) CACHE_TTL_MS); [exact eq_refl|].
  intros Hentries. destruct (cacheEntries_total entries ∅ Hentries) as [map Hmap].
  exists map. split; [exact Hmap|]. now rewrite Hmap.
Qed.

Lemma tryLoadCache_no_request (w : World) : requests (snd (tryLoadCache w)) = 0.
Proof.
  unfold tryLoadCache.
  destruct (cacheFile w) as [|[payload|]]; try reflexivity.
  destruct (getProp payload "builtAt") as [[[]|]|]; try reflexivity.
  destruct (getProp payload "entries") as [[[]|]|]; try reflexivity.
  destruct (Num.gt _ _); [reflexivity|]. now destruct (cacheEntries _ _).
Qed.

Lemma requests_app (t t' : list effect) : requests (t ++ t') = requests t + requests t'.
Proof. unfold requests. now rewrite List.filter_app, length_app. Qed.

(** On a hit the Builder returns the cached map and sends no request. *)
Lemma buildSymbolToExchangeMap_hit (apiKey : string) (w : World)
  (map : gmap string string) (builtAt : number) :
  assertApiKey apiKey "buildSymbolToExchangeMap" = Return tt →
  fst (tryLoadCache w) = Return (Some (map, builtAt)) →
  fst (buildSymbolToExchangeMap apiKey w) = Return map
  ∧ requests (snd (buildSymbolToExchangeMap apiKey w)) = 0.
Proof.
  intros Hkey Hhit. unfold buildSymbolToExchangeMap. rewrite Hkey.
  pose proof (tryLoadCache_no_request w) as Hquiet.
  destruct (tryLoadCache w) as [r t]. cbn [fst snd] in *. subst r.
  split; [reflexivity|]. cbn [snd]. rewrite requests_app, Hquiet. reflexivity.
Qed.

(** On a miss the Builder asks the network for the stock list. *)
Lemma buildSymbolToExchangeMap_miss (apiKey : string) (w : World) :
  assertApiKey apiKey "buildSymbolToExchangeMap" = Return tt →
  fst (tryLoadCache w) = Return None →
  1 ≤ requests (snd (buildSymbolToExchangeMap apiKey w)).
Proof.
  intros Hkey Hmiss. unfold buildSymbolToExchangeMap. rewrite Hkey.
  destruct (tryLoadCache w) as [r t]. cbn [fst] in Hmiss. subst r.
  unfold buildFromNetwork.
  pose proof (fetchJson_retry_policy (stockListUrl apiKey) (network w)) as [[Hn _] _].
  destruct (fetchJson (stockListUrl apiKey) (network w)) as [r t'].
  cbn [snd] in Hn.
  assert (Hle : ∀ t'', 1 ≤ requests (t ++ Console LogCacheMiss :: t' ++ t'')).
  { intros t''. rewrite requests_app.
    change (requests (Console LogCacheMiss :: t' ++ t'')) with (requests (t' ++ t'')).
    rewrite requests_app. lia. }
  assert (Hle0 : 1 ≤ requests (t ++ Console LogCacheMiss :: t')).
  { specialize (Hle []). now rewrite app_nil_r in Hle. }
  destruct r as [[| | | |data|]|e]; cbn [snd]; try exact Hle0.
  destruct data as [|item rest]; [exact Hle0|].
  destruct (stockLoop (item :: rest) ∅) as [map|e]; [|exact Hle0].
  destruct (Nat.eqb (size map) 0); [exact Hle0|]. cbn [snd]. apply Hle.
Qed.

(** A cache built one hour ago is served without a request; a cache built
    eight days ago is rebuilt from the network. *)
Lemma buildSymbolToExchangeMap_ttl_examples (net : Network) :
  let fresh := cachedAt (Num.ofZ (someNow - oneHour)) (Num.ofZ someNow) net in
  let old := cachedAt (Num.ofZ (someNow - eightDays)) (Num.ofZ someNow) net in
  (fst (buildSymbolToExchangeMap "demo" fresh) = Return {[ "AAPL" := "NASDAQ" ]}
   ∧ requests (snd (buildSymbolToExchangeMap "demo" fresh)) = 0)
  ∧ fst (tryLoadCache old) = Return None
  ∧ 1 ≤ requests (snd (buildSymbolToExchangeMap "demo" old)).
Proof.
  intros fresh old. split; [|split].
  - apply (buildSymbolToExchangeMap_hit _ _ _ (Num.ofZ (someNow - oneHour)));
      [reflexivity|]. subst fresh. vm_compute. reflexivity.
  - subst old. vm_compute. reflexivity.
  - apply buildSymbolToExchangeMap_miss; [reflexivity|]. subst old. vm_compute. reflexivity.
Qed.

(** C6 at the input on which the code departs from it: a cache file that
    holds the JSON text [null] is read and parsed, its payload has no
    [builtAt] that is a number, and [load] does not return a miss: reading
    [payload.builtAt] throws a [TypeError], which the Builder does not catch;
    the Builder fails without sending any request. *)
Theorem tryLoadCache_null_payload_throws
  (now nowAtWrite : number) (net : Network) (err : option string) (apiKey : string) :
  let w := nullCache now nowAtWrite net err in
  cacheFile w = Text (Some JNull)
  ∧ validated JNull = None
  ∧ (∃ msg, fst (tryLoadCache w) = Throw (TypeError msg))
  ∧ fst (tryLoadCache w) ≠ Return None
  ∧ (∃ e, fst (buildSymbolToExchangeMap apiKey w) = Throw e)
  ∧ requests (snd (buildSymbolToExchangeMap apiKey w)) = 0.
Proof.
  intros w. split; [reflexivity|]. split; [reflexivity|].
  split; [eexists; reflexivity|]. split; [discriminate|].
  unfold buildSymbolToExchangeMap.
  destruct (assertApiKey apiKey "buildSymbolToExchangeMap") as [[]|e].
  - split; [eexists; reflexivity|reflexivity].
  - split; [eexists; reflexivity|reflexivity].
Qed.

End CacheFacts.

(** ** The fiscal period *)

Import TranscriptProvider.

Lemma eqb_number (a b : number) : Num.eqb a b = true → a = b.
Proof.
  destruct a as [s| s| |s m e], b as [s'| s'| |s' m' e']; simpl; try discriminate.
  - intros Hs. apply Bool.eqb_prop in Hs. now subst.
  - intros Hs. apply Bool.eqb_prop in Hs. now subst.
  - reflexivity.
  - intros Hall. apply andb_true_iff in Hall as [Hall He].
    apply andb_true_iff in Hall as [Hs Hm].
    apply Bool.eqb_prop in Hs. apply Pos.eqb_eq in Hm. apply Z.eqb_eq in He.
    now subst.
Qed.

Lemma range_spec (n : nat) (from y : N) :
  (from ≤ y < from + N.of_nat n)%N → In y (range n from).
Proof.
  revert from. induction n as [|n IH]; intros from Hy; [lia|].
  destruct (N.eq_dec from y) as [->|Hne]; [now left|].
  right. apply IH. lia.
Qed.

Lemma years_checked : forallb yearChecked (range (N.to_nat 10000) 0) = true.
Proof. vm_compute. reflexivity. Qed.

Lemma months_checked : forallb monthChecked (range (N.to_nat 100) 0) = true.
Proof. vm_compute. reflexivity. Qed.

Lemma year_digits (Y : N) :
  (Y ≤ 9999)%N →
  parseInt10 (Some (pad4 Y)) = Num.ofZ (Z.of_N Y)
  ∧ Num.isNaN (Num.ofZ (Z.of_N Y)) = false
  ∧ Num.sub (Num.ofZ (Z.of_N Y)) (Num.ofZ 1) = Num.ofZ (Z.of_N Y - 1).
Proof.
  intros HY. pose proof years_checked as Hall.
  rewrite forallb_forall in Hall.
  assert (Hin : In Y (range (N.to_nat 10000) 0)) by (apply range_spec; lia).
  apply Hall in Hin. unfold yearChecked in Hin.
  apply andb_true_iff in Hin as [Hin Hsub].
  apply andb_true_iff in Hin as [Hread Hnan].
  split; [now apply eqb_number|]. split; [|now apply eqb_number].
  now apply negb_true_iff in Hnan.
Qed.

Lemma month_digits (M : N) :
  (M ≤ 99)%N →
  parseInt10 (Some (pad2 M)) = Num.ofZ (Z.of_N M)
  ∧ Num.isNaN (Num.ofZ (Z.of_N M)) = false
  ∧ Num.le (Num.ofZ (Z.of_N M)) (Num.ofZ 3) = (Z.of_N M <=? 3)%Z
  ∧ Num.le (Num.ofZ (Z.of_N M)) (Num.ofZ 6) = (Z.of_N M <=? 6)%Z
  ∧ Num.le (Num.ofZ (Z.of_N M)) (Num.ofZ 9) = (Z.of_N M <=? 9)%Z.
Proof.
  intros HM. pose proof months_checked as Hall.
  rewrite forallb_forall in Hall.
  assert (Hin : In M (range (N.to_nat 100) 0)) by (apply range_spec; lia).
  apply Hall in Hin. unfold monthChecked in Hin.
  apply andb_true_iff in Hin as [Hin H9]. apply andb_true_iff in Hin as [Hin H6].
  apply andb_true_iff in Hin as [Hin H3]. apply andb_true_iff in Hin as [Hread Hnan].
  split; [now apply eqb_number|]. split; [now apply negb_true_iff in Hnan|].
  repeat split; now apply Bool.eqb_prop.
Qed.

Lemma digit_not_dash (n : N) : Ascii.eqb (digit n) "-" = false.
Proof.
  unfold digit. pose proof (N.mod_upper_bound n 10 ltac:(discriminate)) as Hlt.
  remember (n mod 10)%N as r eqn:Hr. clear Hr.
  assert (Hcases : (r = 0 ∨ r = 1 ∨ r = 2 ∨ r = 3 ∨ r = 4 ∨ r = 5 ∨ r = 6 ∨ r = 7
                    ∨ r = 8 ∨ r = 9)%N) by lia.
  repeat destruct Hcases as [->|Hcases]; try reflexivity. now subst.
Qed.

(** The parts of a date [YYYY-MM-...]. *)
Lemma split_isoDate (Y M : N) (day : string) :
  Str.split "-" (isoDate Y M day) = pad4 Y :: pad2 M :: Str.split "-" day.
Proof.
  unfold isoDate, pad4, pad2. push_append. cbn [Str.split].
  rewrite !digit_not_dash. reflexivity.
Qed.

Lemma dateToFiscalYearQuarter_isoDate (Y M : N) (day : string) :
  (Y ≤ 9999)%N → (M ≤ 99)%N →
  dateToFiscalYearQuarter (isoDate Y M day)
  = Return (fiscalPeriodOf (Z.of_N Y) (Z.of_N M)).
Proof.
  intros HY HM.
  destruct (year_digits Y HY) as (Hyear & Hynan & Hprev).
  destruct (month_digits M HM) as (Hmonth & Hmnan & H3 & H6 & H9).
  unfold dateToFiscalYearQuarter. rewrite split_isoDate.
  cbn [lookup list_lookup]. rewrite Hyear, Hmonth, Hynan, Hmnan, H3, H6, H9, Hprev.
  cbn [orb]. unfold fiscalPeriodOf.
  destruct (Z.of_N M <=? 3)%Z; [reflexivity|].
  destruct (Z.of_N M <=? 6)%Z; [reflexivity|].
  destruct (Z.of_N M <=? 9)%Z; reflexivity.
Qed.

(** C5. For a call date [YYYY-MM-...] of the year [Y] and the month [M],
    the fiscal period both providers use is the quarter 4 of the year
    [Y - 1] when [M] is 1 to 3, and the quarters 1, 2 and 3 of the year [Y]
    when [M] is 4 to 6, 7 to 9 and 10 to 12; "2026-02-25" gives the year 2025
    and the quarter 4. *)
Theorem dateToFiscalYearQuarter_of_iso_date (Y M : N) (day : string) :
  (Y ≤ 9999)%N → (1 ≤ M ≤ 12)%N →
  let period := dateToFiscalYearQuarter (isoDate Y M day) in
  let Y' := Z.of_N Y in
  ((1 ≤ M ≤ 3)%N → period = Return {| year := Num.ofZ (Y' - 1); quarter := Num.ofZ 4 |})
  ∧ ((4 ≤ M ≤ 6)%N → period = Return {| year := Num.ofZ Y'; quarter := Num.ofZ 1 |})
  ∧ ((7 ≤ M ≤ 9)%N → period = Return {| year := Num.ofZ Y'; quarter := Num.ofZ 2 |})
  ∧ ((10 ≤ M ≤ 12)%N → period = Return {| year := Num.ofZ Y'; quarter := Num.ofZ 3 |})
  ∧ dateToFiscalYearQuarter "2026-02-25"
    = Return {| year := Num.ofZ 2025; quarter := Num.ofZ 4 |}.
Proof.
  intros HY HM period Y'. subst period Y'.
  rewrite dateToFiscalYearQuarter_isoDate by lia.
  unfold fiscalPeriodOf.
  split; [|split; [|split; [|split]]].
  - intros Hq. now replace (Z.of_N M <=? 3)%Z with true by lia.
  - intros Hq. replace (Z.of_N M <=? 3)%Z with false by lia.
    now replace (Z.of_N M <=? 6)%Z with true by lia.
  - intros Hq. replace (Z.of_N M <=? 3)%Z with false by lia.
    replace (Z.of_N M <=? 6)%Z with false by lia.
    now replace (Z.of_N M <=? 9)%Z with true by lia.
  - intros Hq. replace (Z.of_N M <=? 3)%Z with false by lia.
    replace (Z.of_N M <=? 6)%Z with false by lia.
    now replace (Z.of_N M <=? 9)%Z with false by lia.
  - change "2026-02-25"%string with (isoDate 2026 2 "25").
    now rewrite dateToFiscalYearQuarter_isoDate by lia.
Qed.


(** ** The transcript providers *)

Section ProviderFacts.
Context `{Host}.

Lemma append_nonempty_r (a b : string) : b ≠ "" → (a ++ b)%string ≠ "".
Proof. destruct a, b; intros Hb; try discriminate. contradiction. Qed.

Lemma join_nonempty (sep line : string) (lines : list string) :
  line ≠ "" → Str.join sep (line :: lines) ≠ "".
Proof.
  intros Hne. cbn [Str.join]. destruct lines; [exact Hne|].
  destruct line; [contradiction|discriminate].
Qed.



Lemma truthy_object_not_null (raw : JSON) :
  falsy (Some raw) || negb (typeofObject (Some raw)) = false → raw ≠ JNull.
Proof. intros Hraw ->. discriminate Hraw. Qed.


End ProviderFacts.


(** ** Concrete cases *)

(** The filter on three events, with and without [keepUnknown], and the line
    it logs. *)
Example filterNyseNasdaq_on_three_events (H : Host) :
  filterNyseNasdaq someEvents someMap {| keepUnknown := None |} = [event "nvda"]
  ∧ filterNyseNasdaq someEvents someMap {| keepUnknown := Some true |}
    = [event "nvda"; event "ZZZZ"]
  ∧ snd (filterNyseNasdaqLogged someEvents someMap {| keepUnknown := None |})
    = [Console (LogFilter 1 0 2 3 false)].
Proof. repeat split; vm_compute; reflexivity. Qed.

(** A transport failure, then a 429 with [Retry-After: 2], then a success:
    three requests, a back-off of 500 ms times the jitter 0.8, then of two
    seconds. *)
Example fetchJson_third_attempt :
  fetchJson "https://example.test/x?apikey=k" (flaky (JArr []))
  = (Return (JArr []),
     [Fetch "https://example.test/x?apikey=k" []; Sleep (Num.ofZ 400);
      Fetch "https://example.test/x?apikey=k" []; Sleep (Num.ofZ 2000);
      Fetch "https://example.test/x?apikey=k" []]).
Proof. vm_compute. reflexivity. Qed.

(** The Calendar Fetcher on a payload of three records: one event, with its
    symbol trimmed, and two warnings. *)
Example fetchFmpEarningsCalendar_on_three_records (H : Host) :
  ∃ ev t,
    fetchFmpEarningsCalendar "2026-02-24" "2026-02-28" "k"
      (always (response 200 "OK" (Some calendarPayload)))
    = (Return [ev], t)
    ∧ FmpEarnings.symbol ev = "NVDA" ∧ FmpEarnings.reportDate ev = "2026-02-25"
    ∧ FmpEarnings.epsActual ev = Some (Num.ofZ 1)
    ∧ FmpEarnings.epsEstimated ev = None
    ∧ length (warned t) = 2.
Proof.
  eexists. eexists. split; [vm_compute; reflexivity|].
  repeat split; vm_compute; reflexivity.
Qed.

(** The numbers the providers print in their URLs and labels. *)
Example numberToString_examples :
  numberToString (Num.ofZ 2025) = "2025"
  ∧ numberToString (Num.ofZ (-1)) = "-1"
  ∧ numberToString (roundDecimal false 15 (-1)) = "1.5"
  ∧ numberToString (roundDecimal false 1 21) = "1e+21"
  ∧ numberToString (roundDecimal false 1 (-7)) = "1e-7"
  ∧ StringToNumber " 12.5 " = roundDecimal false 125 (-1)
  ∧ StringToNumber "abc" = Num.NaN.
Proof. repeat split; vm_compute; reflexivity. Qed.



(** C5 on the call date "2026-02-25". *)
Lemma dateToFiscalYearQuarter_of_2026_02_25 :
  ((2026 ≤ 9999)%N ∧ (1 ≤ 2 ≤ 12)%N)
  ∧ dateToFiscalYearQuarter (isoDate 2026 2 "25")
    = Return {| year := Num.ofZ 2025; quarter := Num.ofZ 4 |}.
Proof.
  split; [lia|].
  destruct (dateToFiscalYearQuarter_of_iso_date 2026 2 "25") as [Hq4 _]; [lia|lia|].
  apply Hq4. lia.
Defined.


(** * Further properties *)

Import Terms.

(** ** Strings *)

Lemma dropPrefix_spec (w s after : string) :
  Str.dropPrefix w s = Some after ↔ s = (w ++ after)%string.
Proof.
  revert s. induction w as [|a w IH]; intros s.
  - cbn. split; [now intros [= ->]|now intros ->].
  - destruct s as [|b s]; cbn.
    + split; [discriminate|].
      change (String a w ++ after)%string with (String a (w ++ after)). discriminate.
    + change (String a w ++ after)%string with (String a (w ++ after)).
      destruct (Ascii.eqb_spec a b) as [->|Hne].
      * rewrite IH. split; [now intros ->|now intros [= ->]].
      * split; [discriminate|]. intros [= <- _]. now elim Hne.
Qed.

Lemma length_append (a b : string) :
  String.length (a ++ b) = String.length a + String.length b.
Proof.
  induction a as [|x a IH]; [reflexivity|].
  change (String x a ++ b)%string with (String x (a ++ b)). cbn. now rewrite IH.
Qed.

Lemma stripOne_spec (spaces : list string) (s after : string) :
  Str.stripOne spaces s = Some after → ∃ w, In w spaces ∧ s = (w ++ after)%string.
Proof.
  induction spaces as [|w spaces IH]; cbn; [discriminate|].
  destruct (Str.dropPrefix w s) as [after'|] eqn:Hw.
  - intros [= ->]. exists w. split; [now left|]. now apply dropPrefix_spec.
  - intros Hs. destruct (IH Hs) as (w' & Hin & ->). exists w'. split; [now right|reflexivity].
Qed.

(** The encodings of white space are a prefix code: the character a string
    starts with is stripped as a whole. *)
Lemma stripOne_whiteSpace (w x : string) :
  In w Str.whiteSpace → Str.stripOne Str.whiteSpace (w ++ x) = Some x.
Proof.
  unfold Str.whiteSpace. cbn [List.map Str.ofCodes In].
  intros Hin. repeat (destruct Hin as [<-|Hin]; [reflexivity|]). destruct Hin.
Qed.

Lemma whiteSpace_nonempty (w : string) : In w Str.whiteSpace → 1 ≤ String.length w.
Proof.
  unfold Str.whiteSpace. cbn [List.map Str.ofCodes In].
  intros Hin. repeat (destruct Hin as [<-|Hin]; [cbn; lia|]). destruct Hin.
Qed.

Lemma stripOne_shorter (s after : string) :
  Str.stripOne Str.whiteSpace s = Some after → String.length after < String.length s.
Proof.
  intros Hs. destruct (stripOne_spec _ _ _ Hs) as (w & Hin & ->).
  rewrite length_append. pose proof (whiteSpace_nonempty w Hin). lia.
Qed.

Lemma trimStartN_fuel (fuel fuel' : nat) (s : string) :
  String.length s ≤ fuel → String.length s ≤ fuel' →
  Str.trimStartN fuel s = Str.trimStartN fuel' s.
Proof.
  revert fuel' s. induction fuel as [|fuel IH]; intros fuel' s Hlen Hlen'.
  - destruct s; [|cbn in Hlen; lia]. now destruct fuel'.
  - destruct fuel' as [|fuel'].
    + destruct s; [reflexivity|cbn in Hlen'; lia].
    + cbn [Str.trimStartN].
      destruct (Str.stripOne Str.whiteSpace s) as [after|] eqn:Hs; [|reflexivity].
      pose proof (stripOne_shorter _ _ Hs) as Hshort. apply IH; lia.
Qed.

Lemma trimStart_strip (s after : string) :
  Str.stripOne Str.whiteSpace s = Some after → Str.trimStart s = Str.trimStart after.
Proof.
  intros Hs. pose proof (stripOne_shorter _ _ Hs) as Hshort.
  unfold Str.trimStart. destruct (String.length s) as [|n] eqn:Hn; [lia|].
  cbn [Str.trimStartN]. rewrite Hs. apply trimStartN_fuel; lia.
Qed.

Lemma trimStart_keep (s : string) :
  Str.stripOne Str.whiteSpace s = None → Str.trimStart s = s.
Proof.
  intros Hs. unfold Str.trimStart. destruct (String.length s); [reflexivity|].
  cbn [Str.trimStartN]. now rewrite Hs.
Qed.

(** What [trimStart] returns does not start with white space. *)
Lemma trimStart_stripped (s : string) :
  Str.stripOne Str.whiteSpace (Str.trimStart s) = None.
Proof.
  remember (String.length s) as n eqn:Hn. revert s Hn.
  induction n as [n IH] using lt_wf_ind. intros s ->.
  destruct (Str.stripOne Str.whiteSpace s) as [after|] eqn:Hs.
  - rewrite (trimStart_strip _ _ Hs).
    apply (IH (String.length after)); [now apply stripOne_shorter|reflexivity].
  - now rewrite (trimStart_keep _ Hs).
Qed.

Lemma trimStart_idempotent (s : string) : Str.trimStart (Str.trimStart s) = Str.trimStart s.
Proof. apply trimStart_keep, trimStart_stripped. Qed.

(** A string made of white space followed by a string made of white space
    is made of white space. *)
Lemma trimStart_blank_app (u v : string) :
  Str.trimStart u = "" → Str.trimStart v = "" → Str.trimStart (u ++ v) = "".
Proof.
  remember (String.length u) as n eqn:Hn. revert u Hn.
  induction n as [n IH] using lt_wf_ind. intros u -> Hu Hv.
  destruct (Str.stripOne Str.whiteSpace u) as [after|] eqn:Hs.
  - destruct (stripOne_spec _ _ _ Hs) as (w & Hin & ->).
    rewrite append_assoc.
    rewrite (trimStart_strip _ _ (stripOne_whiteSpace w (after ++ v) Hin)).
    apply (IH (String.length after)); [now apply stripOne_shorter|reflexivity| |exact Hv].
    now rewrite <- (trimStart_strip _ _ Hs).
  - rewrite (trimStart_keep _ Hs) in Hu. now subst u.
Qed.

(** What [trimEnd] removes is made of white space. *)
Lemma trimEnd_spec (t : string) :
  ∃ v, t = (Str.trimEnd t ++ v)%string ∧ Str.trimStart v = "".
Proof.
  induction t as [|c r (v & Hr & Hv)]; [now exists ""|].
  cbn [Str.trimEnd]. destruct (Str.isEmpty (Str.trimStart (String c r))) eqn:Hb.
  - exists (String c r). split; [reflexivity|]. now apply isEmpty_spec.
  - exists v. split; [|exact Hv].
    change (String c (Str.trimEnd r) ++ v)%string with (String c (Str.trimEnd r ++ v)).
    now rewrite <- Hr.
Qed.

Lemma trimEnd_idempotent (t : string) : Str.trimEnd (Str.trimEnd t) = Str.trimEnd t.
Proof.
  induction t as [|c r IH]; [reflexivity|].
  cbn [Str.trimEnd]. destruct (Str.isEmpty (Str.trimStart (String c r))) eqn:Hb; [reflexivity|].
  cbn [Str.trimEnd]. rewrite IH.
  destruct (Str.isEmpty (Str.trimStart (String c (Str.trimEnd r)))) eqn:Hb'; [|reflexivity].
  apply isEmpty_spec in Hb'. destruct (trimEnd_spec r) as (v & Hr & Hv).
  pose proof (trimStart_blank_app _ _ Hb' Hv) as Hall.
  change (String c (Str.trimEnd r) ++ v)%string with (String c (Str.trimEnd r ++ v)) in Hall.
  rewrite <- Hr in Hall. rewrite Hall in Hb. discriminate.
Qed.

Lemma stripOne_prefix (u v : string) :
  Str.stripOne Str.whiteSpace (u ++ v) = None → Str.stripOne Str.whiteSpace u = None.
Proof.
  intros Huv. destruct (Str.stripOne Str.whiteSpace u) as [after|] eqn:Hu; [|reflexivity].
  destruct (stripOne_spec _ _ _ Hu) as (w & Hin & ->).
  rewrite append_assoc, (stripOne_whiteSpace w _ Hin) in Huv. discriminate.
Qed.

(** [trim] removes all the white space at both ends: trimming again changes
    nothing. *)
Lemma trim_idempotent (s : string) : trim (trim s) = trim s.
Proof.
  unfold trim, Str.trim.
  assert (Hkeep : Str.trimStart (Str.trimEnd (Str.trimStart s)) = Str.trimEnd (Str.trimStart s)).
  { apply trimStart_keep. destruct (trimEnd_spec (Str.trimStart s)) as (v & Ht & _).
    apply (stripOne_prefix _ v). rewrite <- Ht. apply trimStart_stripped. }
  rewrite Hkeep. apply trimEnd_idempotent.
Qed.

Lemma trim_nonempty (s : string) : trim s ≠ "" → trim (trim s) ≠ "".
Proof. now rewrite trim_idempotent. Qed.

(** ** run.ts: the arguments *)

Lemma isDigit_spec (c : ascii) :
  Str.isDigit c = true ↔ (48 ≤ Str.code c ≤ 57)%N.
Proof.
  unfold Str.isDigit. cbn zeta. rewrite andb_true_iff, !N.leb_le. reflexivity.
Qed.

(** The strings [ISO_RE] accepts. *)
Lemma ISO_RE_shape (s : string) :
  Run.ISO_RE s = true ↔
  ∃ y1 y2 y3 y4 m1 m2 d1 d2,
    s = String y1 (String y2 (String y3 (String y4 (String "-"
          (String m1 (String m2 (String "-" (String d1 (String d2 "")))))))))
    ∧ Forall (fun c => Str.isDigit c = true) [y1; y2; y3; y4; m1; m2; d1; d2].
Proof.
  split.
  - intros Hs.
    destruct s as [|y1 [|y2 [|y3 [|y4 [|p [|m1 [|m2 [|q [|d1 [|d2 [|? ?]]]]]]]]]]];
      try discriminate Hs.
    cbn [Run.ISO_RE] in Hs. rewrite !andb_true_iff in Hs.
    destruct Hs as (((((((((H1 & H2) & H3) & H4) & Hp) & H5) & H6) & Hq) & H7) & H8).
    apply Ascii.eqb_eq in Hp, Hq. subst p q.
    exists y1, y2, y3, y4, m1, m2, d1, d2. split; [reflexivity|].
    repeat constructor; assumption.
  - intros (y1 & y2 & y3 & y4 & m1 & m2 & d1 & d2 & -> & Hd).
    repeat match goal with H : Forall _ (_ :: _) |- _ => inversion_clear H end.
    cbn [Run.ISO_RE].
    repeat match goal with H : Str.isDigit _ = true |- _ => rewrite H; clear H end.
    reflexivity.
Qed.

Lemma ISO_RE_usable (s : string) :
  Run.ISO_RE s = true → Str.isEmpty s || Run.startsWithDash s = false.
Proof.
  intros Hs. apply ISO_RE_shape in Hs.
  destruct Hs as (y1 & y2 & y3 & y4 & m1 & m2 & d1 & d2 & -> & Hd).
  inversion_clear Hd as [|? ? H1 _]. cbn [Str.isEmpty orb Run.startsWithDash].
  destruct (Ascii.eqb_spec y1 "-") as [->|Hne]; [discriminate H1|].
  destruct y1 as [[] [] [] [] [] [] [] []]; try reflexivity. now elim Hne.
Qed.

Ltac compare_digit x y :=
  destruct (N.lt_trichotomy (Str.code x) (Str.code y)) as [?Hlt|[?Heq|?Hgt]];
  [ rewrite (proj2 (N.ltb_ge (Str.code y) (Str.code x))) by lia;
    rewrite (proj2 (N.ltb_lt (Str.code x) (Str.code y))) by lia;
    cbv iota; symmetry; apply negb_false_iff, Z.leb_le; lia
  | rewrite (proj2 (N.ltb_ge (Str.code y) (Str.code x))) by lia;
    rewrite (proj2 (N.ltb_ge (Str.code x) (Str.code y))) by lia;
    cbv iota
  | rewrite (proj2 (N.ltb_lt (Str.code y) (Str.code x))) by lia;
    cbv iota; symmetry; apply negb_true_iff, Z.leb_gt; lia ].

(** Two dates that [ISO_RE] accepts compare as strings the way they compare
    as dates. *)
Lemma gtb_dayNumber (a b : string) :
  Run.ISO_RE a = true → Run.ISO_RE b = true →
  Run.gtb a b = negb (dayNumber a <=? dayNumber b)%Z.
Proof.
  intros Ha Hb. apply ISO_RE_shape in Ha, Hb.
  destruct Ha as (a1 & a2 & a3 & a4 & a5 & a6 & a7 & a8 & -> & Ha).
  destruct Hb as (b1 & b2 & b3 & b4 & b5 & b6 & b7 & b8 & -> & Hb).
  repeat match goal with H : Forall _ (_ :: _) |- _ => inversion_clear H end.
  unfold dayNumber. cbn [digitsIn].
  change (Str.isDigit "-") with false. cbv iota.
  repeat match goal with H : Str.isDigit _ = true |- _ =>
    rewrite H; apply isDigit_spec in H end.
  cbn [digitsToZ Run.gtb].
  change (Str.code "-" <? Str.code "-")%N with false. cbv iota.
  rewrite !N2Z.inj_sub by lia.
  compare_digit a1 b1. compare_digit a2 b2. compare_digit a3 b3. compare_digit a4 b4.
  compare_digit a5 b5. compare_digit a6 b6. compare_digit a7 b7. compare_digit a8 b8.
  symmetry. apply negb_false_iff, Z.leb_le. lia.
Qed.

Lemma parseFlags_app (l1 l2 : list string) (from to f t : string) :
  Run.parseFlags l1 from to = Return (f, t) →
  Run.parseFlags (l1 ++ l2) from to = Run.parseFlags l2 f t.
Proof.
  remember (length l1) as n eqn:Hn. revert l1 from to Hn.
  induction n as [n IH] using lt_wf_ind. intros l1 from to -> Hl1.
  destruct l1 as [|flag [|next rest]].
  - cbn in Hl1. now injection Hl1 as -> ->.
  - cbn in Hl1.
    destruct (String.eqb flag "--from" || String.eqb flag "-f"); [discriminate|].
    destruct (String.eqb flag "--to" || String.eqb flag "-t"); discriminate.
  - cbn [Run.parseFlags] in Hl1. cbn [app Run.parseFlags].
    destruct (String.eqb flag "--from" || String.eqb flag "-f").
    + destruct (Str.isEmpty next || Run.startsWithDash next); [discriminate|].
      apply (IH (length rest)); [cbn; lia|reflexivity|exact Hl1].
    + destruct (String.eqb flag "--to" || String.eqb flag "-t"); [|discriminate].
      destruct (Str.isEmpty next || Run.startsWithDash next); [discriminate|].
      apply (IH (length rest)); [cbn; lia|reflexivity|exact Hl1].
Qed.

Lemma parseFlags_values (flags : list string) (from to f t : string) :
  Run.parseFlags flags from to = Return (f, t) →
  (f = from ∨ In f flags) ∧ (t = to ∨ In t flags).
Proof.
  remember (length flags) as n eqn:Hn. revert flags from to Hn.
  induction n as [n IH] using lt_wf_ind. intros flags from to -> Hflags.
  destruct flags as [|flag [|next rest]].
  - cbn in Hflags. injection Hflags as -> ->. now split; left.
  - cbn in Hflags.
    destruct (String.eqb flag "--from" || String.eqb flag "-f"); [discriminate|].
    destruct (String.eqb flag "--to" || String.eqb flag "-t"); discriminate.
  - cbn [Run.parseFlags] in Hflags.
    destruct (String.eqb flag "--from" || String.eqb flag "-f").
    + destruct (Str.isEmpty next || Run.startsWithDash next); [discriminate|].
      destruct (IH (length rest) ltac:(cbn; lia) rest next to eq_refl Hflags) as [Hf Ht].
      split.
      * destruct Hf as [->|Hf]; right; [right; now left|now do 2 right].
      * destruct Ht as [->|Ht]; [now left|right; now do 2 right].
    + destruct (String.eqb flag "--to" || String.eqb flag "-t"); [|discriminate].
      destruct (Str.isEmpty next || Run.startsWithDash next); [discriminate|].
      destruct (IH (length rest) ltac:(cbn; lia) rest from next eq_refl Hflags) as [Hf Ht].
      split.
      * destruct Hf as [->|Hf]; [now left|right; now do 2 right].
      * destruct Ht as [->|Ht]; right; [right; now left|now do 2 right].
Qed.

(** What [parseArgs] does once the flags are read. *)
Lemma parseArgs_checks (argv : list string) (f t : string) :
  Run.parseFlags (skipn 2 argv) Run.DEFAULT_FROM Run.DEFAULT_TO = Return (f, t) →
  Run.ISO_RE f = true → Run.ISO_RE t = true → Run.gtb f t = false →
  Run.parseArgs argv = Return {| Run.from := f; Run.to := t |}.
Proof.
  intros Hflags Hf Ht Horder. unfold Run.parseArgs. rewrite Hflags.
  cbn [mbind completion_bind]. now rewrite Hf, Ht, Horder.
Qed.

(** X1. When [parseArgs] returns, the two dates have the form
    [YYYY-MM-DD], the first one is not later than the second one as a date,
    and each of them is the default or one of the arguments given after the
    script. *)
Theorem parseArgs_returns_ordered_dates (argv : list string) (a : Run.CliArgs) :
  Run.parseArgs argv = Return a →
  Run.ISO_RE (Run.from a) = true ∧ Run.ISO_RE (Run.to a) = true
  ∧ (dayNumber (Run.from a) ≤ dayNumber (Run.to a))%Z
  ∧ (Run.from a = Run.DEFAULT_FROM ∨ In (Run.from a) (skipn 2 argv))
  ∧ (Run.to a = Run.DEFAULT_TO ∨ In (Run.to a) (skipn 2 argv)).
Proof.
  unfold Run.parseArgs.
  destruct (Run.parseFlags (skipn 2 argv) Run.DEFAULT_FROM Run.DEFAULT_TO)
    as [[f t]|e] eqn:Hflags; [|discriminate].
  cbn [mbind completion_bind].
  destruct (Run.ISO_RE f) eqn:Hf; [|discriminate].
  destruct (Run.ISO_RE t) eqn:Ht; [|discriminate].
  destruct (Run.gtb f t) eqn:Horder; [discriminate|].
  cbn [negb]. intros [= <-]. cbn [Run.from Run.to].
  rewrite (gtb_dayNumber f t Hf Ht) in Horder.
  apply negb_false_iff, Z.leb_le in Horder.
  destruct (parseFlags_values _ _ _ _ _ Hflags) as [Hfrom Hto].
  repeat split; assumption.
Qed.

(** X2. The flags are read from left to right: once a first part of them
    has been read, the rest is read as if the values read so far were the
    defaults.  So a later [--from] or [--to] overrides an earlier one, and a
    value that is overridden is never checked against the pattern of a
    date. *)
Theorem parseFlags_reads_left_to_right (l1 l2 : list string) (from to f t : string) :
  Run.parseFlags l1 from to = Return (f, t) →
  Run.parseFlags (l1 ++ l2) from to = Run.parseFlags l2 f t
  ∧ (∀ x, Str.isEmpty x || Run.startsWithDash x = false →
          Run.parseFlags (l1 ++ ["--from"; x]) from to = Return (x, t)
          ∧ Run.parseFlags (l1 ++ ["-f"; x]) from to = Return (x, t)
          ∧ Run.parseFlags (l1 ++ ["--to"; x]) from to = Return (f, x)
          ∧ Run.parseFlags (l1 ++ ["-t"; x]) from to = Return (f, x)).
Proof.
  intros Hl1. split; [now apply parseFlags_app|].
  intros x Hx. rewrite !(parseFlags_app l1 _ _ _ _ _ Hl1).
  cbn [Run.parseFlags]. rewrite Hx. repeat split; reflexivity.
Qed.

(** X3. A flag that is not [--from], [-f], [--to] or [-t], a date given
    without a flag for one, is reported as unknown; a flag that is the last
    argument, or whose value is empty or starts with a dash, is reported as
    lacking its value.  Both are reported before any date is checked. *)
Theorem parseArgs_flag_errors (node script : string) (l1 rest : list string)
  (f t flag : string) :
  Run.parseFlags l1 Run.DEFAULT_FROM Run.DEFAULT_TO = Return (f, t) →
  (flag ≠ "--from" → flag ≠ "-f" → flag ≠ "--to" → flag ≠ "-t" →
   Run.parseArgs (node :: script :: l1 ++ flag :: rest) = Throw (Run.unknownFlag flag))
  ∧ (flag = "--from" ∨ flag = "-f" ∨ flag = "--to" ∨ flag = "-t" →
     match rest with
     | [] => True
     | next :: _ => next = "" ∨ Run.startsWithDash next = true
     end →
     Run.parseArgs (node :: script :: l1 ++ flag :: rest) = Throw (Run.requiresValue flag)).
Proof.
  intros Hl1. unfold Run.parseArgs.
  change (skipn 2 (node :: script :: l1 ++ flag :: rest)) with (l1 ++ flag :: rest)%list.
  rewrite (parseFlags_app l1 _ _ _ _ _ Hl1). split.
  - intros H1 H2 H3 H4. cbn [Run.parseFlags].
    apply String.eqb_neq in H1, H2, H3, H4. now rewrite H1, H2, H3, H4.
  - intros Hflag Hrest.
    assert (Hnext : match rest with
                    | [] => True
                    | next :: _ => Str.isEmpty next || Run.startsWithDash next = true
                    end).
    { destruct rest as [|next rest']; [exact I|].
      destruct Hrest as [-> | ->]; [reflexivity|apply orb_true_r]. }
    destruct Hflag as [->|[->|[-> | ->]]]; cbn [Run.parseFlags String.eqb Ascii.eqb Bool.eqb orb];
      (destruct rest as [|next rest']; [reflexivity|now rewrite Hnext]).
Qed.

Lemma encodeURIComponent_digit (c : ascii) (r : string) :
  Str.isDigit c = true →
  encodeURIComponent (String c r) = String c (encodeURIComponent r).
Proof.
  intros Hc. cbn [encodeURIComponent]. unfold isUnreserved. rewrite Hc.
  now rewrite orb_true_r.
Qed.

Lemma encodeURIComponent_date (s : string) :
  Run.ISO_RE s = true → encodeURIComponent s = s.
Proof.
  intros Hs. apply ISO_RE_shape in Hs.
  destruct Hs as (y1 & y2 & y3 & y4 & m1 & m2 & d1 & d2 & -> & Hd).
  repeat match goal with H : Forall _ (_ :: _) |- _ => inversion_clear H end.
  repeat first [ rewrite encodeURIComponent_digit by assumption
               | change (encodeURIComponent (String "-" ?r))
                   with (String "-" (encodeURIComponent r)) ].
  reflexivity.
Qed.

(** X4. The dates [parseArgs] returns need no escaping: the URL of the
    earnings calendar carries them as they were typed. *)
Theorem parseArgs_dates_in_calendar_url (argv : list string) (a : Run.CliArgs)
  (apiKey : string) :
  Run.parseArgs argv = Return a →
  encodeURIComponent (Run.from a) = Run.from a
  ∧ encodeURIComponent (Run.to a) = Run.to a
  ∧ calendarUrl (Run.from a) (Run.to a) apiKey
    = (FMP_BASE ++ "/earnings-calendar?from=" ++ Run.from a ++ "&to=" ++ Run.to a
       ++ "&apikey=" ++ encodeURIComponent apiKey)%string.
Proof.
  unfold Run.parseArgs.
  destruct (Run.parseFlags (skipn 2 argv) Run.DEFAULT_FROM Run.DEFAULT_TO)
    as [[f t]|e]; [|discriminate].
  cbn [mbind completion_bind].
  destruct (Run.ISO_RE f) eqn:Hf; [|discriminate].
  destruct (Run.ISO_RE t) eqn:Ht; [|discriminate].
  destruct (Run.gtb f t); [discriminate|].
  cbn [negb]. intros [= <-]. cbn [Run.from Run.to].
  unfold calendarUrl.
  rewrite (encodeURIComponent_date f Hf), (encodeURIComponent_date t Ht).
  split; [reflexivity|]. split; reflexivity.
Qed.

(** ** run.ts: the environment *)

(** X5. A key that [requireEnv] returns is the trimmed value of the
    variable; it is not empty and trimming it again changes nothing, so
    [assertApiKey] and the constructors of the two providers accept it. *)
Theorem requireEnv_key_is_accepted (env : gmap string string) (name key context : string) :
  Run.requireEnv env name = Return key →
  (∃ raw, env !! name = Some raw ∧ key = trim raw)
  ∧ key ≠ "" ∧ trim key = key
  ∧ assertApiKey key context = Return tt
  ∧ newNinjasTranscriptProvider key = Return (NinjasTranscriptProvider key)
  ∧ newFmpTranscriptProvider key = Return (FmpTranscriptProvider key).
Proof.
  unfold Run.requireEnv. destruct (env !! name) as [raw|]; [|discriminate].
  destruct (Str.isEmpty (trim raw)) eqn:Hraw; [discriminate|].
  intros [= <-].
  assert (Htrim : trim (trim raw) = trim raw) by apply trim_idempotent.
  split; [now exists raw|]. split.
  { intros Hempty. rewrite Hempty in Hraw. discriminate. }
  split; [exact Htrim|].
  unfold assertApiKey, newNinjasTranscriptProvider, newFmpTranscriptProvider.
  rewrite Htrim, Hraw. repeat split.
Qed.

(** ** run.ts: the run *)

Section RunFacts.
Context `{Host}.

(** A call of a provider performs at most one effect, a request. *)
Lemma fetchTranscript_effects (p : Provider) (symbol callDate : string)
  (reply : FetchOutcome) :
  snd (fetchTranscript p symbol callDate reply) = []
  ∨ ∃ url headers, snd (fetchTranscript p symbol callDate reply) = [Fetch url headers].
Proof.
  destruct p as [apiKey|apiKey]; cbn [fetchTranscript];
    unfold ninjasFetchTranscript, fmpFetchTranscript;
    (destruct (dateToFiscalYearQuarter callDate) as [period|e]; [|now left]);
    right; eexists; eexists;
    (destruct reply as [networkErr|res]; [reflexivity|]);
    (destruct (N.eqb (status res) 404); [reflexivity|]);
    (destruct (negb (ok res)); [reflexivity|]);
    (destruct (json res) as [data|]; [|reflexivity]).
  - destruct (firstRecord data) as [raw|]; [|reflexivity].
    destruct (falsy (Some raw) || negb (typeofObject (Some raw))); reflexivity.
  - destruct (isFmpErrorEnvelope data); [reflexivity|].
    destruct (firstRecord data) as [raw|]; [|reflexivity].
    destruct (falsy (Some raw) || negb (typeofObject (Some raw))); reflexivity.
Qed.

Lemma calls_app (t t' : list Run.RunEffect) : calls (t ++ t') = (calls t ++ calls t')%list.
Proof. unfold calls. apply omap_app. Qed.

Lemma verdicts_app (t t' : list Run.RunEffect) :
  verdicts (t ++ t') = (verdicts t ++ verdicts t')%list.
Proof. unfold verdicts. apply omap_app. Qed.

Lemma calls_Call (t : list effect) : calls (List.map Run.Call t) = t.
Proof.
  induction t as [|e t IH]; [reflexivity|].
  change (e :: calls (List.map Run.Call t) = e :: t). now rewrite IH.
Qed.

Lemma verdicts_Call (t : list effect) : verdicts (List.map Run.Call t) = [].
Proof. induction t as [|e t IH]; [reflexivity|]. exact IH. Qed.

(** One turn of the loop counts its event once, prints one line about it and
    sends at most one request. *)
Lemma transcriptTurn_spec (provider : Provider) (ev : EarningsEvent)
  (reply : FetchOutcome) (n : Run.Tally) :
  let n' := fst (Run.transcriptTurn provider ev reply n) in
  let t := snd (Run.transcriptTurn provider ev reply n) in
  Run.fetched n' + Run.skipped n' + Run.errored n'
  = S (Run.fetched n + Run.skipped n + Run.errored n)
  ∧ length (verdicts t) = 1
  ∧ length (calls t) ≤ 1.
Proof.
  unfold Run.transcriptTurn.
  pose proof (fetchTranscript_effects provider (FmpEarnings.symbol ev)
                (FmpEarnings.reportDate ev) reply) as Heff.
  destruct (fetchTranscript provider (FmpEarnings.symbol ev) (FmpEarnings.reportDate ev) reply)
    as [r t]. cbn [snd] in Heff.
  assert (Hcalls : length t ≤ 1).
  { destruct Heff as [->|(url & headers & ->)]; cbn; lia. }
  destruct r as [transcript|[msg|msg|s d pn]]; cbn [fst snd Run.fetched Run.skipped Run.errored];
    rewrite calls_app, verdicts_app, calls_Call, verdicts_Call, !length_app; cbn; lia.
Qed.

Lemma transcriptLoop_spec (provider : Provider) (events : list EarningsEvent)
  (replies : nat → FetchOutcome) (i : nat) (n : Run.Tally) :
  let n' := fst (Run.transcriptLoop provider events replies i n) in
  let t := snd (Run.transcriptLoop provider events replies i n) in
  Run.fetched n' + Run.skipped n' + Run.errored n'
  = Run.fetched n + Run.skipped n + Run.errored n + length events
  ∧ length (verdicts t) = length events
  ∧ length (calls t) ≤ length events.
Proof.
  revert i n. induction events as [|ev rest IH]; intros i n.
  - cbn. repeat split; lia.
  - cbn [Run.transcriptLoop].
    pose proof (transcriptTurn_spec provider ev (replies i) n) as Hturn.
    destruct (Run.transcriptTurn provider ev (replies i) n) as [n1 t1].
    specialize (IH (S i) n1).
    destruct (Run.transcriptLoop provider rest replies (S i) n1) as [n2 t2].
    cbn [fst snd] in *. rewrite calls_app, verdicts_app, !length_app.
    cbn [length]. lia.
Qed.

Lemma calls_summary (total : nat) (n : Run.Tally) : calls (Run.summary total n) = [].
Proof. reflexivity. Qed.

Lemma verdicts_summary (total : nat) (n : Run.Tally) : verdicts (Run.summary total n) = [].
Proof. reflexivity. Qed.

(** A key that [requireEnv] returns is accepted by the constructor. *)
Lemma requireEnv_constructor (env : gmap string string) (name key : string) :
  Run.requireEnv env name = Return key →
  newNinjasTranscriptProvider key = Return (NinjasTranscriptProvider key).
Proof.
  unfold Run.requireEnv. destruct (env !! name) as [raw|]; [|discriminate].
  destruct (Str.isEmpty (trim raw)) eqn:Hraw; [discriminate|].
  intros [= <-]. unfold newNinjasTranscriptProvider.
  now rewrite trim_idempotent, Hraw.
Qed.

(** X6. A run ends in one of three ways.  It fails, prints the message of
    the failure last and exits with the code 1.  Or the window holds no
    NYSE/NASDAQ event, and it exits with the code 0 without asking for any
    transcript.  Or it prints a summary last: every event was counted once,
    as fetched, skipped or failed, with one line about it and at most one
    request, and the exit code is 1 when a transcript failed and 0
    otherwise. *)
Theorem run_outcomes (p : Run.Process) :
  let code := fst (Run.run p) in
  let t := snd (Run.run p) in
  (code = 1 ∧ ∃ msg t', t = (t' ++ [Run.Print (Run.Fatal msg)])%list)
  ∨ (code = 0 ∧ calls t = [] ∧ ∃ t', t = (t' ++ [Run.Print Run.NoEvents])%list)
  ∨ (∃ n total t',
       t = (t' ++ Run.summary total n)%list
       ∧ 0 < total
       ∧ Run.fetched n + Run.skipped n + Run.errored n = total
       ∧ length (verdicts t) = total
       ∧ length (calls t) ≤ total
       ∧ code = (if Nat.eqb (Run.errored n) 0 then 0 else 1)).
Proof.
  unfold Run.run, Run.main.
  destruct (Run.parseArgs (Run.argv p)) as [args|e]; [|left; split; [reflexivity|eauto]].
  destruct (Run.requireEnv (Run.env p) "FMP_API_KEY") as [fmpKey|e];
    [|left; split; [reflexivity|eauto]].
  destruct (Run.requireEnv (Run.env p) "NINJAS_API_KEY") as [ninjasKey|e] eqn:Hkey;
    [|left; split; [reflexivity|eauto]].
  destruct (fetchUsEarningsCalendar _ _ _ _ _ _ _) as [[[events map]|e] t];
    [|left; split; [reflexivity|eauto]].
  destruct events as [|ev events].
  { right; left. cbn [fst snd]. split; [reflexivity|]. split; [reflexivity|].
    eexists (_ :: _ :: _ :: _ :: _ :: _ :: [_]). reflexivity. }
  rewrite (requireEnv_constructor _ _ _ Hkey).
  pose proof (transcriptLoop_spec (NinjasTranscriptProvider ninjasKey) (ev :: events)
                (Run.transcriptReply p) 0
                {| Run.fetched := 0; Run.skipped := 0; Run.errored := 0 |}) as Hloop.
  destruct (Run.transcriptLoop _ _ _ _ _) as [n t'].
  cbn [fst snd Run.fetched Run.skipped Run.errored] in Hloop.
  destruct Hloop as (Hsum & Hlines & Hcalls).
  right; right. exists n, (length (ev :: events)). eexists.
  cbn [fst snd]. split; [rewrite app_assoc; reflexivity|].
  split; [cbn; lia|]. split; [lia|].
  rewrite !calls_app, !verdicts_app, calls_summary, verdicts_summary, !length_app.
  unfold calls, verdicts in *. cbn [omap list_omap length Nat.add] in *.
  split; [lia|]. split; [lia|].
  destruct (Run.errored n); reflexivity.
Qed.

(** X7. The arguments and the two variables of the environment are checked
    before anything else is done: when one of them is rejected, the run
    prints the message of the error, and nothing else, and exits with the
    code 1; no request is sent and the disk is not read. *)
Theorem run_checks_before_any_effect (p : Run.Process) (e : exn) :
  Run.parseArgs (Run.argv p) = Throw e
  ∨ ((∃ args, Run.parseArgs (Run.argv p) = Return args)
     ∧ (Run.requireEnv (Run.env p) "FMP_API_KEY" = Throw e
        ∨ ((∃ key, Run.requireEnv (Run.env p) "FMP_API_KEY" = Return key)
           ∧ Run.requireEnv (Run.env p) "NINJAS_API_KEY" = Throw e))) →
  Run.run p = (1, [Run.Print (Run.Fatal (exnMessage e))]).
Proof.
  unfold Run.run, Run.main.
  intros [-> | [[args ->] [-> | [[key ->] ->]]]]; reflexivity.
Qed.

(** X8. [main] fails only when the arguments or a variable of the
    environment are rejected or when the calendar step fails: neither the
    construction of the provider, with a key read by [requireEnv], nor the
    failure of a transcript is fatal. *)
Theorem main_fatal_causes (p : Run.Process) (e : exn) :
  fst (Run.main p) = Throw e →
  Run.parseArgs (Run.argv p) = Throw e
  ∨ Run.requireEnv (Run.env p) "FMP_API_KEY" = Throw e
  ∨ Run.requireEnv (Run.env p) "NINJAS_API_KEY" = Throw e
  ∨ ∃ args fmpKey,
      Run.parseArgs (Run.argv p) = Return args
      ∧ Run.requireEnv (Run.env p) "FMP_API_KEY" = Return fmpKey
      ∧ fst (fetchUsEarningsCalendar (Run.from args) (Run.to args) fmpKey
               {| keepUnknown := None |} (Run.calendarNetwork p) (Run.world p)
               (Run.calendarFirst p)) = Throw e.
Proof.
  unfold Run.main.
  destruct (Run.parseArgs (Run.argv p)) as [args|e0]; [|intros [= ->]; now left].
  destruct (Run.requireEnv (Run.env p) "FMP_API_KEY") as [fmpKey|e0];
    [|intros [= ->]; right; now left].
  destruct (Run.requireEnv (Run.env p) "NINJAS_API_KEY") as [ninjasKey|e0] eqn:Hkey;
    [|intros [= ->]; do 2 right; now left].
  destruct (fetchUsEarningsCalendar _ _ _ _ _ _ _) as [[[events map]|e0] t] eqn:Hstep.
  - destruct events as [|ev events]; [discriminate|].
    rewrite (requireEnv_constructor _ _ _ Hkey).
    destruct (Run.transcriptLoop _ _ _ _ _) as [n t']. discriminate.
  - intros [= ->]. do 3 right. exists args, fmpKey. now rewrite Hstep.
Qed.

End RunFacts.

(** ** The Resilient JSON Fetcher *)

(** The loop of [fetchJson], unrolled over the answers of the network. *)
Ltac unroll_attempts :=
  repeat
    (cbn [attempts negb Nat.leb MAX_ATTEMPTS Nat.eqb Nat.ltb Nat.sub fst snd];
     match goal with
     | |- context [match replies ?n ?k with _ => _ end] =>
         destruct (replies n k) as [?e|?r] eqn:?Hreply
     | |- context [if (N.eqb (status ?r) 429 || N.eqb (status ?r) 503)%bool then _ else _] =>
         destruct (N.eqb (status r) 429 || N.eqb (status r) 503)%bool eqn:?Hstatus
     | |- context [match retryAfter ?r with _ => _ end] =>
         destruct (retryAfter r) as [[|?c ?h]|] eqn:?Hheader
     end);
  cbn [attempts negb Nat.leb MAX_ATTEMPTS Nat.eqb Nat.ltb Nat.sub fst snd].

Section FetchJsonFacts.
Variable url : string.
Variable net : Network.

Lemma delay_doubled : Num.mul BASE_DELAY_MS (Num.ofZ 2) = Num.ofZ (500 * 2 ^ Z.of_nat 1).
Proof. vm_compute. reflexivity. Qed.

Lemma retry_status (res : Response) :
  (N.eqb (status res) 429 || N.eqb (status res) 503)%bool = true →
  status res = 429%N ∨ status res = 503%N.
Proof.
  intros Hs. apply orb_true_iff in Hs as [Hs|Hs]; apply N.eqb_eq in Hs; auto.
Qed.

Lemma wait_first (j : nat) :
  j ≤ 0 → waitAfter net 0 (Num.mul BASE_DELAY_MS (jitter (random net j))).
Proof. intros Hj. left. exists j. split; [exact Hj|reflexivity]. Qed.

Lemma wait_second (j : nat) :
  j ≤ 1 →
  waitAfter net 1 (Num.mul (Num.mul BASE_DELAY_MS (Num.ofZ 2)) (jitter (random net j))).
Proof. intros Hj. left. exists j. split; [exact Hj|]. now rewrite delay_doubled. Qed.

Lemma wait_header (k : nat) (res : Response) (c : ascii) (h : string) :
  replies net k = Resolved res →
  (N.eqb (status res) 429 || N.eqb (status res) 503)%bool = true →
  retryAfter res = Some (String c h) →
  waitAfter net k (Num.mul (parseInt10 (Some (String c h))) (Num.ofZ 1000)).
Proof.
  intros Hk Hs Hh. right. exists res, c, h.
  split; [exact Hk|]. split; [now apply retry_status|]. split; [exact Hh|reflexivity].
Qed.

Ltac a_wait :=
  first [ apply wait_first; lia | apply wait_second; lia | eapply wait_header; eassumption ].

(** X9. [fetchJson] requests the URL it is given, without headers, one to
    three times, waits once between two requests and never after the last
    one, and does nothing else.  Each wait is the [Retry-After] of the
    answer, in seconds, or the delay, which starts at 500 ms and doubles at
    every retry, times a jitter. *)
Theorem fetchJson_requests_and_waits :
  let t := snd (fetchJson url net) in
  t = [Fetch url []]
  ∨ (∃ w0, t = [Fetch url []; Sleep w0; Fetch url []] ∧ waitAfter net 0 w0)
  ∨ (∃ w0 w1,
       t = [Fetch url []; Sleep w0; Fetch url []; Sleep w1; Fetch url []]
       ∧ waitAfter net 0 w0 ∧ waitAfter net 1 w1).
Proof.
  unfold fetchJson. unroll_attempts;
    first
      [ left; reflexivity
      | right; left; eexists; split; [reflexivity|a_wait]
      | right; right; eexists; eexists; split; [reflexivity|split; a_wait] ].
Qed.

Lemma readBody_returns (res : Response) (body : JSON) :
  readBody url res = Return body →
  ok res = true ∧ json res = Some body ∧ isErrorEnvelope body = false.
Proof.
  unfold readBody. destruct (ok res); [|discriminate]. cbn [negb].
  destruct (json res) as [b|]; [|discriminate].
  destruct (isErrorEnvelope b) eqn:Henv.
  - destruct (getProp b "Error Message"); discriminate.
  - now intros [= ->].
Qed.

(** X10. What [fetchJson] returns is the body of the answer to its last
    request: that answer has a success status, its body is JSON and is not an
    error envelope, and every answer before it was a transport failure or a
    status 429 or 503. *)
Theorem fetchJson_returns_last_body (body : JSON) :
  fst (fetchJson url net) = Return body →
  ∃ k res,
    requests (snd (fetchJson url net)) = S k ∧ k < 3
    ∧ replies net k = Resolved res
    ∧ ok res = true ∧ json res = Some body ∧ isErrorEnvelope body = false
    ∧ ∀ j, j < k → retryable (replies net j) = true.
Proof.
  intros Hret.
  pose proof (attempts_policy url net (S MAX_ATTEMPTS) 0 BASE_DELAY_MS 0
                ltac:(unfold MAX_ATTEMPTS; lia) ltac:(unfold MAX_ATTEMPTS; lia)) as Hpol.
  cbv zeta in Hpol. fold (fetchJson url net) in Hpol.
  destruct Hpol as (Hn1 & Hn3 & Hbefore & Hlast & Hretry).
  remember (requests (snd (fetchJson url net))) as n eqn:Hn.
  destruct n as [|k]; [lia|]. cbn [Nat.add Nat.sub] in *. rewrite Nat.sub_0_r in *.
  destruct (retryable (replies net k)) eqn:Hk.
  { destruct (Hretry eq_refl) as (_ & msg & Hthrow). congruence. }
  destruct (replies net k) as [e|res] eqn:Hreply; [discriminate Hk|].
  specialize (Hlast res eq_refl Hk). rewrite Hlast in Hret.
  destruct (readBody_returns res body Hret) as (Hok & Hjson & Henv).
  exists k, res. unfold MAX_ATTEMPTS in Hn3.
  repeat split; try assumption; try lia.
  intros j Hj. apply Hbefore. lia.
Qed.

End FetchJsonFacts.

Lemma isAlpha_not_space (c : ascii) (h : string) :
  isAlpha c = true → Str.stripOne Str.whiteSpace (String c h) = None.
Proof.
  destruct c as [[] [] [] [] [] [] [] []]; (discriminate || (intros _; reflexivity)).
Qed.

(** [parseInt] of a text that starts with a letter. *)
Lemma parseInt10_letter (c : ascii) (h : string) :
  isAlpha c = true → parseInt10 (Some (String c h)) = Num.NaN.
Proof.
  intros Hc. unfold parseInt10, trimStart.
  rewrite (trimStart_keep _ (isAlpha_not_space c h Hc)).
  destruct c as [[] [] [] [] [] [] [] []]; (discriminate Hc || reflexivity).
Qed.

(** X11. A [Retry-After] header that gives a date, as HTTP allows, and so
    starts with the name of a day, is read by [parseInt] as [NaN]: after a
    status 429 or 503 with such a header the wait before the retry is
    [NaN] milliseconds. *)
Theorem fetchJson_retry_after_date (url : string) (net : Network) (res : Response)
  (c : ascii) (h : string) :
  replies net 0 = Resolved res →
  status res = 429%N ∨ status res = 503%N →
  retryAfter res = Some (String c h) →
  isAlpha c = true →
  ∃ t, snd (fetchJson url net) = Fetch url [] :: Sleep Num.NaN :: Fetch url [] :: t.
Proof.
  intros Hreply Hstatus Hheader Hc.
  assert (Hs : (N.eqb (status res) 429 || N.eqb (status res) 503)%bool = true).
  { destruct Hstatus as [->| ->]; reflexivity. }
  unfold fetchJson.
  cbn [attempts negb Nat.leb MAX_ATTEMPTS Nat.eqb Nat.ltb Nat.sub].
  rewrite Hreply, Hs, Hheader, (parseInt10_letter c h Hc).
  change (Num.mul Num.NaN (Num.ofZ 1000)) with Num.NaN.
  destruct (replies net 1) as [e1|r1].
  - destruct (replies net 2) as [e2|r2].
    + eexists. reflexivity.
    + destruct (N.eqb (status r2) 429 || N.eqb (status r2) 503)%bool; eexists; reflexivity.
  - destruct (N.eqb (status r1) 429 || N.eqb (status r1) 503)%bool.
    + destruct (retryAfter r1) as [[|c1 h1]|];
        (destruct (replies net 2) as [e2|r2];
         [|destruct (N.eqb (status r2) 429 || N.eqb (status r2) 503)%bool]);
        eexists; reflexivity.
    + eexists. reflexivity.
Qed.

(** ** The Calendar Fetcher *)

Lemma trim_empty : trim "" = "".
Proof. reflexivity. Qed.

Lemma assertApiKey_spec (apiKey context : string) :
  (trim apiKey = "" →
   assertApiKey apiKey context
   = Throw (Error ("[FMP] Missing API key in " ++ context ++ ". "
                   ++ "Set FMP_API_KEY in your environment or .env file.")))
  ∧ (trim apiKey ≠ "" → assertApiKey apiKey context = Return tt).
Proof.
  unfold assertApiKey. split.
  - intros ->. now rewrite orb_true_r.
  - intros Hkey. destruct apiKey as [|c r]; [now elim Hkey|].
    cbn [Str.isEmpty orb]. destruct (Str.isEmpty (trim (String c r))) eqn:He; [|reflexivity].
    apply isEmpty_spec in He. contradiction.
Qed.

(** The effects of [fetchJson]: requests of its URL and waits, with one to
    three requests. *)
Lemma fetchJson_effects (url : string) (net : Network) :
  Forall (fun e => e = Fetch url [] ∨ ∃ w, e = Sleep w) (snd (fetchJson url net))
  ∧ 1 ≤ requests (snd (fetchJson url net)) ≤ 3.
Proof.
  unfold fetchJson. unroll_attempts;
    (split;
     [ repeat (apply List.Forall_cons;
               [first [left; reflexivity | right; eexists; reflexivity]|]);
       apply List.Forall_nil
     | cbn; lia ]).
Qed.

Section CalendarMore.
Context `{Host}.

Lemma usable_spec (item : JSON) :
  usable item = true ↔ fieldText item "symbol" ≠ "" ∧ fieldText item "date" ≠ "".
Proof.
  unfold usable. rewrite andb_true_iff, !negb_true_iff.
  split; intros [Hs Hd]; split.
  - intros He. rewrite He in Hs. discriminate.
  - intros He. rewrite He in Hd. discriminate.
  - destruct (Str.isEmpty _) eqn:He; [apply isEmpty_spec in He; contradiction|reflexivity].
  - destruct (Str.isEmpty (fieldText item "date")) eqn:He;
      [apply isEmpty_spec in He; contradiction|reflexivity].
Qed.

Lemma calendarLoop_exact (data : list JSON) (acc events : list EarningsEvent)
  (t : list effect) :
  calendarLoop data acc = (Return events, t) →
  (JNull ∉ data)
  ∧ List.map FmpEarnings.raw events = (List.map FmpEarnings.raw acc ++ List.filter usable data)%list
  ∧ t = List.map (fun item => Console (WarnSkippingRecord item))
          (List.filter (fun item => negb (usable item)) data).
Proof.
  revert acc events t.
  induction data as [|item rest IH]; intros acc events t Hloop; cbn [calendarLoop] in Hloop.
  - injection Hloop as <- <-. cbn. rewrite app_nil_r. repeat split. apply not_elem_of_nil.
  - assert (Hnn : item ≠ JNull) by (intros ->; discriminate Hloop).
    destruct (calendarRecord_spec item Hnn) as [Hskip Hkeep].
    cbn [List.filter].
    destruct (usable item) eqn:Hu.
    + apply usable_spec in Hu as [Hs Hd].
      destruct (Hkeep Hs Hd) as (ev & Hev & _ & _ & Hraw).
      rewrite Hev in Hloop. destruct (IH _ _ _ Hloop) as (Hnull & Hevents & Ht).
      split; [|split].
      * apply not_elem_of_cons. split; [congruence|exact Hnull].
      * rewrite Hevents, List.map_app. cbn [List.map]. rewrite Hraw, <- app_assoc. reflexivity.
      * exact Ht.
    + assert (Hempty : fieldText item "symbol" = "" ∨ fieldText item "date" = "").
      { destruct (decide (fieldText item "symbol" = "")) as [Hs|Hs]; [now left|].
        destruct (decide (fieldText item "date" = "")) as [Hd|Hd]; [now right|].
        rewrite (proj2 (usable_spec item) (conj Hs Hd)) in Hu. discriminate. }
      rewrite (Hskip Hempty) in Hloop.
      destruct (calendarLoop rest acc) as [r t'] eqn:Hrest.
      injection Hloop as -> <-.
      destruct (IH _ _ _ Hrest) as (Hnull & Hevents & Ht).
      split; [|split].
      * apply not_elem_of_cons. split; [congruence|exact Hnull].
      * exact Hevents.
      * cbn [negb List.map]. now rewrite Ht.
Qed.

Lemma calendarLoop_null (data : list JSON) (acc : list EarningsEvent) :
  JNull ∈ data → ∃ msg, fst (calendarLoop data acc) = Throw (TypeError msg).
Proof.
  revert acc. induction data as [|item rest IH]; intros acc Hin.
  - now apply elem_of_nil in Hin.
  - cbn [calendarLoop].
    assert (Hcases : item = JNull ∨ item ≠ JNull)
      by (destruct item; [now left|right; discriminate..]).
    destruct Hcases as [->|Hnn].
    + eexists. reflexivity.
    + apply elem_of_cons in Hin as [Heq|Hin]; [congruence|].
      destruct (calendarRecord_spec item Hnn) as [Hskip Hkeep].
      destruct (usable item) eqn:Hu.
      * apply usable_spec in Hu as [Hs Hd].
        destruct (Hkeep Hs Hd) as (ev & -> & _). now apply IH.
      * assert (Hempty : fieldText item "symbol" = "" ∨ fieldText item "date" = "").
        { destruct (decide (fieldText item "symbol" = "")) as [Hs|Hs]; [now left|].
          destruct (decide (fieldText item "date" = "")) as [Hd|Hd]; [now right|].
          rewrite (proj2 (usable_spec item) (conj Hs Hd)) in Hu. discriminate. }
        rewrite (Hskip Hempty). destruct (IH acc Hin) as (msg & Hmsg).
        destruct (calendarLoop rest acc) as [r t]. cbn [fst] in *. eauto.
Qed.

(** X12. When the Calendar Fetcher returns, the payload was an array
    without [null]; the events are, in the order of the payload, its records
    whose symbol and date are not empty, and the warnings are, in that order
    too, about the other records; nothing else is written to the console. *)
Theorem fetchFmpEarningsCalendar_keeps_usable_records
  (fromDate toDate apiKey : string) (net : Network)
  (events : list EarningsEvent) (t : list effect) :
  fetchFmpEarningsCalendar fromDate toDate apiKey net = (Return events, t) →
  ∃ data,
    fst (fetchJson (calendarUrl fromDate toDate apiKey) net) = Return (JArr data)
    ∧ (JNull ∉ data)
    ∧ List.map FmpEarnings.raw events = List.filter usable data
    ∧ warned t = List.filter (fun item => negb (usable item)) data
    ∧ t = (snd (fetchJson (calendarUrl fromDate toDate apiKey) net)
           ++ List.map (fun item => Console (WarnSkippingRecord item))
                (List.filter (fun item => negb (usable item)) data))%list.
Proof.
  unfold fetchFmpEarningsCalendar.
  destruct (assertApiKey apiKey "fetchFmpEarningsCalendar"); [|discriminate].
  pose proof (attempts_no_warning (calendarUrl fromDate toDate apiKey) net
                (S MAX_ATTEMPTS) 1 BASE_DELAY_MS 0) as Hquiet.
  fold (fetchJson (calendarUrl fromDate toDate apiKey) net) in Hquiet.
  destruct (fetchJson (calendarUrl fromDate toDate apiKey) net) as [[body|e] t0];
    [|discriminate].
  cbn [snd] in Hquiet.
  destruct body as [|b|n|s|data|props]; try discriminate.
  destruct (calendarLoop data []) as [r t'] eqn:Hloop.
  intros [= -> <-]. destruct (calendarLoop_exact _ _ _ _ Hloop) as (Hnull & Hevents & ->).
  exists data. cbn [fst snd]. split; [reflexivity|]. split; [exact Hnull|].
  split; [exact Hevents|]. split; [|reflexivity].
  rewrite warned_app, Hquiet. cbn [app].
  clear. induction (List.filter _ data) as [|item l IH]; [reflexivity|].
  cbn [List.map]. change (warned (Console (WarnSkippingRecord item) :: ?t))
    with (item :: warned t). now rewrite IH.
Qed.

(** X13. A payload that is not an array makes the Calendar Fetcher fail
    with an error that shows the start of the payload, and a payload that is
    an array with a [null] among its records makes it fail with a
    [TypeError]: such a record is not skipped with a warning. *)
Theorem fetchFmpEarningsCalendar_bad_payload
  (fromDate toDate apiKey : string) (net : Network) (body : JSON) :
  trim apiKey ≠ "" →
  fst (fetchJson (calendarUrl fromDate toDate apiKey) net) = Return body →
  match body with
  | JArr data =>
      JNull ∈ data →
      ∃ msg, fst (fetchFmpEarningsCalendar fromDate toDate apiKey net) = Throw (TypeError msg)
  | _ =>
      fst (fetchFmpEarningsCalendar fromDate toDate apiKey net)
      = Throw (Error ("[FMP] earnings-calendar: expected JSON array, got: "
                      ++ host_stringifySlice body 160))
  end.
Proof.
  intros Hkey Hbody. unfold fetchFmpEarningsCalendar.
  rewrite (proj2 (assertApiKey_spec apiKey _) Hkey).
  destruct (fetchJson (calendarUrl fromDate toDate apiKey) net) as [r t0].
  cbn [fst] in Hbody. subst r.
  destruct body as [|b|n|s|data|props]; try reflexivity.
  intros Hin. destruct (calendarLoop_null data [] Hin) as (msg & Hmsg).
  destruct (calendarLoop data []) as [r t']. cbn [fst] in *. eauto.
Qed.

(** X14. With a key that is empty or made of white space, the Calendar
    Fetcher, the Builder and the pipeline fail with the error of a missing
    key before any effect: no request is sent and the cache is not read.  The
    pipeline reports the error of the Calendar Fetcher, the first of its two
    calls. *)
Theorem blank_api_key_is_rejected_first (apiKey : string) :
  trim apiKey = "" →
  let missing := fun context =>
    Error ("[FMP] Missing API key in " ++ context ++ ". "
           ++ "Set FMP_API_KEY in your environment or .env file.") in
  (∀ fromDate toDate net,
     fetchFmpEarningsCalendar fromDate toDate apiKey net
     = (Throw (missing "fetchFmpEarningsCalendar"), []))
  ∧ (∀ w, buildSymbolToExchangeMap apiKey w
          = (Throw (missing "buildSymbolToExchangeMap"), []))
  ∧ (∀ fromDate toDate options net w calendarFirst,
       fetchUsEarningsCalendar fromDate toDate apiKey options net w calendarFirst
       = (Throw (missing "fetchFmpEarningsCalendar"),
          {| calendarEffects := []; builderEffects := []; filterEffects := [] |})).
Proof.
  intros Hkey missing.
  assert (Hc : ∀ fromDate toDate net,
            fetchFmpEarningsCalendar fromDate toDate apiKey net
            = (Throw (missing "fetchFmpEarningsCalendar"), [])).
  { intros. unfold fetchFmpEarningsCalendar.
    now rewrite (proj1 (assertApiKey_spec apiKey _) Hkey). }
  assert (Hb : ∀ w, buildSymbolToExchangeMap apiKey w
                    = (Throw (missing "buildSymbolToExchangeMap"), [])).
  { intros. unfold buildSymbolToExchangeMap.
    now rewrite (proj1 (assertApiKey_spec apiKey _) Hkey). }
  split; [exact Hc|]. split; [exact Hb|].
  intros. unfold fetchUsEarningsCalendar.
  rewrite Hc, Hb. now rewrite (proj1 (assertApiKey_spec apiKey _) Hkey).
Qed.

End CalendarMore.

(** ** The Exchange Map Builder *)

Section BuilderMore.
Context `{Host}.

Lemma stockEntry_nonempty (item : JSON) (sym exch : string) :
  stockEntry item = Some (sym, exch) → sym ≠ "" ∧ exch ≠ "".
Proof.
  unfold stockEntry. cbv zeta.
  match goal with
  | |- context [Str.isEmpty ?a || Str.isEmpty ?b] =>
      generalize a, b; intros s e
  end.
  destruct (Str.isEmpty s) eqn:Hs; [discriminate|].
  destruct (Str.isEmpty e) eqn:He; [discriminate|].
  cbn [orb]. intros [= <- <-]. split; intros Hempty.
  - rewrite Hempty in Hs. discriminate.
  - rewrite Hempty in He. discriminate.
Qed.

Lemma addEntry_lookup (map : gmap string string) (item : JSON) (sym : string) :
  addEntry map item !! sym
  = match entryFor sym item with Some exch => Some exch | None => map !! sym end.
Proof.
  unfold addEntry, entryFor. destruct (stockEntry item) as [[s exch]|]; [|reflexivity].
  destruct (String.eqb_spec s sym) as [->|Hne].
  - apply lookup_insert_eq.
  - now apply lookup_insert_ne.
Qed.

Lemma foldl_addEntry_lookup (data : list JSON) (map : gmap string string) (sym : string) :
  foldl addEntry map data !! sym
  = match last (omap (entryFor sym) data) with
    | Some exch => Some exch
    | None => map !! sym
    end.
Proof.
  induction data as [|item data IH] using rev_ind; [reflexivity|].
  rewrite foldl_app. cbn [foldl]. rewrite addEntry_lookup, omap_app.
  cbn [omap list_omap]. destruct (entryFor sym item) as [exch|].
  - now rewrite last_snoc.
  - now rewrite app_nil_r.
Qed.

Lemma foldl_addEntry_nonempty (data : list JSON) (map : gmap string string) :
  map_Forall (fun sym exch => sym ≠ "" ∧ exch ≠ "") map →
  map_Forall (fun sym exch => sym ≠ "" ∧ exch ≠ "") (foldl addEntry map data).
Proof.
  revert map. induction data as [|item data IH]; intros map Hmap; [exact Hmap|].
  cbn [foldl]. apply IH. unfold addEntry.
  destruct (stockEntry item) as [[s exch]|] eqn:Hitem; [|exact Hmap].
  apply map_Forall_insert_2; [|exact Hmap]. now apply (stockEntry_nonempty item).
Qed.

(** X15. The loop over the records of the stock list, when none of them is
    [null], returns a map that gives to each symbol the exchange of the last
    record that carries that symbol with an exchange, and nothing to a symbol
    no record carries; no symbol and no exchange of the map is empty. *)
Theorem stockLoop_last_record_wins (data : list JSON) :
  JNull ∉ data →
  ∃ map,
    stockLoop data ∅ = Return map
    ∧ (∀ sym, map !! sym = last (omap (entryFor sym) data))
    ∧ map_Forall (fun sym exch => sym ≠ "" ∧ exch ≠ "") map.
Proof.
  intros Hnull. exists (foldl addEntry ∅ data).
  split; [now apply stockLoop_spec|]. split.
  - intros sym. rewrite foldl_addEntry_lookup, lookup_empty.
    now destruct (last (omap (entryFor sym) data)).
  - apply foldl_addEntry_nonempty, map_Forall_empty.
Qed.

End BuilderMore.

(** Every effect of a list is of the first kind or, for some value, of the
    second kind. *)
Ltac each_effect :=
  cbn [fst snd];
  repeat (apply List.Forall_cons;
          [first [left; reflexivity | right; eexists; reflexivity]|]);
  apply List.Forall_nil.

Section CacheMore.
Context `{Host}.

Lemma tryLoadCache_effects (w : World) :
  Forall (fun e => e = ReadFile CACHE_PATH ∨ ∃ line, e = Console line)
         (snd (tryLoadCache w)).
Proof.
  unfold tryLoadCache.
  destruct (cacheFile w) as [|[payload|]]; [each_effect| |each_effect].
  destruct (getProp payload "builtAt") as [[[| | builtAt | | |]|]|]; try each_effect.
  destruct (getProp payload "entries") as [[[| | | | entries |]|]|]; try each_effect.
  destruct (Num.gt _ _); [each_effect|].
  destruct (cacheEntries entries ∅); each_effect.
Qed.

Lemma tryLoadCache_writeError (w : World) (err : option string) :
  tryLoadCache (withWriteError w err) = tryLoadCache w.
Proof. reflexivity. Qed.

(** The slow path of the Builder writes the cache once, with the map it
    returns, and only when it returns one. *)
Lemma buildFromNetwork_write (apiKey : string) (w : World)
  (path : string) (builtAt : number) (entries : list (string * string)) :
  WriteFile path builtAt entries ∈ snd (buildFromNetwork apiKey w) →
  ∃ map, fst (buildFromNetwork apiKey w) = Return map
         ∧ path = CACHE_PATH ∧ builtAt = nowAtWrite w
         ∧ entries = map_to_list map ∧ map ≠ ∅.
Proof.
  unfold buildFromNetwork.
  pose proof (fetchJson_effects (stockListUrl apiKey) (network w)) as [Heff _].
  destruct (fetchJson (stockListUrl apiKey) (network w)) as [r t]. cbn [snd] in Heff.
  assert (Hquiet : ∀ t', WriteFile path builtAt entries ∈ (Console LogCacheMiss :: t ++ t')%list →
                         WriteFile path builtAt entries ∈ t').
  { intros t' Hin. apply elem_of_cons in Hin as [Hin|Hin]; [discriminate|].
    apply elem_of_app in Hin as [Hin|Hin]; [|exact Hin].
    rewrite List.Forall_forall in Heff. apply list_elem_of_In, Heff in Hin.
    destruct Hin as [Hin|[w0 Hin]]; discriminate. }
  assert (Hnone : WriteFile path builtAt entries ∈ Console LogCacheMiss :: t → False).
  { intros Hin. rewrite <- (app_nil_r t) in Hin. apply Hquiet in Hin.
    now apply elem_of_nil in Hin. }
  destruct r as [[| | | |data|]|e]; cbn [fst snd]; try (intros Hin; now elim Hnone).
  destruct data as [|item data]; cbn [fst snd]; [intros Hin; now elim Hnone|].
  destruct (stockLoop (item :: data) ∅) as [map|e]; cbn [fst snd];
    [|intros Hin; now elim Hnone].
  destruct (Nat.eqb (size map) 0) eqn:Hsize; cbn [fst snd]; [intros Hin; now elim Hnone|].
  intros Hin. apply Hquiet in Hin. unfold persistCache in Hin.
  exists map. split; [reflexivity|].
  assert (Hmap : map ≠ ∅).
  { intros ->. rewrite map_size_empty in Hsize. discriminate. }
  apply elem_of_app in Hin as [Hin|Hin].
  - apply elem_of_cons in Hin as [Hin|Hin].
    + injection Hin as -> -> ->. auto.
    + destruct (writeError w); [apply list_elem_of_singleton in Hin; discriminate|].
      now apply elem_of_nil in Hin.
  - apply list_elem_of_singleton in Hin. discriminate.
Qed.

Lemma buildFromNetwork_writeError (apiKey : string) (w : World) (err : option string) :
  fst (buildFromNetwork apiKey (withWriteError w err)) = fst (buildFromNetwork apiKey w).
Proof.
  unfold buildFromNetwork. cbn [network withWriteError].
  destruct (fetchJson (stockListUrl apiKey) (network w)) as [[[| | | |data|]|e] t];
    try reflexivity.
  destruct data as [|item data]; [reflexivity|].
  destruct (stockLoop (item :: data) ∅) as [map|e]; [|reflexivity].
  destruct (Nat.eqb (size map) 0); reflexivity.
Qed.

(** X16. The Builder writes the cache file only after a miss and only when
    it returns a map built from the network: what it writes is that map,
    which is not empty, with the time of the write.  A failure of the write
    is not a failure of the Builder: its result is the same whether the file
    can be written or not. *)
Theorem buildSymbolToExchangeMap_writes_what_it_returns (apiKey : string) (w : World) :
  (∀ path builtAt entries,
     WriteFile path builtAt entries ∈ snd (buildSymbolToExchangeMap apiKey w) →
     ∃ map,
       fst (buildSymbolToExchangeMap apiKey w) = Return map
       ∧ fst (tryLoadCache w) = Return None
       ∧ path = CACHE_PATH ∧ builtAt = nowAtWrite w
       ∧ entries = map_to_list map ∧ map ≠ ∅)
  ∧ (∀ err, fst (buildSymbolToExchangeMap apiKey (withWriteError w err))
            = fst (buildSymbolToExchangeMap apiKey w)).
Proof.
  split.
  - intros path builtAt entries. unfold buildSymbolToExchangeMap.
    destruct (assertApiKey apiKey "buildSymbolToExchangeMap");
      [|intros Hin; now apply elem_of_nil in Hin].
    pose proof (tryLoadCache_effects w) as Hload.
    destruct (tryLoadCache w) as [r t]. cbn [snd fst] in *.
    assert (Hquiet : WriteFile path builtAt entries ∈ t → False).
    { intros Hin. rewrite List.Forall_forall in Hload.
      apply list_elem_of_In, Hload in Hin. destruct Hin as [Hin|[line Hin]]; discriminate. }
    destruct r as [[[map b]|]|e]; cbn [fst snd].
    + intros Hin. apply elem_of_app in Hin as [Hin|Hin]; [now elim Hquiet|].
      apply list_elem_of_singleton in Hin. discriminate.
    + pose proof (buildFromNetwork_write apiKey w path builtAt entries) as Hwrite.
      destruct (buildFromNetwork apiKey w) as [r' t']. cbn [fst snd] in *.
      intros Hin. apply elem_of_app in Hin as [Hin|Hin]; [now elim Hquiet|].
      destruct (Hwrite Hin) as (map & -> & Hrest). exists map. auto.
    + intros Hin. now elim Hquiet.
  - intros err. unfold buildSymbolToExchangeMap.
    destruct (assertApiKey apiKey "buildSymbolToExchangeMap"); [|reflexivity].
    rewrite tryLoadCache_writeError.
    destruct (tryLoadCache w) as [[[[map b]|]|e] t]; try reflexivity.
    pose proof (buildFromNetwork_writeError apiKey w err) as Hsame.
    destruct (buildFromNetwork apiKey (withWriteError w err)) as [r1 t1].
    destruct (buildFromNetwork apiKey w) as [r2 t2]. exact Hsame.
Qed.

Lemma cacheEntries_payload (entries : list (string * string)) (map : gmap string string) :
  cacheEntries
    (List.map (fun '(symbol, exchange) =>
                 JObj [("symbol", JStr symbol); ("exchange", JStr exchange)]) entries) map
  = Return (foldl (fun m kv => <[kv.1 := kv.2]> m) map entries).
Proof.
  revert map. induction entries as [|[s e] entries IH]; intros map; [reflexivity|].
  cbn [List.map cacheEntries]. unfold cacheEntry at 1.
  cbn [getProp propOf assoc String.eqb Ascii.eqb Bool.eqb mbind completion_bind].
  rewrite IH. reflexivity.
Qed.

Lemma foldl_insert_reverse (entries : list (string * string)) (map : gmap string string) :
  foldl (fun m kv => <[kv.1 := kv.2]> m) map entries
  = foldr (fun kv m => <[kv.1 := kv.2]> m) map (reverse entries).
Proof.
  revert map. induction entries as [|kv entries IH]; intros map; [reflexivity|].
  cbn [foldl]. rewrite IH, reverse_cons, foldr_app. reflexivity.
Qed.

(** Reading back the entries of a map, in the order [persistCache] lists
    them, builds the same map. *)
Lemma cacheEntries_map_to_list (map : gmap string string) :
  cacheEntries
    (List.map (fun '(symbol, exchange) =>
                 JObj [("symbol", JStr symbol); ("exchange", JStr exchange)])
              (map_to_list map)) ∅
  = Return map.
Proof.
  rewrite cacheEntries_payload, foldl_insert_reverse. f_equal.
  change (list_to_map (reverse (map_to_list map)) = map).
  rewrite <- (list_to_map_to_list map) at 2. symmetry.
  apply list_to_map_proper.
  - apply NoDup_fst_map_to_list.
  - symmetry. apply reverse_Permutation.
Qed.

(** X17. The cache is a round trip.  A file that holds what [persistCache]
    wrote for a map is read back, as long as it is not older than seven
    days, as that map with the time it was built at, without a request; once
    it is older, it is a miss. *)
Theorem persistCache_tryLoadCache_round_trip (w : World) (map : gmap string string)
  (builtAt : number) :
  cacheFile w = Text (Some (cachePayload builtAt (map_to_list map))) →
  (stale (now w) builtAt = false →
   tryLoadCache w = (Return (Some (map, builtAt)), [ReadFile CACHE_PATH])
   ∧ ∀ apiKey, trim apiKey ≠ "" →
       fst (buildSymbolToExchangeMap apiKey w) = Return map
       ∧ requests (snd (buildSymbolToExchangeMap apiKey w)) = 0)
  ∧ (stale (now w) builtAt = true → fst (tryLoadCache w) = Return None).
Proof.
  intros Hfile.
  assert (Hload : tryLoadCache w
                  = if stale (now w) builtAt
                    then (Return None, [ReadFile CACHE_PATH; Console LogCacheStale])
                    else (Return (Some (map, builtAt)), [ReadFile CACHE_PATH])).
  { unfold tryLoadCache, stale. rewrite Hfile. unfold cachePayload.
    cbn [getProp propOf assoc String.eqb Ascii.eqb Bool.eqb].
    destruct (Num.gt (Num.sub (now w) builtAt) CACHE_TTL_MS); [reflexivity|].
    now rewrite cacheEntries_map_to_list. }
  split.
  - intros Hfresh. rewrite Hfresh in Hload. split; [exact Hload|].
    intros apiKey Hkey. unfold buildSymbolToExchangeMap.
    rewrite (proj2 (assertApiKey_spec apiKey _) Hkey), Hload. cbn [fst snd app].
    split; reflexivity.
  - intros Hstale. now rewrite Hload, Hstale.
Qed.

End CacheMore.

(** ** The Exchange Filter *)

Section FilterMore.
Context `{Host}.

(** The counters of the filter, one by one. *)
Lemma filterEvents_each_count m keep events n :
  let n' := snd (filterEvents m keep events n) in
  keptNyseNasdaq n'
  = keptNyseNasdaq n + length (List.filter (keptBySpec m false) events)
  ∧ keptUnknown n' + keptNyseNasdaq n'
    = keptUnknown n + keptNyseNasdaq n + length (List.filter (keptBySpec m keep) events)
  ∧ (keep = false → keptUnknown n' = keptUnknown n).
Proof.
  revert n. induction events as [|ev rest IH]; intros n.
  - cbn. repeat split; lia.
  - cbn [filterEvents List.filter]. unfold filterCallback.
    destruct (m !! toUpperCase (FmpEarnings.symbol ev)) as [exch|] eqn:Hlook.
    + assert (Hsame : bool_decide (exch ∈ NYSE_NASDAQ)
                      = bool_decide (exch = "NYSE" ∨ exch = "NASDAQ")).
      { apply bool_decide_ext, NYSE_NASDAQ_spec. }
      assert (Hkept : ∀ k, keptBySpec m k ev = bool_decide (exch ∈ NYSE_NASDAQ)).
      { intros k. unfold keptBySpec. now rewrite Hlook. }
      rewrite !Hkept.
      destruct (bool_decide (exch ∈ NYSE_NASDAQ));
        match goal with |- context [filterEvents m ?k rest ?c] =>
          specialize (IH c); destruct (filterEvents m k rest c) as [result n'']
        end; cbn [fst snd length keptNyseNasdaq keptUnknown dropped] in *;
        destruct IH as (H1 & H2 & H3);
        (split; [lia|]); (split; [lia|]); intros Hk; specialize (H3 Hk); lia.
    + assert (Hkept : ∀ k, keptBySpec m k ev = k).
      { intros k. unfold keptBySpec. now rewrite Hlook. }
      rewrite !Hkept.
      destruct keep;
        match goal with |- context [filterEvents m ?k rest ?c] =>
          specialize (IH c); destruct (filterEvents m k rest c) as [result n'']
        end; cbn [fst snd length keptNyseNasdaq keptUnknown dropped] in *;
        destruct IH as (H1 & H2 & H3);
        (split; [lia|]); (split; [lia|]); intros Hk; [discriminate|];
        specialize (H3 Hk); lia.
Qed.

(** X18. The line the filter logs adds up: the events kept as NYSE/NASDAQ
    are those whose symbol the map lists on one of the two exchanges, the
    events kept as unknown are the other events of the result, none when
    [keepUnknown] is not set, and together with the events dropped they are
    all the events. *)
Theorem filterNyseNasdaq_log_counts
  (events : list EarningsEvent) (m : gmap string string) (options : FilterOptions) :
  ∃ kept unknown dropped,
    snd (filterNyseNasdaqLogged events m options)
    = [Console (LogFilter kept unknown dropped (length events) (keepUnknownOf options))]
    ∧ kept = length (List.filter (keptBySpec m false) events)
    ∧ kept + unknown = length (filterNyseNasdaq events m options)
    ∧ kept + unknown + dropped = length events
    ∧ (keepUnknownOf options = false → unknown = 0).
Proof.
  unfold filterNyseNasdaq, filterNyseNasdaqLogged.
  pose proof (filterEvents_counts m (keepUnknownOf options) events
                {| keptNyseNasdaq := 0; keptUnknown := 0; dropped := 0 |}) as Hsum.
  pose proof (filterEvents_each_count m (keepUnknownOf options) events
                {| keptNyseNasdaq := 0; keptUnknown := 0; dropped := 0 |}) as Heach.
  destruct (filterEvents m (keepUnknownOf options) events _) as [result n].
  cbn [fst snd keptNyseNasdaq keptUnknown FmpEarnings.dropped] in *.
  destruct Hsum as [Hall Hkept]. destruct Heach as (Hk & _ & Hu).
  exists (keptNyseNasdaq n), (keptUnknown n), (FmpEarnings.dropped n).
  split; [reflexivity|]. split; [lia|]. split; [lia|]. split; [lia|].
  intros Hkeep. specialize (Hu Hkeep). lia.
Qed.

Lemma filter_keep_monotone (m : gmap string string) (events : list EarningsEvent) :
  sublist (List.filter (keptBySpec m false) events) (List.filter (keptBySpec m true) events).
Proof.
  induction events as [|ev rest IH]; [constructor|].
  cbn [List.filter].
  destruct (m !! toUpperCase (FmpEarnings.symbol ev)) as [exch|] eqn:Hlook.
  - assert (Hkept : ∀ k, keptBySpec m k ev = bool_decide (exch = "NYSE" ∨ exch = "NASDAQ")).
    { intros k. unfold keptBySpec. now rewrite Hlook. }
    rewrite !Hkept.
    destruct (bool_decide (exch = "NYSE" ∨ exch = "NASDAQ")); [now constructor|exact IH].
  - assert (Hkept : ∀ k, keptBySpec m k ev = k).
    { intros k. unfold keptBySpec. now rewrite Hlook. }
    rewrite !Hkept. now constructor.
Qed.

(** X19. The filter works event by event: the result for two lists put
    end to end is the two results put end to end.  Setting [keepUnknown] only
    adds events: the result without it is a sublist of the result with it.
    With a map that has no entry, the filter drops every event, or keeps
    them all when [keepUnknown] is set. *)
Theorem filterNyseNasdaq_event_by_event
  (events events' : list EarningsEvent) (m : gmap string string) (options : FilterOptions) :
  filterNyseNasdaq (events ++ events') m options
  = (filterNyseNasdaq events m options ++ filterNyseNasdaq events' m options)%list
  ∧ sublist (filterNyseNasdaq events m {| keepUnknown := Some false |})
            (filterNyseNasdaq events m {| keepUnknown := Some true |})
  ∧ filterNyseNasdaq events ∅ options = (if keepUnknownOf options then events else []).
Proof.
  rewrite !filterNyseNasdaq_filter. split; [apply List.filter_app|].
  split; [apply filter_keep_monotone|].
  induction events as [|ev rest IH]; [now destruct (keepUnknownOf options)|].
  cbn [List.filter].
  assert (Hkept : keptBySpec ∅ (keepUnknownOf options) ev = keepUnknownOf options).
  { unfold keptBySpec. now rewrite lookup_empty. }
  rewrite Hkept, IH. now destruct (keepUnknownOf options).
Qed.

End FilterMore.

(** ** The pipeline *)

Section PipelineFacts.
Context `{Host}.

Lemma calendarLoop_requests (data : list JSON) (acc : list EarningsEvent) :
  requests (snd (calendarLoop data acc)) = 0.
Proof.
  revert acc. induction data as [|item rest IH]; intros acc; [reflexivity|].
  cbn [calendarLoop]. destruct (calendarRecord item) as [[ev|line]|e]; [apply IH| |reflexivity].
  specialize (IH acc). destruct (calendarLoop rest acc) as [r t]. exact IH.
Qed.

Lemma fetchFmpEarningsCalendar_requests (fromDate toDate apiKey : string) (net : Network) :
  requests (snd (fetchFmpEarningsCalendar fromDate toDate apiKey net)) ≤ 3
  ∧ (trim apiKey ≠ "" →
     1 ≤ requests (snd (fetchFmpEarningsCalendar fromDate toDate apiKey net))).
Proof.
  unfold fetchFmpEarningsCalendar.
  destruct (assertApiKey_spec apiKey "fetchFmpEarningsCalendar") as [Hblank Hkey].
  destruct (assertApiKey apiKey "fetchFmpEarningsCalendar") as [[]|e] eqn:Hassert.
  - destruct (fetchJson_effects (calendarUrl fromDate toDate apiKey) net) as [_ Hn].
    destruct (fetchJson (calendarUrl fromDate toDate apiKey) net) as [[body|e] t];
      cbn [snd] in *; [|lia].
    destruct body as [| | | |data|]; cbn [snd]; try lia.
    pose proof (calendarLoop_requests data []) as Hloop.
    destruct (calendarLoop data []) as [r t']. cbn [snd] in *.
    rewrite requests_app. lia.
  - cbn. split; [lia|]. intros Hk. discriminate (Hkey Hk).
Qed.

Lemma buildFromNetwork_requests (apiKey : string) (w : World) :
  1 ≤ requests (snd (buildFromNetwork apiKey w)) ≤ 3.
Proof.
  unfold buildFromNetwork.
  destruct (fetchJson_effects (stockListUrl apiKey) (network w)) as [_ Hn].
  destruct (fetchJson (stockListUrl apiKey) (network w)) as [[body|e] t];
    cbn [snd] in *; [|exact Hn].
  destruct body as [| | | |data|]; cbn [snd]; try exact Hn.
  destruct data as [|item data]; cbn [snd]; [exact Hn|].
  destruct (stockLoop (item :: data) ∅) as [map|e]; cbn [snd]; [|exact Hn].
  destruct (Nat.eqb (size map) 0); cbn [snd]; [exact Hn|].
  change (requests (Console LogCacheMiss :: ?l)) with (requests l).
  rewrite !requests_app. unfold persistCache.
  destruct (writeError w); cbn; lia.
Qed.

Lemma buildSymbolToExchangeMap_requests (apiKey : string) (w : World) :
  requests (snd (buildSymbolToExchangeMap apiKey w)) ≤ 3
  ∧ (fst (tryLoadCache w) ≠ Return None →
     requests (snd (buildSymbolToExchangeMap apiKey w)) = 0).
Proof.
  unfold buildSymbolToExchangeMap.
  destruct (assertApiKey apiKey "buildSymbolToExchangeMap"); [|cbn; split; [lia|reflexivity]].
  pose proof (tryLoadCache_no_request w) as Hload.
  destruct (tryLoadCache w) as [[[[map b]|]|e] t]; cbn [fst snd] in *.
  - rewrite requests_app, Hload. cbn. split; [lia|reflexivity].
  - pose proof (buildFromNetwork_requests apiKey w) as Hnet.
    destruct (buildFromNetwork apiKey w) as [r t']. cbn [snd] in *.
    rewrite requests_app, Hload. split; [lia|]. intros Hmiss. now elim Hmiss.
  - rewrite Hload. split; [lia|reflexivity].
Qed.

Lemma fetchFmpEarningsCalendar_wellFormed (fromDate toDate apiKey : string)
  (net : Network) (events : list EarningsEvent) (t : list effect) :
  fetchFmpEarningsCalendar fromDate toDate apiKey net = (Return events, t) →
  Forall wellFormed events.
Proof.
  unfold fetchFmpEarningsCalendar.
  destruct (assertApiKey apiKey "fetchFmpEarningsCalendar"); [|discriminate].
  destruct (fetchJson (calendarUrl fromDate toDate apiKey) net) as [[body|e] t0];
    [|discriminate].
  destruct body as [| | | |data|]; try discriminate.
  destruct (calendarLoop data []) as [r t'] eqn:Hloop. intros [= -> <-].
  destruct (calendarLoop_spec _ _ _ _ Hloop (List.Forall_nil _)) as (Hwf & _). exact Hwf.
Qed.

(** X20. The pipeline returns when its two calls return, with the map of
    the Builder and the events of the Calendar Fetcher put through the
    filter: every event it returns has a symbol and a date that are not
    empty and, unless [keepUnknown] is set, a symbol that the map lists on
    NYSE or NASDAQ.  It sent one to three requests for the calendar and at
    most three for the stock list, none when the cache was read.  When the
    pipeline fails, its error is the error of one of its two calls. *)
Theorem fetchUsEarningsCalendar_composes
  (fromDate toDate apiKey : string) (options : FilterOptions)
  (net : Network) (w : World) (calendarFirst : bool) :
  let step :=
    fetchUsEarningsCalendar fromDate toDate apiKey options net w calendarFirst in
  let calendar := fetchFmpEarningsCalendar fromDate toDate apiKey net in
  let builder := buildSymbolToExchangeMap apiKey w in
  calendarEffects (snd step) = snd calendar
  ∧ builderEffects (snd step) = snd builder
  ∧ match fst step with
    | Return (events, map) =>
        ∃ rawEvents,
          fst calendar = Return rawEvents
          ∧ fst builder = Return map
          ∧ (events, filterEffects (snd step))
            = filterNyseNasdaqLogged rawEvents map options
          ∧ Forall (fun ev =>
                      FmpEarnings.symbol ev ≠ "" ∧ FmpEarnings.reportDate ev ≠ ""
                      ∧ (keepUnknownOf options = false →
                         ∃ exch, map !! toUpperCase (FmpEarnings.symbol ev) = Some exch
                                 ∧ (exch = "NYSE" ∨ exch = "NASDAQ")))
                   events
          ∧ 1 ≤ requests (snd calendar) ≤ 3
          ∧ requests (snd builder) ≤ 3
          ∧ (fst (tryLoadCache w) ≠ Return None → requests (snd builder) = 0)
    | Throw e => fst calendar = Throw e ∨ fst builder = Throw e
    end.
Proof.
  cbv zeta. unfold fetchUsEarningsCalendar.
  pose proof (fetchFmpEarningsCalendar_requests fromDate toDate apiKey net) as [Hc3 Hc1].
  pose proof (buildSymbolToExchangeMap_requests apiKey w) as [Hb3 Hb0].
  pose proof (fetchFmpEarningsCalendar_wellFormed fromDate toDate apiKey net) as Hwf.
  destruct (assertApiKey_spec apiKey "fetchFmpEarningsCalendar") as [Hblank Hkey].
  destruct (fetchFmpEarningsCalendar fromDate toDate apiKey net) as [r1 t1] eqn:Hcal.
  destruct (buildSymbolToExchangeMap apiKey w) as [r2 t2].
  cbn [fst snd] in *.
  destruct (assertApiKey apiKey "fetchFmpEarningsCalendar") as [[]|e] eqn:Hassert.
  - assert (Hk : trim apiKey ≠ "").
    { intros Hb. discriminate (Hblank Hb). }
    destruct r1 as [rawEvents|e1], r2 as [map|e2]; cbn [fst snd calendarEffects builderEffects].
    + pose proof (filterNyseNasdaq_filter rawEvents map options) as Hfilter.
      unfold filterNyseNasdaq in Hfilter.
      destruct (filterNyseNasdaqLogged rawEvents map options) as [events t3] eqn:Hlogged.
      cbn [fst snd calendarEffects builderEffects filterEffects] in *.
      split; [reflexivity|]. split; [reflexivity|].
      exists rawEvents. split; [reflexivity|]. split; [reflexivity|].
      split; [now rewrite Hlogged|].
      split; [|split; [split; [now apply Hc1|exact Hc3]|split; [exact Hb3|exact Hb0]]].
      specialize (Hwf rawEvents t1 eq_refl). subst events.
      apply List.Forall_forall. intros ev Hin. apply List.filter_In in Hin as [Hin Hkept].
      rewrite List.Forall_forall in Hwf. destruct (Hwf ev Hin) as (Hs & Hd & _).
      split; [exact Hs|]. split; [exact Hd|].
      intros Hkeep. unfold keptBySpec in Hkept. rewrite Hkeep in Hkept.
      destruct (map !! toUpperCase (FmpEarnings.symbol ev)) as [exch|]; [|discriminate].
      exists exch. split; [reflexivity|]. now apply bool_decide_eq_true in Hkept.
    + split; [reflexivity|]. split; [reflexivity|]. now right.
    + split; [reflexivity|]. split; [reflexivity|]. now left.
    + split; [reflexivity|]. split; [reflexivity|].
      destruct calendarFirst; [now left|now right].
  - cbn [fst snd calendarEffects builderEffects].
    split; [reflexivity|]. split; [reflexivity|]. left.
    unfold fetchFmpEarningsCalendar in Hcal. rewrite Hassert in Hcal.
    now injection Hcal as <- _.
Qed.

End PipelineFacts.

(** ** The transcript providers *)

Lemma split_dashFree (s : string) : dashFree s = true → Str.split "-" s = [s].
Proof.
  induction s as [|c r IH]; [reflexivity|].
  cbn [dashFree Str.split]. intros Hs. apply andb_true_iff in Hs as [Hc Hr].
  apply negb_true_iff in Hc. rewrite Hc, (IH Hr). reflexivity.
Qed.

Lemma split_head (c : ascii) (r : string) :
  Ascii.eqb c "-" = false → ∃ p ps, Str.split "-" (String c r) = String c p :: ps.
Proof.
  intros Hc. cbn [Str.split]. rewrite Hc.
  destruct (Str.split "-" r) as [|p ps]; eauto.
Qed.

Lemma isAlpha_not_dash (c : ascii) : isAlpha c = true → Ascii.eqb c "-" = false.
Proof. destruct c as [[] [] [] [] [] [] [] []]; (discriminate || reflexivity). Qed.

Lemma dateToFiscalYearQuarter_NaN (callDate : string) :
  parseInt10 (Str.split "-" callDate !! 0) = Num.NaN
  ∨ parseInt10 (Str.split "-" callDate !! 1) = Num.NaN →
  dateToFiscalYearQuarter callDate = Throw (invalidCallDate callDate).
Proof.
  unfold dateToFiscalYearQuarter. cbv zeta. intros [-> | ->]; [reflexivity|].
  now rewrite orb_true_r.
Qed.

Section ProviderMore.
Context `{Host}.

(** X21. A call date without a dash, the empty one among them, or one that
    starts with a letter is rejected with an error that quotes it, and then
    a provider fails with that error without sending a request. *)
Theorem dateToFiscalYearQuarter_rejects (callDate : string) :
  dashFree callDate = true
  ∨ (∃ c r, callDate = String c r ∧ isAlpha c = true) →
  dateToFiscalYearQuarter callDate = Throw (invalidCallDate callDate)
  ∧ ∀ p symbol reply,
      fetchTranscript p symbol callDate reply = (Throw (invalidCallDate callDate), []).
Proof.
  intros Hdate.
  assert (Hthrow : dateToFiscalYearQuarter callDate = Throw (invalidCallDate callDate)).
  { apply dateToFiscalYearQuarter_NaN. destruct Hdate as [Hfree|(c & r & -> & Hc)].
    - right. now rewrite (split_dashFree _ Hfree).
    - left. destruct (split_head c r (isAlpha_not_dash c Hc)) as (p & ps & ->).
      cbn [lookup list_lookup]. now apply parseInt10_letter. }
  split; [exact Hthrow|].
  intros [apiKey|apiKey] symbol reply; cbn [fetchTranscript];
    unfold ninjasFetchTranscript, fmpFetchTranscript; now rewrite Hthrow.
Qed.

(** X22. The month of a call date is not checked against the calendar: the
    month 00 gives the quarter 4 of the year before, and the months 13 to 99
    give the quarter 3 of the year; nor is the day read at all. *)
Theorem dateToFiscalYearQuarter_month_not_checked (Y M : N) (day : string) :
  (Y ≤ 9999)%N → (M = 0 ∨ 13 ≤ M ≤ 99)%N →
  dateToFiscalYearQuarter (isoDate Y M day)
  = Return (if (M =? 0)%N
            then {| year := Num.ofZ (Z.of_N Y - 1); quarter := Num.ofZ 4 |}
            else {| year := Num.ofZ (Z.of_N Y); quarter := Num.ofZ 3 |}).
Proof.
  intros HY HM. rewrite dateToFiscalYearQuarter_isoDate by lia.
  unfold fiscalPeriodOf. destruct HM as [-> | HM]; [reflexivity|].
  rewrite (proj2 (N.eqb_neq M 0)) by lia.
  rewrite !(proj2 (Z.leb_gt _ _)) by lia. reflexivity.
Qed.

(** X23. For a call date that is accepted, a provider sends exactly one
    request, whatever the answer is: a status 429 or 503 is an error at once,
    without a retry, and a failure of the transport is thrown as it is. *)
Theorem fetchTranscript_one_request (p : Provider) (symbol callDate : string)
  (reply : FetchOutcome) (period : FiscalPeriod) :
  dateToFiscalYearQuarter callDate = Return period →
  snd (fetchTranscript p symbol callDate reply) = [requestOf p symbol period]
  ∧ (∀ e, reply = Rejected e → fst (fetchTranscript p symbol callDate reply) = Throw e)
  ∧ (∀ res, reply = Resolved res → ok res = false → status res ≠ 404%N →
       fst (fetchTranscript p symbol callDate reply)
       = Throw (Error ("[" ++ name p ++ "] HTTP " ++ Str.ofN (status res) ++ " for "
                       ++ symbol ++ " " ++ periodLabel period ++ "."))).
Proof.
  intros Hdate.
  destruct p as [apiKey|apiKey]; cbn [fetchTranscript requestOf name];
    unfold ninjasFetchTranscript, fmpFetchTranscript; rewrite Hdate; cbv zeta.
  - split; [|split].
    + destruct reply as [e|res]; [reflexivity|].
      destruct (N.eqb (status res) 404); [reflexivity|].
      destruct (negb (ok res)); [reflexivity|].
      destruct (json res) as [data|]; [|reflexivity].
      destruct (firstRecord data) as [raw|]; [|reflexivity].
      destruct (falsy (Some raw) || negb (typeofObject (Some raw))); reflexivity.
    + now intros e ->.
    + intros res -> Hok H404. apply N.eqb_neq in H404. now rewrite H404, Hok.
  - split; [|split].
    + destruct reply as [e|res]; [reflexivity|].
      destruct (N.eqb (status res) 404); [reflexivity|].
      destruct (negb (ok res)); [reflexivity|].
      destruct (json res) as [data|]; [|reflexivity].
      destruct (isFmpErrorEnvelope data); [reflexivity|].
      destruct (firstRecord data) as [raw|]; [|reflexivity].
      destruct (falsy (Some raw) || negb (typeofObject (Some raw))); reflexivity.
    + now intros e ->.
    + intros res -> Hok H404. apply N.eqb_neq in H404. now rewrite H404, Hok.
Qed.

(** X24. The key of a provider is used in the request and nowhere else: what
    a call returns or throws, the messages of its errors included, is the
    same for any two keys, and the URL of API Ninjas does not carry the
    key. *)
Theorem fetchTranscript_result_ignores_key (apiKey apiKey' symbol callDate : string)
  (reply : FetchOutcome) :
  fst (fetchTranscript (NinjasTranscriptProvider apiKey) symbol callDate reply)
  = fst (fetchTranscript (NinjasTranscriptProvider apiKey') symbol callDate reply)
  ∧ fst (fetchTranscript (FmpTranscriptProvider apiKey) symbol callDate reply)
    = fst (fetchTranscript (FmpTranscriptProvider apiKey') symbol callDate reply)
  ∧ ∀ url headers,
      Fetch url headers
        ∈ snd (fetchTranscript (NinjasTranscriptProvider apiKey) symbol callDate reply) →
      headers = [("X-Api-Key", apiKey)]
      ∧ Fetch url [("X-Api-Key", apiKey')]
          ∈ snd (fetchTranscript (NinjasTranscriptProvider apiKey') symbol callDate reply).
Proof.
  cbn [fetchTranscript]. unfold ninjasFetchTranscript, fmpFetchTranscript. cbv zeta.
  cbn [name].
  destruct (dateToFiscalYearQuarter callDate) as [period|e].
  2: { split; [reflexivity|]. split; [reflexivity|].
       intros url headers Hin. now apply elem_of_nil in Hin. }
  destruct reply as [e|res].
  { split; [reflexivity|]. split; [reflexivity|].
    intros url headers Hin. apply list_elem_of_singleton in Hin. injection Hin as -> ->.
    split; [reflexivity|]. now apply list_elem_of_singleton. }
  destruct (N.eqb (status res) 404);
    [|destruct (negb (ok res)); [|destruct (json res) as [data|]]].
  1, 2, 4: split; [reflexivity|]; split; [reflexivity|];
    intros url headers Hin; apply list_elem_of_singleton in Hin; injection Hin as -> ->;
    split; [reflexivity|]; now apply list_elem_of_singleton.
  split; [|split].
  - destruct (firstRecord data) as [raw|]; [|reflexivity].
    destruct (falsy (Some raw) || negb (typeofObject (Some raw))); reflexivity.
  - destruct (isFmpErrorEnvelope data); [reflexivity|].
    destruct (firstRecord data) as [raw|]; [|reflexivity].
    destruct (falsy (Some raw) || negb (typeofObject (Some raw))); reflexivity.
  - intros url headers.
    destruct (firstRecord data) as [raw|];
      [destruct (falsy (Some raw) || negb (typeofObject (Some raw)))|];
      cbn [snd]; intros Hin; apply list_elem_of_singleton in Hin; injection Hin as -> ->;
      (split; [reflexivity|]); now apply list_elem_of_singleton.
Qed.

Lemma turnLine_nonempty (turn : JSON) (line : string) :
  turnLine turn = Some line → line ≠ "".
Proof.
  unfold turnLine. cbv zeta.
  destruct (Str.isEmpty (trim (ToString (nullish (propOf turn "text") (Some (JStr ""))))));
    [discriminate|].
  intros [= <-]. apply append_nonempty_r. discriminate.
Qed.

(** The loop over the speaker turns returns when no turn is [null], with
    the lines of the turns that have a text. *)
Lemma speakerLines_exact (turns : list JSON) (lines : list string) :
  (JNull ∉ turns →
   speakerLines turns lines = Return (lines ++ omap turnLine turns)%list)
  ∧ (∀ lines', speakerLines turns lines = Return lines' → JNull ∉ turns).
Proof.
  revert lines. induction turns as [|turn rest IH]; intros lines.
  - split; [intros _; cbn; now rewrite app_nil_r|intros lines' _; apply not_elem_of_nil].
  - assert (Hcases : turn = JNull ∨ turn ≠ JNull)
      by (destruct turn; [now left|right; discriminate..]).
    destruct Hcases as [->|Hnn].
    + split; [intros Hnull; elim Hnull; now left|discriminate].
    + cbn [speakerLines]. rewrite !(getProp_not_null turn _ Hnn).
      cbn [mbind completion_bind omap list_omap]. unfold turnLine. cbv zeta.
      destruct (Str.isEmpty (trim (ToString (nullish (propOf turn "text") (Some (JStr ""))))));
        cbn [negb]; split.
      * intros Hnull. apply not_elem_of_cons in Hnull as [_ Hnull].
        now apply (proj1 (IH lines)).
      * intros lines' Hret. apply not_elem_of_cons. split; [congruence|].
        exact (proj2 (IH lines) lines' Hret).
      * intros Hnull. apply not_elem_of_cons in Hnull as [_ Hnull].
        rewrite (proj1 (IH _) Hnull), <- app_assoc. reflexivity.
      * intros lines' Hret. apply not_elem_of_cons. split; [congruence|].
        exact (proj2 (IH _) lines' Hret).
Qed.

Lemma omap_turnLine_nonempty (turns : list JSON) (line : string) (lines : list string) :
  omap turnLine turns = line :: lines → line ≠ "".
Proof.
  induction turns as [|turn rest IH]; [discriminate|].
  cbn [omap list_omap]. destruct (turnLine turn) as [l|] eqn:Hturn; [|exact IH].
  intros [= <- _]. now apply (turnLine_nonempty turn).
Qed.

(** What [extractNinjasText] makes of a record that is not [null]. *)
Lemma extractNinjasText_exact (raw : JSON) (symbol : string) (p : FiscalPeriod)
  (apiKey : string) :
  raw ≠ JNull →
  (JNull ∉ speakerTurns raw →
   extractNinjasText raw symbol p
   = if Str.isEmpty (textOf (NinjasTranscriptProvider apiKey) raw)
     then Throw (TranscriptNotFoundError symbol (periodLabel p) "API Ninjas")
     else Return (textOf (NinjasTranscriptProvider apiKey) raw))
  ∧ (∀ text, extractNinjasText raw symbol p = Return text → JNull ∉ speakerTurns raw).
Proof.
  intros Hnn. unfold extractNinjasText, textOf, speakerTurns, fieldText.
  rewrite !(getProp_not_null raw _ Hnn). cbn [mbind completion_bind].
  set (split := nullish (propOf raw "transcript_split")
                        (propOf raw "transcript_by_speaker")).
  set (free := trim (ToString (nullish (propOf raw "transcript") (Some (JStr ""))))).
  assert (Hfree : (if negb (Str.isEmpty free) then Return free
                   else Throw (TranscriptNotFoundError symbol (periodLabel p) "API Ninjas"))
                  = (if Str.isEmpty free
                     then Throw (TranscriptNotFoundError symbol (periodLabel p) "API Ninjas")
                     else Return free)).
  { now destruct (Str.isEmpty free). }
  destruct split as [[| | | |[|turn rest]|]|]; cbn [mbind completion_bind];
    try (split; [intros _; exact Hfree|intros text _; apply not_elem_of_nil]).
  destruct (speakerLines_exact (turn :: rest) []) as [Hlines Hnull]. split.
  - intros Hturns. rewrite (Hlines Hturns). cbn [app mbind completion_bind].
    destruct (omap turnLine (turn :: rest)) as [|line lines] eqn:Hmap; [exact Hfree|].
    pose proof (join_nonempty (newline ++ newline) line lines
                  (omap_turnLine_nonempty _ _ _ Hmap)) as Hjoin.
    destruct (Str.isEmpty (Str.join _ _)) eqn:He; [|reflexivity].
    apply isEmpty_spec in He. now elim Hjoin.
  - intros text. destruct (speakerLines (turn :: rest) []) as [lines|e] eqn:Hloop;
      [|discriminate]. intros _. now apply (Hnull lines).
Qed.

(** X25. [extractNinjasText] reads the speaker turns first, those of
    [transcript_split], or of [transcript_by_speaker] when that field is
    missing or [null]: when a turn has a text, the result is the lines
    [speaker: text] of the turns that have one, separated by an empty line,
    and the field [transcript] is not read.  Otherwise the result is the
    trimmed field [transcript], and when that is empty too the record has no
    transcript.  A turn that is [null] is the only thing that makes it fail
    otherwise. *)
Theorem extractNinjasText_reads_turns_first (raw : JSON) (symbol : string)
  (p : FiscalPeriod) :
  raw ≠ JNull →
  let lines := omap turnLine (speakerTurns raw) in
  (JNull ∉ speakerTurns raw →
   extractNinjasText raw symbol p
   = match lines with
     | _ :: _ => Return (Str.join (newline ++ newline) lines)
     | [] =>
         if Str.isEmpty (fieldText raw "transcript")
         then Throw (TranscriptNotFoundError symbol (periodLabel p) "API Ninjas")
         else Return (fieldText raw "transcript")
     end)
  ∧ (JNull ∈ speakerTurns raw →
     ∃ msg, extractNinjasText raw symbol p = Throw (TypeError msg)).
Proof.
  intros Hnn lines. split.
  - intros Hturns.
    rewrite (proj1 (extractNinjasText_exact raw symbol p "" Hnn) Hturns).
    unfold textOf. fold lines. destruct lines as [|line rest] eqn:Hlines; [reflexivity|].
    pose proof (join_nonempty (newline ++ newline) line rest
                  (omap_turnLine_nonempty _ _ _ Hlines)) as Hjoin.
    destruct (Str.isEmpty (Str.join _ _)) eqn:He; [|reflexivity].
    apply isEmpty_spec in He. now elim Hjoin.
  - intros Hin. unfold extractNinjasText, speakerTurns in *.
    rewrite !(getProp_not_null raw _ Hnn). cbn [mbind completion_bind].
    destruct (nullish (propOf raw "transcript_split") (propOf raw "transcript_by_speaker"))
      as [[| | | |[|turn rest]|]|]; try (now apply elem_of_nil in Hin).
    assert (Hthrow : ∀ turns acc, JNull ∈ turns →
              ∃ msg, speakerLines turns acc = Throw (TypeError msg)).
    { clear. intros turns. induction turns as [|turn rest IH]; intros acc Hin.
      - now apply elem_of_nil in Hin.
      - assert (Hcases : turn = JNull ∨ turn ≠ JNull)
          by (destruct turn; [now left|right; discriminate..]).
        destruct Hcases as [->|Hnn]; [eexists; reflexivity|].
        apply elem_of_cons in Hin as [Heq|Hin]; [congruence|].
        cbn [speakerLines]. rewrite !(getProp_not_null turn _ Hnn).
        cbn [mbind completion_bind].
        destruct (negb _); now apply IH. }
    destruct (Hthrow (turn :: rest) [] Hin) as (msg & ->). eexists. reflexivity.
Qed.

(** X26. A transcript that a provider returns carries the symbol in upper
    case and the call date as it was given; its record is the parsed body of
    a success answer, or the first element of that body when it is an array;
    and its text is the text read in that record, which is not empty. *)
Theorem fetchTranscript_returns (p : Provider) (symbol callDate : string)
  (reply : FetchOutcome) (tr : Transcript) :
  fst (fetchTranscript p symbol callDate reply) = Return tr →
  TranscriptProvider.symbol tr = toUpperCase symbol
  ∧ TranscriptProvider.callDate tr = callDate
  ∧ (∃ res data,
       reply = Resolved res ∧ ok res = true ∧ json res = Some data
       ∧ firstRecord data = Some (TranscriptProvider.raw tr))
  ∧ text tr = textOf p (TranscriptProvider.raw tr)
  ∧ text tr ≠ "".
Proof.
  destruct p as [apiKey|apiKey]; cbn [fetchTranscript];
    unfold ninjasFetchTranscript, fmpFetchTranscript; cbv zeta;
    (destruct (dateToFiscalYearQuarter callDate) as [period|e]; [|discriminate]);
    (destruct reply as [e|res]; [discriminate|]);
    (destruct (N.eqb (status res) 404); [discriminate|]);
    (destruct (ok res) eqn:Hok; cbn [negb]; [|discriminate]);
    (destruct (json res) as [data|] eqn:Hjson; [|discriminate]).
  - destruct (firstRecord data) as [raw|] eqn:Hfirst; [|discriminate].
    destruct (falsy (Some raw) || negb (typeofObject (Some raw))) eqn:Hobj; [discriminate|].
    pose proof (truthy_object_not_null raw Hobj) as Hnn.
    destruct (extractNinjasText_exact raw symbol period apiKey Hnn) as [Hexact Hnull].
    cbn [fst]. destruct (extractNinjasText raw symbol period) as [text|e] eqn:Htext;
      cbn [mbind completion_bind]; [|discriminate].
    intros [= <-]. cbn [TranscriptProvider.symbol TranscriptProvider.callDate
                        TranscriptProvider.raw TranscriptProvider.text].
    specialize (Hexact (Hnull text eq_refl)).
    destruct (Str.isEmpty (textOf (NinjasTranscriptProvider apiKey) raw)) eqn:He;
      [discriminate|].
    assert (Hne : textOf (NinjasTranscriptProvider apiKey) raw ≠ "").
    { intros Hempty. rewrite Hempty in He. discriminate. }
    injection Hexact as ->.
    split; [reflexivity|]. split; [reflexivity|].
    split; [exists res, data; auto|]. split; [reflexivity|exact Hne].
  - destruct (isFmpErrorEnvelope data).
    { cbn [fst]. destruct (getProp data "Error Message"); discriminate. }
    destruct (firstRecord data) as [raw|] eqn:Hfirst; [|discriminate].
    destruct (falsy (Some raw) || negb (typeofObject (Some raw))) eqn:Hobj; [discriminate|].
    pose proof (truthy_object_not_null raw Hobj) as Hnn.
    cbn [fst]. rewrite (getProp_not_null raw _ Hnn). cbn [mbind completion_bind].
    fold (fieldText raw "content").
    destruct (Str.isEmpty (fieldText raw "content")) eqn:He; [discriminate|].
    assert (Hne : fieldText raw "content" ≠ "").
    { intros Hempty. rewrite Hempty in He. discriminate. }
    intros [= <-]. cbn [TranscriptProvider.symbol TranscriptProvider.callDate
                        TranscriptProvider.raw TranscriptProvider.text textOf].
    split; [reflexivity|]. split; [reflexivity|].
    split; [exists res, data; auto|]. split; [reflexivity|exact Hne].
Qed.

End ProviderMore.

(** ** The Builder on the network *)

Section NetworkMore.
Context `{Host}.

Lemma foldl_addEntry_unusable (data : list JSON) (map : gmap string string) :
  Forall (fun item => stockEntry item = None) data → foldl addEntry map data = map.
Proof.
  revert map. induction data as [|item data IH]; intros map Hdata; [reflexivity|].
  inversion_clear Hdata as [|? ? Hitem Hrest]. cbn [foldl]. rewrite (IH _ Hrest).
  unfold addEntry. now rewrite Hitem.
Qed.

(** X27. After a miss of the cache the Builder never returns an empty map:
    the map it returns is the one the loop built from the array of the stock
    list, and it is not empty.  An empty array is an error, and so is an
    array none of whose records gives a symbol and an exchange. *)
Theorem buildFromNetwork_never_empty (apiKey : string) (w : World) (data : list JSON) :
  fst (fetchJson (stockListUrl apiKey) (network w)) = Return (JArr data) →
  (∀ map, fst (buildFromNetwork apiKey w) = Return map →
          map ≠ ∅ ∧ stockLoop data ∅ = Return map)
  ∧ (data = [] →
     fst (buildFromNetwork apiKey w)
     = Throw (Error ("[FMP] stock-list: response was an empty array — "
                     ++ "verify API key permissions or try again later.")))
  ∧ (data ≠ [] → JNull ∉ data → Forall (fun item => stockEntry item = None) data →
     fst (buildFromNetwork apiKey w)
     = Throw (Error ("[FMP] stock-list: parsed 0 valid symbol→exchange pairs. "
                     ++ "Response shape may have changed — inspect the raw payload."))).
Proof.
  intros Hfetch. unfold buildFromNetwork.
  destruct (fetchJson (stockListUrl apiKey) (network w)) as [r t]. cbn [fst] in Hfetch.
  subst r. split; [|split].
  - intros map. destruct data as [|item data]; [discriminate|].
    destruct (stockLoop (item :: data) ∅) as [map'|e]; [|discriminate].
    destruct (Nat.eqb (size map') 0) eqn:Hsize; [discriminate|].
    cbn [fst]. intros [= <-]. split; [|reflexivity].
    intros ->. rewrite map_size_empty in Hsize. discriminate.
  - now intros ->.
  - intros Hdata Hnull Hunusable. destruct data as [|item data]; [now elim Hdata|].
    rewrite (stockLoop_spec _ _ Hnull), (foldl_addEntry_unusable _ _ Hunusable).
    reflexivity.
Qed.

End NetworkMore.

(** ** Concrete cases of the further properties *)

Import Cases.

(** X1 on the arguments of a week of January. *)
Lemma parseArgs_returns_ordered_dates_case :
  Run.parseArgs someArgv = Return someArgs
  ∧ (Run.ISO_RE (Run.from someArgs) = true ∧ Run.ISO_RE (Run.to someArgs) = true
     ∧ (dayNumber (Run.from someArgs) ≤ dayNumber (Run.to someArgs))%Z
     ∧ (Run.from someArgs = Run.DEFAULT_FROM ∨ In (Run.from someArgs) (skipn 2 someArgv))
     ∧ (Run.to someArgs = Run.DEFAULT_TO ∨ In (Run.to someArgs) (skipn 2 someArgv))).
Proof.
  split; [reflexivity|].
  exact (parseArgs_returns_ordered_dates someArgv someArgs eq_refl).
Defined.

(** X2 on a value that is not a date and is overridden. *)
Lemma parseFlags_reads_left_to_right_case :
  Run.parseFlags ["--from"; "not-a-date"] Run.DEFAULT_FROM Run.DEFAULT_TO
  = Return ("not-a-date", Run.DEFAULT_TO)
  ∧ Run.parseFlags (["--from"; "not-a-date"] ++ ["-f"; "2026-02-25"])
      Run.DEFAULT_FROM Run.DEFAULT_TO
    = Run.parseFlags ["-f"; "2026-02-25"] "not-a-date" Run.DEFAULT_TO
  ∧ Run.parseArgs ["node"; "run.ts"; "--from"; "not-a-date"; "-f"; "2026-02-25"]
    = Return {| Run.from := "2026-02-25"; Run.to := Run.DEFAULT_TO |}.
Proof.
  split; [reflexivity|]. split; [|reflexivity].
  exact (proj1 (parseFlags_reads_left_to_right ["--from"; "not-a-date"] ["-f"; "2026-02-25"]
                  Run.DEFAULT_FROM Run.DEFAULT_TO "not-a-date" Run.DEFAULT_TO eq_refl)).
Defined.

(** X3 on a flag followed by another flag. *)
Lemma parseArgs_flag_errors_case :
  Run.parseFlags [] Run.DEFAULT_FROM Run.DEFAULT_TO
  = Return (Run.DEFAULT_FROM, Run.DEFAULT_TO)
  ∧ Run.parseArgs ["node"; "run.ts"; "--to"; "-f"; "2026-01-05"]
    = Throw (Run.requiresValue "--to")
  ∧ Run.parseArgs ["node"; "run.ts"; "2026-01-05"]
    = Throw (Run.unknownFlag "2026-01-05").
Proof.
  split; [reflexivity|]. split; [|reflexivity].
  apply (proj2 (parseArgs_flag_errors "node" "run.ts" [] ["-f"; "2026-01-05"]
                  Run.DEFAULT_FROM Run.DEFAULT_TO "--to" eq_refl)).
  - right; right; left. reflexivity.
  - right. reflexivity.
Defined.

(** X4 on the arguments of a week of January. *)
Lemma parseArgs_dates_in_calendar_url_case :
  Run.parseArgs someArgv = Return someArgs
  ∧ calendarUrl (Run.from someArgs) (Run.to someArgs) "k"
    = "https://financialmodelingprep.com/stable/earnings-calendar?from=2026-01-05&to=2026-01-09&apikey=k".
Proof.
  split; [reflexivity|].
  destruct (parseArgs_dates_in_calendar_url someArgv someArgs "k" eq_refl) as (_ & _ & Hurl).
  exact Hurl.
Defined.

(** X5 on a key with spaces around it. *)
Lemma requireEnv_key_is_accepted_case :
  Run.requireEnv someEnv "FMP_API_KEY" = Return "fmp-key"
  ∧ assertApiKey "fmp-key" "fetchFmpEarningsCalendar" = Return tt
  ∧ newFmpTranscriptProvider "fmp-key" = Return (FmpTranscriptProvider "fmp-key").
Proof.
  split; [vm_compute; reflexivity|].
  destruct (requireEnv_key_is_accepted someEnv "FMP_API_KEY" "fmp-key"
              "fetchFmpEarningsCalendar" ltac:(vm_compute; reflexivity))
    as (_ & _ & _ & Hassert & _ & Hfmp).
  split; [exact Hassert|exact Hfmp].
Defined.

(** X7 on a run whose last argument is a flag. *)
Lemma run_checks_before_any_effect_case :
  Run.parseArgs ["node"; "run.ts"; "--from"] = Throw (Run.requiresValue "--from")
  ∧ ∀ H : Host,
      Run.run (process ["node"; "run.ts"; "--from"] someEnv)
      = (1, [Run.Print (Run.Fatal "Flag --from requires a YYYY-MM-DD value.")]).
Proof.
  split; [reflexivity|]. intros H.
  apply (run_checks_before_any_effect (process ["node"; "run.ts"; "--from"] someEnv)
           (Run.requiresValue "--from")).
  left. reflexivity.
Defined.

(** X8 on a run without the key of API Ninjas. *)
Lemma main_fatal_causes_case :
  let p := process someArgv {[ "FMP_API_KEY" := "k" ]} in
  let e := notSet "NINJAS_API_KEY" in
  (∀ H : Host, fst (Run.main p) = Throw e)
  ∧ ∀ H : Host,
      Run.parseArgs (Run.argv p) = Throw e
      ∨ Run.requireEnv (Run.env p) "FMP_API_KEY" = Throw e
      ∨ Run.requireEnv (Run.env p) "NINJAS_API_KEY" = Throw e
      ∨ ∃ args fmpKey,
          Run.parseArgs (Run.argv p) = Return args
          ∧ Run.requireEnv (Run.env p) "FMP_API_KEY" = Return fmpKey
          ∧ fst (fetchUsEarningsCalendar (Run.from args) (Run.to args) fmpKey
                   {| keepUnknown := None |} (Run.calendarNetwork p) (Run.world p)
                   (Run.calendarFirst p)) = Throw e.
Proof.
  cbv zeta.
  assert (Hmain : ∀ H : Host,
            fst (Run.main (process someArgv {[ "FMP_API_KEY" := "k" ]}))
            = Throw (notSet "NINJAS_API_KEY")).
  { intros H. vm_compute. reflexivity. }
  split; [exact Hmain|]. intros H.
  exact (main_fatal_causes (process someArgv {[ "FMP_API_KEY" := "k" ]})
           (notSet "NINJAS_API_KEY") (Hmain H)).
Defined.

(** X10 on a network that fails, then answers 429, then answers. *)
Lemma fetchJson_returns_last_body_case :
  fst (fetchJson "https://example.test/x?apikey=k" (flaky (JArr []))) = Return (JArr [])
  ∧ ∃ k res,
      requests (snd (fetchJson "https://example.test/x?apikey=k" (flaky (JArr [])))) = S k
      ∧ k < 3
      ∧ replies (flaky (JArr [])) k = Resolved res
      ∧ ok res = true ∧ json res = Some (JArr []) ∧ isErrorEnvelope (JArr []) = false
      ∧ ∀ j, j < k → retryable (replies (flaky (JArr [])) j) = true.
Proof.
  split; [vm_compute; reflexivity|].
  exact (fetchJson_returns_last_body "https://example.test/x?apikey=k" (flaky (JArr []))
           (JArr []) ltac:(vm_compute; reflexivity)).
Defined.

(** X11 on a [Retry-After] header that gives a date. *)
Lemma fetchJson_retry_after_date_case :
  (replies httpDate 0
   = Resolved {| status := 429; statusText := "Too Many Requests";
                 retryAfter := Some "Wed, 21 Oct 2015 07:28:00 GMT"; json := None |}
   ∧ isAlpha "W" = true)
  ∧ ∃ t, snd (fetchJson "https://example.test/x" httpDate)
         = Fetch "https://example.test/x" [] :: Sleep Num.NaN
           :: Fetch "https://example.test/x" [] :: t.
Proof.
  split; [split; reflexivity|].
  exact (fetchJson_retry_after_date "https://example.test/x" httpDate _ "W"
           "ed, 21 Oct 2015 07:28:00 GMT" eq_refl (or_introl eq_refl) eq_refl eq_refl).
Defined.

(** X12 on the payload of three records. *)
Lemma fetchFmpEarningsCalendar_keeps_usable_records_case :
  let net := always (response 200 "OK" (Some calendarPayload)) in
  let url := calendarUrl "2026-02-24" "2026-02-28" "k" in
  let t := [Fetch url []; Console (WarnSkippingRecord zmRecord);
            Console (WarnSkippingRecord blankRecord)] in
  (∀ H : Host,
     fetchFmpEarningsCalendar "2026-02-24" "2026-02-28" "k" net = (Return [nvdaEvent], t))
  ∧ ∀ H : Host,
      ∃ data,
        fst (fetchJson url net) = Return (JArr data)
        ∧ (JNull ∉ data)
        ∧ List.map FmpEarnings.raw [nvdaEvent] = List.filter usable data
        ∧ warned t = List.filter (fun item => negb (usable item)) data
        ∧ t = (snd (fetchJson url net)
               ++ List.map (fun item => Console (WarnSkippingRecord item))
                    (List.filter (fun item => negb (usable item)) data))%list.
Proof.
  cbv zeta.
  assert (Hrun : ∀ H : Host,
            fetchFmpEarningsCalendar "2026-02-24" "2026-02-28" "k"
              (always (response 200 "OK" (Some calendarPayload)))
            = (Return [nvdaEvent],
               [Fetch (calendarUrl "2026-02-24" "2026-02-28" "k") [];
                Console (WarnSkippingRecord zmRecord);
                Console (WarnSkippingRecord blankRecord)])).
  { intros H. vm_compute. reflexivity. }
  split; [exact Hrun|]. intros H.
  exact (fetchFmpEarningsCalendar_keeps_usable_records _ _ _ _ _ _ (Hrun H)).
Defined.

(** X13 on a payload whose only record is [null]. *)
Lemma fetchFmpEarningsCalendar_bad_payload_case :
  let net := always (response 200 "OK" (Some (JArr [JNull]))) in
  (trim "k" ≠ ""
   ∧ fst (fetchJson (calendarUrl "2026-02-24" "2026-02-28" "k") net) = Return (JArr [JNull]))
  ∧ ∀ H : Host,
      JNull ∈ [JNull] →
      ∃ msg, fst (fetchFmpEarningsCalendar "2026-02-24" "2026-02-28" "k" net)
             = Throw (TypeError msg).
Proof.
  cbv zeta. split; [split; [discriminate|vm_compute; reflexivity]|]. intros H.
  exact (fetchFmpEarningsCalendar_bad_payload "2026-02-24" "2026-02-28" "k"
           (always (response 200 "OK" (Some (JArr [JNull])))) (JArr [JNull])
           ltac:(discriminate) ltac:(vm_compute; reflexivity)).
Defined.

(** X14 on a key made of three spaces. *)
Lemma blank_api_key_is_rejected_first_case :
  trim "   " = ""
  ∧ ∀ (H : Host) w,
      buildSymbolToExchangeMap "   " w
      = (Throw (Error ("[FMP] Missing API key in buildSymbolToExchangeMap. "
                       ++ "Set FMP_API_KEY in your environment or .env file.")), []).
Proof.
  split; [reflexivity|]. intros H.
  exact (proj1 (proj2 (blank_api_key_is_rejected_first "   " eq_refl))).
Defined.

(** X15 on two records for one symbol. *)
Lemma stockLoop_last_record_wins_case :
  (JNull ∉ twoListings)
  ∧ ∀ H : Host,
      ∃ map,
        stockLoop twoListings ∅ = Return map
        ∧ (∀ sym, map !! sym = last (omap (entryFor sym) twoListings))
        ∧ map_Forall (fun sym exch => sym ≠ "" ∧ exch ≠ "") map.
Proof.
  assert (Hnull : JNull ∉ twoListings).
  { unfold twoListings. intros Hin.
    apply elem_of_cons in Hin as [Hin|Hin]; [discriminate|].
    apply elem_of_cons in Hin as [Hin|Hin]; [discriminate|].
    now apply elem_of_nil in Hin. }
  split; [exact Hnull|]. intros H.
  exact (stockLoop_last_record_wins twoListings Hnull).
Defined.

(** X17 on the cache written one hour ago. *)
Lemma persistCache_tryLoadCache_round_trip_case :
  (cacheFile written
   = Text (Some (cachePayload (Num.ofZ (someNow - oneHour)) (map_to_list someMap)))
   ∧ stale (now written) (Num.ofZ (someNow - oneHour)) = false)
  ∧ ∀ H : Host,
      tryLoadCache written
      = (Return (Some (someMap, Num.ofZ (someNow - oneHour))), [ReadFile CACHE_PATH]).
Proof.
  split; [split; [reflexivity|vm_compute; reflexivity]|]. intros H.
  exact (proj1 (proj1 (persistCache_tryLoadCache_round_trip written someMap
                         (Num.ofZ (someNow - oneHour)) eq_refl)
                  ltac:(vm_compute; reflexivity))).
Defined.

(** X21 on a call date that is a word. *)
Lemma dateToFiscalYearQuarter_rejects_case :
  dashFree "tomorrow" = true
  ∧ ∀ H : Host,
      dateToFiscalYearQuarter "tomorrow" = Throw (invalidCallDate "tomorrow")
      ∧ ∀ p symbol reply,
          fetchTranscript p symbol "tomorrow" reply
          = (Throw (invalidCallDate "tomorrow"), []).
Proof.
  split; [reflexivity|]. intros H.
  exact (dateToFiscalYearQuarter_rejects "tomorrow" (or_introl eq_refl)).
Defined.

(** X22 on the month 13. *)
Lemma dateToFiscalYearQuarter_month_not_checked_case :
  ((2026 ≤ 9999)%N ∧ (13 ≤ 13 ≤ 99)%N)
  ∧ dateToFiscalYearQuarter "2026-13-45"
    = Return {| year := Num.ofZ 2026; quarter := Num.ofZ 3 |}.
Proof.
  split; [lia|].
  exact (dateToFiscalYearQuarter_month_not_checked 2026 13 "45"
           ltac:(lia) ltac:(right; lia)).
Defined.

(** X23 on an answer 429. *)
Lemma fetchTranscript_one_request_case :
  let period := {| year := Num.ofZ 2025; quarter := Num.ofZ 4 |} in
  let reply := Resolved (response 429 "Too Many Requests" None) in
  dateToFiscalYearQuarter "2026-02-25" = Return period
  ∧ ∀ H : Host,
      snd (fetchTranscript (NinjasTranscriptProvider "k") "nvda" "2026-02-25" reply)
      = [Fetch "https://api.api-ninjas.com/v1/earningstranscript?ticker=NVDA&year=2025&quarter=4"
           [("X-Api-Key", "k")]]
      ∧ fst (fetchTranscript (NinjasTranscriptProvider "k") "nvda" "2026-02-25" reply)
        = Throw (Error "[API Ninjas] HTTP 429 for nvda 2025Q4.").
Proof.
  cbv zeta. split; [vm_compute; reflexivity|]. intros H.
  destruct (fetchTranscript_one_request (NinjasTranscriptProvider "k") "nvda" "2026-02-25"
              (Resolved (response 429 "Too Many Requests" None))
              {| year := Num.ofZ 2025; quarter := Num.ofZ 4 |}
              ltac:(vm_compute; reflexivity)) as (Hone & _ & Hstatus).
  split; [exact Hone|].
  exact (Hstatus _ eq_refl eq_refl ltac:(discriminate)).
Defined.

(** X25 on a record with two speaker turns and a plain transcript. *)
Lemma extractNinjasText_reads_turns_first_case :
  (twoTurns ≠ JNull ∧ JNull ∉ speakerTurns twoTurns)
  ∧ extractNinjasText twoTurns "NVDA" {| year := Num.ofZ 2025; quarter := Num.ofZ 4 |}
    = Return "CEO: Hello.".
Proof.
  assert (Hnull : JNull ∉ speakerTurns twoTurns).
  { intros Hin. vm_compute in Hin.
    apply elem_of_cons in Hin as [Hin|Hin]; [discriminate|].
    apply elem_of_cons in Hin as [Hin|Hin]; [discriminate|].
    now apply elem_of_nil in Hin. }
  split; [split; [discriminate|exact Hnull]|].
  exact (proj1 (extractNinjasText_reads_turns_first twoTurns "NVDA"
                  {| year := Num.ofZ 2025; quarter := Num.ofZ 4 |} ltac:(discriminate))
           Hnull).
Defined.

(** X26 on a plain transcript. *)
Lemma fetchTranscript_returns_case :
  let reply := Resolved (response 200 "OK" (Some plain)) in
  (∀ H : Host,
     fst (fetchTranscript (NinjasTranscriptProvider "k") "nvda" "2026-02-25" reply)
     = Return plainTranscript)
  ∧ ∀ H : Host,
      TranscriptProvider.symbol plainTranscript = toUpperCase "nvda"
      ∧ TranscriptProvider.callDate plainTranscript = "2026-02-25"
      ∧ (∃ res data,
           reply = Resolved res ∧ ok res = true ∧ json res = Some data
           ∧ firstRecord data = Some (TranscriptProvider.raw plainTranscript))
      ∧ text plainTranscript
        = textOf (NinjasTranscriptProvider "k") (TranscriptProvider.raw plainTranscript)
      ∧ text plainTranscript ≠ "".
Proof.
  cbv zeta.
  assert (Hrun : ∀ H : Host,
            fst (fetchTranscript (NinjasTranscriptProvider "k") "nvda" "2026-02-25"
                   (Resolved (response 200 "OK" (Some plain))))
            = Return plainTranscript).
  { intros H. vm_compute. reflexivity. }
  split; [exact Hrun|]. intros H.
  exact (fetchTranscript_returns _ _ _ _ _ (Hrun H)).
Defined.

(** X27 on a stock list that is an empty array. *)
Lemma buildFromNetwork_never_empty_case :
  fst (fetchJson (stockListUrl "k") (network emptyList)) = Return (JArr [])
  ∧ ∀ H : Host,
      fst (buildFromNetwork "k" emptyList)
      = Throw (Error ("[FMP] stock-list: response was an empty array — "
                      ++ "verify API key permissions or try again later.")).
Proof.
  split; [vm_compute; reflexivity|]. intros H.
  exact (proj1 (proj2 (buildFromNetwork_never_empty "k" emptyList []
                         ltac:(vm_compute; reflexivity))) eq_refl).
Defined.
